(** * A browser-automation agent: planner gateway, action executor, plan executor

    Shallow embedding of [Code/agent.py], [Code/playwright_controller.py] and
    [Code/gemini_client.py].  Python values are a small universe of JSON-like
    data, the browser driver and the language-model service are oracles of an
    environment, and every method is a function in a state-and-exception monad
    whose state carries the log of the external calls made so far. *)

From Stdlib Require Import String Ascii List ZArith Bool Lia ListSet PeanoNat.
Import ListNotations.
Open Scope string_scope.
Open Scope list_scope.
Set Warnings "-register-all".

(** ** Python values *)

(** JSON-like Python data.  A [dict] keeps its items in insertion order and is
    read with first-match lookup; a float is the exact decimal [m * 10 ^ e]. *)
Inductive pyval : Type :=
| PNone
| PBool (b : bool)
| PInt (n : Z)
| PFloat (m e : Z)
| PStr (s : string)
| PList (l : list pyval)
| PDict (d : list (string * pyval)).

Definition dict := list (string * pyval).

(** [bool(v)]. *)
Definition truthy (v : pyval) : bool :=
  match v with
  | PNone => false
  | PBool b => b
  | PInt n => negb (n =? 0)%Z
  | PFloat m _ => negb (m =? 0)%Z
  | PStr s => negb (s =? EmptyString)
  | PList l => match l with [] => false | _ => true end
  | PDict d => match d with [] => false | _ => true end
  end.

(** [a or b]: the first operand when it is truthy, else the second. *)
Definition py_or (a b : pyval) : pyval := if truthy a then a else b.

Fixpoint dict_lookup (k : string) (d : dict) : option pyval :=
  match d with
  | [] => None
  | (k', v) :: rest => if k' =? k then Some v else dict_lookup k rest
  end.

(** [d.get(k, dflt)] and [d.get(k)]. *)
Definition dict_get (d : dict) (k : string) (dflt : pyval) : pyval :=
  match dict_lookup k d with Some v => v | None => dflt end.

Definition get (d : dict) (k : string) : pyval := dict_get d k PNone.

(** [k in d]. *)
Definition has_key (d : dict) (k : string) : bool :=
  match dict_lookup k d with Some _ => true | None => false end.

(** [d[k] = v]: overwrite in place when the key exists, else append. *)
Fixpoint dict_set (k : string) (v : pyval) (d : dict) : dict :=
  match d with
  | [] => [(k, v)]
  | (k', v') :: rest =>
      if k' =? k then (k', v) :: rest else (k', v') :: dict_set k v rest
  end.

(** [isinstance(v, dict)] and [isinstance(v, list)]. *)
Definition is_dict (v : pyval) : bool :=
  match v with PDict _ => true | _ => false end.
Definition is_list (v : pyval) : bool :=
  match v with PList _ => true | _ => false end.

(** [v == "literal"]. *)
Definition str_eq (v : pyval) (s : string) : bool :=
  match v with PStr t => t =? s | _ => false end.

(** [v in ("a", "b", ...)]. *)
Definition str_in (v : pyval) (l : list string) : bool :=
  existsb (str_eq v) l.

(** ** Python strings

    A string is a sequence of code points below 256. *)

Definition char_between (lo hi : nat) (c : ascii) : bool :=
  let n := nat_of_ascii c in ((lo <=? n) && (n <=? hi))%nat.

(** [str.isspace] on one character, also the class [\s] of [re]. *)
Definition is_space (c : ascii) : bool :=
  char_between 9 13 c || char_between 28 32 c
  || (nat_of_ascii c =? 133)%nat || (nat_of_ascii c =? 160)%nat.

(** The class [\w] of [re] on [str] patterns. *)
Definition is_word (c : ascii) : bool :=
  char_between 48 57 c || char_between 65 90 c || char_between 97 122 c
  || (nat_of_ascii c =? 95)%nat
  || (nat_of_ascii c =? 170)%nat || (nat_of_ascii c =? 181)%nat
  || (nat_of_ascii c =? 186)%nat
  || char_between 178 179 c || (nat_of_ascii c =? 185)%nat
  || char_between 188 190 c
  || char_between 192 214 c || char_between 216 246 c
  || char_between 248 255 c.

Definition lower_char (c : ascii) : ascii :=
  if char_between 65 90 c
     || (char_between 192 222 c && negb (nat_of_ascii c =? 215)%nat)
  then ascii_of_nat (nat_of_ascii c + 32) else c.

(** [s.lower()]. *)
Fixpoint lower (s : string) : string :=
  match s with
  | EmptyString => EmptyString
  | String c r => String (lower_char c) (lower r)
  end.

Fixpoint lstrip_by (p : ascii -> bool) (s : string) : string :=
  match s with
  | EmptyString => EmptyString
  | String c r => if p c then lstrip_by p r else s
  end.

Fixpoint rstrip_by (p : ascii -> bool) (s : string) : string :=
  match s with
  | EmptyString => EmptyString
  | String c r =>
      let r' := rstrip_by p r in
      if (r' =? EmptyString) && p c then EmptyString else String c r'
  end.

Definition strip_by (p : ascii -> bool) (s : string) : string :=
  rstrip_by p (lstrip_by p s).

(** [s.strip()]. *)
Definition strip (s : string) : string := strip_by is_space s.

Fixpoint char_in (c : ascii) (chars : string) : bool :=
  match chars with
  | EmptyString => false
  | String a r => (a =? c)%char || char_in c r
  end.

(** [s.strip(chars)] and [s.rstrip(chars)]. *)
Definition strip_chars (chars : string) (s : string) : string :=
  strip_by (fun c => char_in c chars) s.
Definition rstrip_chars (chars : string) (s : string) : string :=
  rstrip_by (fun c => char_in c chars) s.

(** [s.startswith(p)]. *)
Definition startswith (p s : string) : bool := String.prefix p s.

(** [x in s] for strings. *)
Fixpoint contains (x s : string) : bool :=
  String.prefix x s
  || match s with
     | EmptyString => false
     | String _ r => contains x r
     end.

(** [s.replace(old, new)] where [old] is one character, the only way the
    sources call it. *)
Fixpoint replace (old : ascii) (new : string) (s : string) : string :=
  match s with
  | EmptyString => EmptyString
  | String c r =>
      if (c =? old)%char then new ++ replace old new r
      else String c (replace old new r)
  end.

Definition dquote : ascii := ascii_of_nat 34.
Definition squote : ascii := ascii_of_nat 39.
Definition backtick : ascii := ascii_of_nat 96.
Definition backslash : ascii := ascii_of_nat 92.

(** The characters of the literal passed to [strip] by [_clean_url] and
    [goto]: backtick, single quote, double quote. *)
Definition quote_chars : string :=
  String backtick (String squote (String dquote EmptyString)).

(** ** [Agent._clean_url] *)

Definition _clean_url (url : string) : string :=
  if url =? EmptyString then EmptyString
  else
    let url := strip_chars quote_chars (strip url) in
    if negb (startswith "http" (lower url)) then EmptyString
    else replace backslash EmptyString (replace " "%char "%20" url).

(** ** Exceptions and results *)

(** A raised Python exception: its class name and [str(e)]. *)
Inductive exn : Type := Exn (cls msg : string).

Definition exn_cls (e : exn) : string := let 'Exn c _ := e in c.
Definition exn_msg (e : exn) : string := let 'Exn _ m := e in m.

Inductive res (A : Type) : Type :=
| Ok (a : A)
| Raise (e : exn).
Arguments Ok {A} a.
Arguments Raise {A} e.

Definition AttributeError_get (tyname : string) : exn :=
  Exn "AttributeError"
      (String squote tyname ++ String squote " object has no attribute "
       ++ String squote "get" ++ String squote EmptyString).

(** [type(v).__name__]. *)
Definition type_name (v : pyval) : string :=
  match v with
  | PNone => "NoneType"
  | PBool _ => "bool"
  | PInt _ => "int"
  | PFloat _ _ => "float"
  | PStr _ => "str"
  | PList _ => "list"
  | PDict _ => "dict"
  end.

(** ** [GeminiClient]: extraction of JSON from the response text *)

(** The greedy tail [[\s\S]*c] of the pattern: the longest prefix of [s] that
    ends in [c]. *)
Fixpoint through_last (c : ascii) (s : string) : option string :=
  match s with
  | EmptyString => None
  | String a r =>
      match through_last c r with
      | Some p => Some (String a p)
      | None => if (a =? c)%char then Some (String a EmptyString) else None
      end
  end.

(** [re.search(r"(\{[\s\S]*\}|\[[\s\S]*\])", text)]: the match at the leftmost
    position where one alternative applies, each alternative running to the
    last closing character of its kind. *)
Fixpoint search_json_span (text : string) : option string :=
  match text with
  | EmptyString => None
  | String a r =>
      if (a =? "{")%char then
        match through_last "}" r with
        | Some p => Some (String a p)
        | None => search_json_span r
        end
      else if (a =? "[")%char then
        match through_last "]" r with
        | Some p => Some (String a p)
        | None => search_json_span r
        end
      else search_json_span r
  end.

(** [re.sub(r"(\w+):", r'"\1":', s)], scanning with the pending run [w] of
    word characters: a maximal run directly followed by a colon is wrapped in
    double quotes. *)
Fixpoint quote_keys_from (w : string) (s : string) : string :=
  match s with
  | EmptyString => w
  | String c r =>
      if is_word c then quote_keys_from (w ++ String c EmptyString) r
      else if (c =? ":")%char && negb (w =? EmptyString) then
        String dquote w ++ String dquote (String ":" (quote_keys_from EmptyString r))
      else w ++ String c (quote_keys_from EmptyString r)
  end.

Definition quote_bare_keys (s : string) : string :=
  quote_keys_from EmptyString s.

(** The cleanup of a span that failed to parse. *)
Definition repair (json_str : string) : string :=
  quote_bare_keys (replace squote (String dquote EmptyString) json_str).

Definition is_JSONDecodeError (e : exn) : bool :=
  exn_cls e =? "JSONDecodeError".

Section Gemini.
(** [json.loads] of the Python library. *)
Variable json_loads : string -> res pyval.

(** [GeminiClient._extract_json_from_text]; [PNone] is Python's [None]. *)
Definition _extract_json_from_text (text : string) : pyval :=
  match search_json_span text with
  | None => PNone
  | Some json_str =>
      match json_loads json_str with
      | Ok v => v
      | Raise e =>
          if is_JSONDecodeError e then
            match json_loads (repair json_str) with
            | Ok v => v
            | Raise _ => PNone
            end
          else PNone
      end
  end.

(** [GeminiClient.plan_action] from the point where the candidate's parts
    have been joined into [joined]; [data] is the decoded HTTP response. *)
Definition plan_action_text (data : pyval) (joined : string) : pyval :=
  let text := strip joined in
  if text =? EmptyString then
    PDict [("error", PStr "Empty Gemini response"); ("raw", data)]
  else
    match _extract_json_from_text text with
    | PNone =>
        match json_loads text with
        | Ok v => v
        | Raise _ => PDict [("raw_text", PStr text)]
        end
    | parsed => parsed
    end.
End Gemini.

(** ** A reader for JSON texts

    The grammar of RFC 8259 as [json.loads] reads it in strict mode, over
    code points below 256: a [\u] escape above that range and the constants
    [NaN] and [Infinity] are refused.  [fuel] bounds the number of nested
    calls; [json_loads] gives it twice the length of the text. *)

Definition is_json_ws (c : ascii) : bool :=
  (c =? " ")%char || char_between 9 10 c || (nat_of_ascii c =? 13)%nat.

Fixpoint skip_ws (s : list ascii) : list ascii :=
  match s with
  | c :: r => if is_json_ws c then skip_ws r else s
  | [] => []
  end.

Definition is_digit (c : ascii) : bool := char_between 48 57 c.
Definition digit_val (c : ascii) : Z := Z.of_nat (nat_of_ascii c - 48).

(** Reads a run of digits: the number read so far, how many digits, the rest. *)
Fixpoint read_digits (acc : Z) (n : nat) (s : list ascii) : Z * nat * list ascii :=
  match s with
  | c :: r =>
      if is_digit c then read_digits (10 * acc + digit_val c)%Z (S n) r
      else (acc, n, s)
  | [] => (acc, n, [])
  end.

Definition hex_val (c : ascii) : option nat :=
  let n := nat_of_ascii c in
  if char_between 48 57 c then Some (n - 48)
  else if char_between 97 102 c then Some (n - 87)
  else if char_between 65 70 c then Some (n - 55)
  else None.

Definition read_hex4 (s : list ascii) : option (nat * list ascii) :=
  match s with
  | a :: b :: c :: d :: r =>
      match hex_val a, hex_val b, hex_val c, hex_val d with
      | Some x, Some y, Some z, Some t => Some (((x * 16 + y) * 16 + z) * 16 + t, r)
      | _, _, _, _ => None
      end
  | _ => None
  end.

(** The body of a string literal after its opening quote. *)
Fixpoint read_string (s : list ascii) (fuel : nat) : option (string * list ascii) :=
  match fuel with
  | O => None
  | S f =>
      match s with
      | [] => None
      | c :: r =>
          if (c =? dquote)%char then Some (EmptyString, r)
          else if (c =? backslash)%char then
            match r with
            | e :: r' =>
                let simple (x : ascii) :=
                  match read_string r' f with
                  | Some (t, rest) => Some (String x t, rest)
                  | None => None
                  end in
                if (e =? dquote)%char then simple dquote
                else if (e =? backslash)%char then simple backslash
                else if (e =? "/")%char then simple "/"%char
                else if (e =? "b")%char then simple (ascii_of_nat 8)
                else if (e =? "f")%char then simple (ascii_of_nat 12)
                else if (e =? "n")%char then simple (ascii_of_nat 10)
                else if (e =? "r")%char then simple (ascii_of_nat 13)
                else if (e =? "t")%char then simple (ascii_of_nat 9)
                else if (e =? "u")%char then
                  match read_hex4 r' with
                  | Some (n, r'') =>
                      if (n <? 256)%nat then
                        match read_string r'' f with
                        | Some (t, rest) => Some (String (ascii_of_nat n) t, rest)
                        | None => None
                        end
                      else None
                  | None => None
                  end
                else None
            | [] => None
            end
          else if (nat_of_ascii c <? 32)%nat then None
          else
            match read_string r f with
            | Some (t, rest) => Some (String c t, rest)
            | None => None
            end
      end
  end.

(** A number literal whose first character [c] is a digit or a minus sign. *)
Definition read_number (s : list ascii) : option (pyval * list ascii) :=
  let '(neg, s1) :=
    match s with
    | c :: r => if (c =? "-")%char then (true, r) else (false, s)
    | [] => (false, s)
    end in
  let sign (z : Z) := if neg then (- z)%Z else z in
  match s1 with
  | c :: r =>
      if is_digit c then
        let '(ip, s2) :=
          if (c =? "0")%char then (0%Z, r)
          else let '(v, _, rest) := read_digits 0 0 s1 in (v, rest) in
        let '(mant, fdigits, s3, has_frac, ok_frac) :=
          match s2 with
          | d :: r2 =>
              if (d =? ".")%char then
                let '(v, n, rest) := read_digits ip 0 r2 in
                (v, n, rest, true, negb (n =? 0)%nat)
              else (ip, 0, s2, false, true)
          | [] => (ip, 0, s2, false, true)
          end in
        if negb ok_frac then Some (PInt (sign ip), s2)
        else
          let with_exp (eneg : bool) (r3 : list ascii) :=
            let '(ev, n, rest) := read_digits 0 0 r3 in
            if (n =? 0)%nat then None
            else Some (PFloat (sign mant)
                              ((if eneg then - ev else ev) - Z.of_nat fdigits)%Z,
                       rest) in
          let no_exp :=
            if has_frac then Some (PFloat (sign mant) (- Z.of_nat fdigits)%Z, s3)
            else Some (PInt (sign ip), s3) in
          match s3 with
          | x :: r3 =>
              if (x =? "e")%char || (x =? "E")%char then
                let attempt :=
                  match r3 with
                  | y :: r4 =>
                      if (y =? "-")%char then with_exp true r4
                      else if (y =? "+")%char then with_exp false r4
                      else with_exp false r3
                  | [] => None
                  end in
                match attempt with
                | Some out => Some out
                | None => no_exp
                end
              else no_exp
          | [] => no_exp
          end
      else None
  | [] => None
  end.

Definition expect (lit : string) (v : pyval) (s : list ascii) : option (pyval * list ascii) :=
  let l := list_ascii_of_string lit in
  if list_eq_dec ascii_dec (firstn (List.length l) s) l
  then Some (v, skipn (List.length l) s) else None.

Fixpoint parse_value (fuel : nat) (s : list ascii) {struct fuel} : option (pyval * list ascii) :=
  match fuel with
  | O => None
  | S f =>
      match skip_ws s with
      | [] => None
      | c :: r =>
          if (c =? "[")%char then
            match skip_ws r with
            | x :: r' =>
                if (x =? "]")%char then Some (PList [], r')
                else parse_elements f r []
            | [] => None
            end
          else if (c =? "{")%char then
            match skip_ws r with
            | x :: r' =>
                if (x =? "}")%char then Some (PDict [], r')
                else parse_members f r []
            | [] => None
            end
          else if (c =? dquote)%char then
            match read_string r (S (List.length r)) with
            | Some (t, rest) => Some (PStr t, rest)
            | None => None
            end
          else if (c =? "n")%char then expect "null" PNone (c :: r)
          else if (c =? "t")%char then expect "true" (PBool true) (c :: r)
          else if (c =? "f")%char then expect "false" (PBool false) (c :: r)
          else read_number (c :: r)
      end
  end
with parse_elements (fuel : nat) (s : list ascii) (acc : list pyval) {struct fuel}
  : option (pyval * list ascii) :=
  match fuel with
  | O => None
  | S f =>
      match parse_value f s with
      | Some (v, r) =>
          match skip_ws r with
          | x :: r' =>
              if (x =? ",")%char then parse_elements f r' (acc ++ [v])
              else if (x =? "]")%char then Some (PList (acc ++ [v]), r')
              else None
          | [] => None
          end
      | None => None
      end
  end
with parse_members (fuel : nat) (s : list ascii) (acc : dict) {struct fuel}
  : option (pyval * list ascii) :=
  match fuel with
  | O => None
  | S f =>
      match skip_ws s with
      | q :: r =>
          if (q =? dquote)%char then
            match read_string r (S (List.length r)) with
            | Some (k, r1) =>
                match skip_ws r1 with
                | colon :: r2 =>
                    if (colon =? ":")%char then
                      match parse_value f r2 with
                      | Some (v, r3) =>
                          match skip_ws r3 with
                          | x :: r4 =>
                              if (x =? ",")%char then parse_members f r4 (dict_set k v acc)
                              else if (x =? "}")%char then Some (PDict (dict_set k v acc), r4)
                              else None
                          | [] => None
                          end
                      | None => None
                      end
                    else None
                | [] => None
                end
            | None => None
            end
          else None
      | [] => None
      end
  end.

(** [json.loads(s)] on a [str]: one value, whitespace around it, nothing
    else; any failure is a [JSONDecodeError]. *)
Definition json_loads (s : string) : res pyval :=
  let l := list_ascii_of_string s in
  match parse_value (2 * List.length l + 2) l with
  | Some (v, rest) =>
      match skip_ws rest with
      | [] => Ok v
      | _ => Raise (Exn "JSONDecodeError" "Extra data")
      end
  | None => Raise (Exn "JSONDecodeError" "Expecting value")
  end.

(** ** The world outside the program *)

(** Call sites of [time.sleep]. *)
Inductive sleep_site : Type :=
| SettleSleep   (* after a navigation in [Agent.run] *)
| RetrySleep    (* the pause between attempts in [execute_ui_plan] *)
| WaitSleep     (* a [wait] action in [execute_action] *)
| PollSleep.    (* the polling interval of the manual login *)

(** The prompts sent through [GeminiClient.plan_action]. *)
Inductive prompt : Type :=
| BaseUrlPrompt
| TaskUrlPrompt
| UiPlanPrompt (dom_snapshot : string)
| FeedbackPrompt (last_plan action_result : pyval) (dom_snapshot : string).

(** What the log records.  The first four are calls that leave the program;
    the last three mark progress of the program itself: entry into
    [execute_action], the end of one pass of the retry loop with the result
    it holds, and the verdict of [is_logged_in]. *)
Inductive event : Type :=
| EvDriver (method : string) (args : list pyval)
| EvSleep (site : sleep_site) (seconds : pyval)
| EvPlanner (p : prompt)
| EvFile (op path : string)
| EvExecuteAction (action : pyval)
| EvAttempt (idx attempt : nat) (result : pyval)
| EvProbe (logged_in : bool).

(** The environment answers every external call; an answer depends on the
    position of the call in the log, hence on everything that came before. *)
Record Env : Type := {
  ext_raises : nat -> option exn;     (* the call raises this exception *)
  drv_found : nat -> bool;            (* [query_selector] finds an element *)
  drv_text : nat -> string;           (* [page.content()], [page.url] *)
  drv_cookies : nat -> list string;   (* names of [context.cookies()] *)
  planner : nat -> pyval;             (* what [plan_action] returns *)
  latency : nat -> N;                 (* milliseconds the call takes *)
  loads : string -> res pyval;        (* [json.loads] *)
  py_str : pyval -> string;           (* the builtin [str] *)
  outdir : string
}.

Record State : Type := {
  trace : list event;
  clock : Z;                          (* milliseconds *)
  captured_names : set string;        (* [PlaywrightController.captured_names] *)
  last_dom_snapshot : option string;  (* [Agent.last_dom_snapshot] *)
  cookie_file : bool                  (* [cookies.json] exists in [outdir] *)
}.

Definition set_trace (t : list event) (st : State) : State :=
  {| trace := t; clock := clock st; captured_names := captured_names st;
     last_dom_snapshot := last_dom_snapshot st; cookie_file := cookie_file st |}.
Definition set_clock (c : Z) (st : State) : State :=
  {| trace := trace st; clock := c; captured_names := captured_names st;
     last_dom_snapshot := last_dom_snapshot st; cookie_file := cookie_file st |}.
Definition set_captured_names (s : set string) (st : State) : State :=
  {| trace := trace st; clock := clock st; captured_names := s;
     last_dom_snapshot := last_dom_snapshot st; cookie_file := cookie_file st |}.
Definition set_last_dom_snapshot (d : option string) (st : State) : State :=
  {| trace := trace st; clock := clock st; captured_names := captured_names st;
     last_dom_snapshot := d; cookie_file := cookie_file st |}.
Definition set_cookie_file (b : bool) (st : State) : State :=
  {| trace := trace st; clock := clock st; captured_names := captured_names st;
     last_dom_snapshot := last_dom_snapshot st; cookie_file := b |}.

(** ** The monad of the program: state and exceptions *)

Definition M (A : Type) : Type := State -> res A * State.

Definition ret {A} (a : A) : M A := fun st => (Ok a, st).
Definition raise {A} (e : exn) : M A := fun st => (Raise e, st).
Definition bind {A B} (m : M A) (f : A -> M B) : M B :=
  fun st =>
    match m st with
    | (Ok a, st') => f a st'
    | (Raise e, st') => (Raise e, st')
    end.

(** [try: m  except Exception as e: handler(e)]. *)
Definition try_catch {A} (m : M A) (handler : exn -> M A) : M A :=
  fun st =>
    match m st with
    | (Ok a, st') => (Ok a, st')
    | (Raise e, st') => handler e st'
    end.

Declare Scope monad_scope.
Delimit Scope monad_scope with monad.
Notation "x <- m ;; k" := (bind m (fun x => k))
  (at level 61, m at next level, right associativity) : monad_scope.
Notation "m ;; k" := (bind m (fun _ => k))
  (at level 61, right associativity) : monad_scope.
Open Scope monad_scope.

Definition read {A} (f : State -> A) : M A := fun st => (Ok (f st), st).
Definition write (f : State -> State) : M unit := fun st => (Ok tt, f st).

Definition emit (e : event) : M unit :=
  write (fun st => set_trace (trace st ++ [e]) st).
Definition elapse (ms : Z) : M unit :=
  write (fun st => set_clock (clock st + ms) st).

(** [time.time()], in milliseconds. *)
Definition time_time : M Z := read clock.

(** The duration [time.sleep] accepts: a non-negative number. *)
Definition sleep_ms (v : pyval) : res Z :=
  match v with
  | PInt n =>
      if (n <? 0)%Z then Raise (Exn "ValueError" "sleep length must be non-negative")
      else Ok (1000 * n)%Z
  | PBool b => Ok (if b then 1000 else 0)%Z
  | PFloat m e =>
      if (m <? 0)%Z then Raise (Exn "ValueError" "sleep length must be non-negative")
      else Ok (if (0 <=? e + 3)%Z then m * 10 ^ (e + 3) else m / 10 ^ (- (e + 3)))%Z
  | _ => Raise (Exn "TypeError" "an integer or float is required")
  end.

Definition half_second : pyval := PFloat 5 (-1).

Section Program.
Variable env : Env.

(** A call that leaves the program: logged, timed, and it may raise. *)
Definition external (e : event) : M nat :=
  k <- read (fun st => List.length (trace st)) ;;
  emit e ;;
  elapse (Z.of_N (latency env k)) ;;
  match ext_raises env k with
  | Some x => raise x
  | None => ret k
  end.

Definition driver_call (method : string) (args : list pyval) : M unit :=
  external (EvDriver method args) ;; ret tt.

Definition query_selector (selector : pyval) : M bool :=
  k <- external (EvDriver "page.query_selector" [selector]) ;;
  ret (drv_found env k).

Definition page_content : M string :=
  k <- external (EvDriver "page.content" []) ;; ret (drv_text env k).

Definition page_url : M string :=
  k <- external (EvDriver "page.url" []) ;; ret (drv_text env k).

Definition context_cookies : M (list string) :=
  k <- external (EvDriver "context.cookies" []) ;; ret (drv_cookies env k).

Definition file_call (op path : string) : M unit :=
  external (EvFile op path) ;; ret tt.

(** [time.sleep(seconds)]. *)
Definition time_sleep (site : sleep_site) (seconds : pyval) : M unit :=
  match sleep_ms seconds with
  | Raise e => raise e
  | Ok ms =>
      k <- read (fun st => List.length (trace st)) ;;
      emit (EvSleep site seconds) ;;
      elapse (ms + Z.of_N (latency env k))
  end.

(** [GeminiClient.plan_action]: transport and parse failures come back as
    values, so the call returns whatever the service made of the prompt. *)
Definition plan_action (p : prompt) : M pyval :=
  k <- read (fun st => List.length (trace st)) ;;
  emit (EvPlanner p) ;;
  elapse (Z.of_N (latency env k)) ;;
  ret (planner env k).

(** ** [PlaywrightController] *)

(** [os.path.join(a, b)]. *)
Definition path_join (a b : string) : string :=
  if startswith "/" b then b
  else if (a =? EmptyString) || (String.prefix "/" (String.substring (String.length a - 1) 1 a))
       then a ++ b
       else a ++ "/" ++ b.

Definition goto (url : option string) : M unit :=
  match url with
  | None => ret tt
  | Some u =>
      if u =? EmptyString then ret tt
      else
        let u := strip_chars quote_chars (strip u) in
        if negb (startswith "http" u) then ret tt
        else
          try_catch
            (driver_call "page.goto" [PStr u; PStr "networkidle"])
            (fun _ =>
               try_catch (driver_call "page.goto" [PStr u; PStr "load"])
                         (fun _ => ret tt))
  end.

Definition capture (label : string) : M (string * option string) :=
  names <- read captured_names ;;
  if set_mem string_dec label names then ret (EmptyString, None)
  else
    write (fun st => set_captured_names (set_add string_dec label names) st) ;;
    dom <- try_catch page_content (fun _ => ret "<no DOM captured>") ;;
    path <- try_catch
              (let path := path_join (outdir env) (label ++ ".png") in
               driver_call "page.screenshot" [PStr path; PBool true] ;;
               ret (Some path))
              (fun _ => ret None) ;;
    ret (dom, path).

(** The [try] block of [execute_action]. *)
Definition execute_action_body (action : dict) : M pyval :=
  let typ := py_or (get action "type") (get action "action") in
  if str_in typ ["fill"; "type"; "set_value"] then
    let selector := get action "selector" in
    let text := py_or (dict_get action "text" (PStr EmptyString))
                      (dict_get action "value" (PStr EmptyString)) in
    if truthy selector then
      driver_call "page.fill" [selector; text] ;;
      ret (PDict [("status", PStr "filled"); ("selector", selector)])
    else
      el <- query_selector (PStr "input, textarea") ;;
      if el then
        driver_call "element.fill" [text] ;;
        ret (PDict [("status", PStr "filled_first_input")])
      else ret (PDict [("status", PStr "no_input_found")])
  else if str_eq typ "click" then
    let selector := get action "selector" in
    let by_text := dict_get action "by_text" (PBool false) in
    let text := get action "text" in
    if truthy by_text && truthy text then
      el <- query_selector (PStr ("text=" ++ py_str env text)) ;;
      if el then
        driver_call "element.click" [] ;;
        ret (PDict [("status", PStr "clicked_by_text")])
      else
        el <- query_selector
                (PStr ("*:has-text(" ++ String dquote (py_str env text)
                       ++ String dquote ")")) ;;
        if el then
          driver_call "element.click" [] ;;
          ret (PDict [("status", PStr "clicked_by_text_fallback")])
        else ret (PDict [("status", PStr "no_element_by_text")])
    else if truthy selector then
      el <- query_selector selector ;;
      if el then
        driver_call "element.click" [] ;;
        ret (PDict [("status", PStr "clicked"); ("selector", selector)])
      else ret (PDict [("status", PStr "no_element"); ("selector", selector)])
    else ret (PDict [("error", PStr "no_selector_for_click")])
  else if str_eq typ "press" then
    let key := dict_get action "key" (PStr "Enter") in
    driver_call "page.keyboard.press" [key] ;;
    ret (PDict [("status", PStr "pressed"); ("key", key)])
  else if str_eq typ "scroll" then
    let distance := dict_get action "distance" (PInt 500) in
    driver_call "page.evaluate"
                [PStr ("window.scrollBy(0, " ++ py_str env distance ++ ");")] ;;
    ret (PDict [("status", PStr "scrolled"); ("distance", distance)])
  else if str_eq typ "wait" then
    time_sleep WaitSleep (dict_get action "seconds" (PInt 1)) ;;
    ret (PDict [("status", PStr "waited")])
  else
    ret (PDict [("error", PStr "unknown_action_type"); ("provided", PDict action)]).

(** [PlaywrightController.execute_action].  The two lines before the [try]
    read the argument: a falsy one is refused, and [action.get] exists on a
    dict only. *)
Definition execute_action (action : pyval) : M pyval :=
  emit (EvExecuteAction action) ;;
  if negb (truthy action) then ret (PDict [("error", PStr "no_action_provided")])
  else
    match action with
    | PDict d =>
        try_catch (execute_action_body d)
          (fun e => ret (PDict [("error", PStr ("execute_action_failed:" ++ exn_msg e))]))
    | _ => raise (AttributeError_get (type_name action))
    end.

Definition cookie_markers : list string := ["session"; "auth"; "token"; "jwt"; "sid"].
Definition login_phrases : list string :=
  ["sign in"; "login"; "password"; "create account"].

Definition is_logged_in : M bool :=
  by_cookie <- try_catch
                 (names <- context_cookies ;;
                  ret (existsb (fun name =>
                                  existsb (fun k => contains k (lower name)) cookie_markers)
                               names))
                 (fun _ => ret false) ;;
  if by_cookie then emit (EvProbe true) ;; ret true
  else
    by_dom <- try_catch
                (dom <- page_content ;;
                 ret (negb (existsb (fun x => contains x (lower dom)) login_phrases)))
                (fun _ => ret false) ;;
    if by_dom then emit (EvProbe true) ;; ret true
    else emit (EvProbe false) ;; ret false.

Definition preload_cookies (cookies_path : string) : M unit :=
  try_catch
    (file_call "read" cookies_path ;;
     driver_call "context.add_cookies" [])
    (fun _ => ret tt).

Definition save_storage_state : M unit :=
  try_catch
    (driver_call "context.storage_state" [] ;;
     file_call "write" (path_join (outdir env) "cookies.json") ;;
     write (set_cookie_file true))
    (fun _ => ret tt).

Definition show_manual_login_prompt (timeout : Z) : M unit :=
  try_catch (driver_call "page.evaluate" [PStr "manual-login-banner: show"; PInt timeout])
            (fun _ => ret tt).

Definition remove_manual_login_prompt : M unit :=
  try_catch (driver_call "page.evaluate" [PStr "manual-login-banner: remove"])
            (fun _ => ret tt).
End Program.

(** ** [Agent] *)

(** Seconds the manual login may take. *)
Definition MANUAL_LOGIN_TIMEOUT : Z := 120.

(** [v.get(k)] once [v] is known to be a dict; [PNone] otherwise. *)
Definition item (v : pyval) (k : string) : pyval :=
  match v with PDict d => get d k | _ => PNone end.

(** The test that ends the retry loop:
    [isinstance(result, dict) and (result.get("status") or not result.get("error"))]. *)
Definition attempt_succeeded (result : pyval) : bool :=
  is_dict result
  && (truthy (item result "status") || negb (truthy (item result "error"))).

(** The test that starts the recovery:
    [isinstance(result, dict) and result.get("error")]. *)
Definition needs_recovery (result : pyval) : bool :=
  is_dict result && truthy (item result "error").

(** How one pass of the retry loop leaves its [try] block: through a [break],
    or by falling out of the [if] chain with [result] as it then stands. *)
Inductive attempt_outcome : Type :=
| Broke (result : pyval)
| Fell (result : pyval).

(** The record [execute_ui_plan] keeps for a step. *)
Definition step_record (idx : nat) (step result : pyval) : pyval :=
  PDict [("step_index", PInt (Z.of_nat idx)); ("step", step); ("result", result)].

(** The search for the pattern [https?://] followed by one or more characters
    that are neither whitespace nor a quote: the match at the leftmost
    position that starts a scheme followed by at least one such character. *)
Definition url_char (c : ascii) : bool :=
  negb (is_space c || (c =? squote)%char || (c =? dquote)%char).

Fixpoint take_while (p : ascii -> bool) (s : string) : string :=
  match s with
  | EmptyString => EmptyString
  | String c r => if p c then String c (take_while p r) else EmptyString
  end.

Definition drop (n : nat) (s : string) : string :=
  String.substring n (String.length s - n) s.

Definition url_match_here (s : string) : option string :=
  let with_scheme (scheme : string) :=
    let body := take_while url_char (drop (String.length scheme) s) in
    if body =? EmptyString then None else Some (scheme ++ body)%string in
  if startswith "https://" s then with_scheme "https://"
  else if startswith "http://" s then with_scheme "http://"
  else None.

Fixpoint search_url (s : string) : option string :=
  match url_match_here s with
  | Some m => Some m
  | None =>
      match s with
      | EmptyString => None
      | String _ r => search_url r
      end
  end.

Section AgentProgram.
Variable env : Env.

(** The [try] block of one pass of the retry loop of [execute_ui_plan]. *)
Definition attempt_try (step : dict) (typ selector value result : pyval)
  : M attempt_outcome :=
  let run_action (action_dict : pyval) : M attempt_outcome :=
    if truthy action_dict then
      r <- execute_action env action_dict ;; ret (Fell r)
    else ret (Fell result) in
  if str_in typ ["fill"; "type"; "set_value"] then
    run_action (PDict [("type", PStr "fill"); ("selector", selector);
                       ("text", py_or value (PStr EmptyString))])
  else if str_eq typ "click" then
    if truthy selector then
      run_action (PDict [("type", PStr "click"); ("selector", selector)])
    else if truthy (get step "by_text") then
      run_action (PDict [("type", PStr "click"); ("by_text", PBool true);
                         ("text", get step "text")])
    else run_action (PDict [])
  else if str_eq typ "press" then
    run_action (PDict [("type", PStr "press");
                       ("key", dict_get step "key" (PStr "Enter"))])
  else if str_eq typ "wait" then
    run_action (PDict [("type", PStr "wait");
                       ("seconds", dict_get step "seconds" (PInt 1))])
  else if str_eq typ "scroll" then
    run_action (PDict [("type", PStr "scroll");
                       ("direction", dict_get step "direction" (PStr "down"));
                       ("distance", dict_get step "distance" (PInt 500))])
  else if str_in typ ["select"; "select_option"] then
    if truthy selector && has_key step "value" then
      driver_call env "page.select_option" [selector; get step "value"] ;;
      ret (Broke (PDict [("status", PStr "selected"); ("selector", selector);
                         ("value", get step "value")]))
    else ret (Broke (PDict [("error", PStr "select_missing_selector_or_value")]))
  else if str_eq typ "hover" then
    if truthy selector then
      driver_call env "page.hover" [selector] ;;
      ret (Broke (PDict [("status", PStr "hovered"); ("selector", selector)]))
    else ret (Broke (PDict [("error", PStr "hover_no_selector")]))
  else
    ret (Broke (PDict [("error", PStr "unknown_action"); ("provided", PDict step)])).

(** One pass: the [try] block and its [except Exception] clause. *)
Definition attempt_once (step : dict) (typ selector value result : pyval)
  : M attempt_outcome :=
  try_catch (attempt_try step typ selector value result)
    (fun e => ret (Fell (PDict [("error", PStr ("exception:" ++ exn_msg e))]))).

(** [for attempt in range(max_retries + 1)], [result] carried from pass to
    pass. *)
Fixpoint retry_loop (idx : nat) (step : dict) (typ selector value : pyval)
         (attempts : list nat) (result : pyval) : M pyval :=
  match attempts with
  | [] => ret result
  | attempt :: rest =>
      o <- attempt_once step typ selector value result ;;
      match o with
      | Broke r => emit (EvAttempt idx attempt r) ;; ret r
      | Fell r =>
          emit (EvAttempt idx attempt r) ;;
          if attempt_succeeded r then ret r
          else
            time_sleep env RetrySleep half_second ;;
            retry_loop idx step typ selector value rest r
      end
  end.

(** The recovery path for a step whose result still carries an error. *)
Definition recover (step result : pyval) (results : list pyval) : M (list pyval) :=
  dom_snapshot <- try_catch (page_content env) (fun _ => ret EmptyString) ;;
  repl <- plan_action env (FeedbackPrompt step result dom_snapshot) ;;
  let repl_action := item repl "action" in
  if truthy repl_action then
    repl_res <- execute_action env repl_action ;;
    ret (results ++ [PDict [("repl_step", repl_action); ("repl_result", repl_res)]])
  else ret results.

(** The body of [for idx, step in enumerate(ui_plan)]. *)
Definition execute_step (max_retries idx : nat) (step : pyval) (results : list pyval)
  : M (list pyval) :=
  match step with
  | PDict d =>
      let typ := py_or (get d "action") (get d "type") in
      let selector := py_or (py_or (get d "selector") (get d "sel")) (get d "query") in
      let value := py_or (py_or (get d "value") (get d "text")) (get d "fill") in
      result <- retry_loop idx d typ selector value (seq 0 (max_retries + 1)) PNone ;;
      let results := results ++ [step_record idx step result] in
      if needs_recovery result then recover step result results
      else ret results
  | _ => raise (AttributeError_get (type_name step))
  end.

Fixpoint run_steps (max_retries idx : nat) (steps : list pyval) (results : list pyval)
  : M (list pyval) :=
  match steps with
  | [] => ret results
  | step :: rest =>
      results <- execute_step max_retries idx step results ;;
      run_steps max_retries (S idx) rest results
  end.

(** [Agent.execute_ui_plan(ui_plan, max_retries)]. *)
Definition execute_ui_plan (ui_plan : pyval) (max_retries : nat) : M pyval :=
  match ui_plan with
  | PList steps =>
      results <- run_steps max_retries 0 steps [] ;;
      ret (PList results)
  | _ => ret (PDict [("error", PStr "ui_plan_not_list"); ("raw", ui_plan)])
  end.

(** [Agent._capture_unique_state]. *)
Definition _capture_unique_state (label : string) : M (string * option string) :=
  try_catch
    (dom_snapshot <- page_content env ;;
     last <- read last_dom_snapshot ;;
     match last with
     | Some d =>
         if d =? dom_snapshot then ret (dom_snapshot, None)
         else write (set_last_dom_snapshot (Some dom_snapshot)) ;; capture env label
     | None =>
         write (set_last_dom_snapshot (Some dom_snapshot)) ;; capture env label
     end)
    (fun _ => ret (EmptyString, None)).

(** The URL a planner reply stands for: on a dict its [url] or, when that is
    not truthy, the stripped text of its [raw_text] (of the empty string when
    the key is missing); otherwise the stripped text of the reply itself. *)
Definition reply_url (resp : pyval) : pyval :=
  match resp with
  | PDict d =>
      py_or (get d "url")
            (PStr (strip (py_str env (dict_get d "raw_text" (PStr EmptyString)))))
  | _ => PStr (strip (py_str env resp))
  end.

(** [self._clean_url(url)] on whatever the caller holds: a falsy value is
    refused before any string method is used. *)
Definition clean_url_of (url : pyval) : M string :=
  if negb (truthy url) then ret EmptyString
  else
    match url with
    | PStr s => ret (_clean_url s)
    | _ => raise (Exn "AttributeError" "object has no attribute strip")
    end.

Definition opt_str (o : option string) : pyval :=
  match o with Some s => PStr s | None => PNone end.

(** The polling loop of the manual login.  Every pass that does not detect
    a login sleeps three seconds, so [fuel] passes use up [3 * fuel]
    seconds; running out of fuel before the deadline is reported as an
    exception of the model. *)
Fixpoint poll_login (fuel : nat) (start_time : Z) : M bool :=
  now <- time_time ;;
  if (now - start_time <? MANUAL_LOGIN_TIMEOUT * 1000)%Z then
    match fuel with
    | O => raise (Exn "OutOfFuel" "poll_login")
    | S fuel' =>
        detected <- is_logged_in env ;;
        if detected then
          remove_manual_login_prompt env ;;
          try_catch (save_storage_state env) (fun _ => ret tt) ;;
          ret true
        else
          time_sleep env PollSleep (PInt 3) ;;
          poll_login fuel' start_time
    end
  else ret false.

(** Step 3 of [run], first half: ask the planner for the base site of the
    task; the answer is searched for a URL, cleaned, and replaced by the
    default when nothing usable is left. *)
Definition ask_base_url (task : pyval) : M string :=
  base_resp <- plan_action env BaseUrlPrompt ;;
  base_url <- match reply_url base_resp with
              | PStr s =>
                  ret (match search_url s with Some m => m | None => s end)
              | _ => raise (Exn "TypeError" "expected string or bytes-like object")
              end ;;
  let base_url := _clean_url base_url in
  ret (if base_url =? EmptyString then "https://www.google.com" else base_url).

(** Step 3 of [run], second half: open the login page, put up the banner
    and poll until a login is detected or the time is up. *)
Definition await_manual_login (base_url : string) : M bool :=
  let login_url := (rstrip_chars "/" base_url ++ "/login")%string in
  goto env (Some login_url) ;;
  show_manual_login_prompt env MANUAL_LOGIN_TIMEOUT ;;
  start_time <- time_time ;;
  logged_in <- poll_login 40 start_time ;;
  if logged_in then ret true
  else remove_manual_login_prompt env ;; ret false.

Definition manual_login (task : pyval) : M bool :=
  base_url <- ask_base_url task ;;
  await_manual_login base_url.

(** Steps 1 and 2 of [run]: start the browser, replay stored cookies. *)
Definition cookie_login (start_url : option string) : M bool :=
  driver_call env "chromium.launch" [] ;;
  driver_call env "browser.new_context" [] ;;
  file_call env "mkdir" (outdir env) ;;
  write (set_captured_names (empty_set string)) ;;
  driver_call env "context.new_page" [] ;;
  let cookies_path := path_join (outdir env) "cookies.json" in
  goto env start_url ;;
  time_sleep env SettleSleep (PInt 2) ;;
  exists_ <- read cookie_file ;;
  if exists_ then
    preload_cookies env cookies_path ;;
    goto env (Some (match start_url with
                    | Some u => if u =? EmptyString then "https://www.google.com" else u
                    | None => "https://www.google.com"
                    end)) ;;
    time_sleep env SettleSleep (PInt 3) ;;
    ok <- is_logged_in env ;;
    if ok then ret true
    else
      file_call env "remove" cookies_path ;;
      write (set_cookie_file false) ;;
      ret false
  else ret false.

(** Steps 4 to 7 of [run]: go to the task page, ask for the plan, run it. *)
Definition perform_task (start_url : option string) (task : pyval) : M pyval :=
  resp <- plan_action env TaskUrlPrompt ;;
  cleaned <- clean_url_of (reply_url resp) ;;
  task_specific_url <- (if cleaned =? EmptyString then page_url env else ret cleaned) ;;
  goto env (Some task_specific_url) ;;
  _capture_unique_state "task_page_loaded" ;;
  capture env "aligned_authenticated_page" ;;
  let step_meta := PDict [("step", PInt 0); ("action", PStr "task_page_ready");
                          ("url", PStr task_specific_url)] in
  file_call env "makedirs" (outdir env) ;;
  try_catch (file_call env "write" (path_join (outdir env) "step_000_meta.json"))
            (fun _ => ret tt) ;;
  dom_snapshot <- page_content env ;;
  ui_plan_resp <- plan_action env (UiPlanPrompt dom_snapshot) ;;
  let finish (ui_plan : pyval) : M pyval :=
    execution_results <- execute_ui_plan ui_plan 2 ;;
    driver_call env "browser.close" [] ;;
    ret (PDict [("task", task); ("start_url", opt_str start_url);
                ("steps", PList [step_meta;
                                 PDict [("ui_plan_execution", execution_results)]])]) in
  match ui_plan_resp with
  | PStr s =>
      match loads env s with
      | Ok ui_plan => finish ui_plan
      | Raise _ =>
          ret (PDict [("error", PStr "ui_plan_not_parseable"); ("raw", ui_plan_resp)])
      end
  | PDict d => finish (py_or (py_or (get d "plan") (get d "steps")) ui_plan_resp)
  | _ => finish ui_plan_resp
  end.

(** [Agent.run(start_url, task)]. *)
Definition run (start_url : option string) (task : pyval) : M pyval :=
  logged_in <- cookie_login start_url ;;
  logged_in <- (if logged_in then ret true else manual_login task) ;;
  if logged_in then perform_task start_url task
  else ret (PDict [("error", PStr "login_timeout")]).
End AgentProgram.

(** The state of a fresh agent before [run]. *)
Definition initial_state (cookie_file_exists : bool) : State :=
  {| trace := []; clock := 0; captured_names := empty_set string;
     last_dom_snapshot := None; cookie_file := cookie_file_exists |}.

(** ** Vocabulary of the statements *)

(** Following the spec's words, "an http-family scheme": the text starts with
    [http://] or [https://], in any letter case. *)
Definition has_http_family_scheme (s : string) : bool :=
  startswith "http://" (lower s) || startswith "https://" (lower s).

(** What [_clean_url] does to one character of an accepted URL. *)
Definition clean_char (c : ascii) : string :=
  if (c =? " ")%char then "%20"
  else if (c =? backslash)%char then EmptyString
  else String c EmptyString.

Fixpoint concat_map (f : ascii -> string) (s : string) : string :=
  match s with
  | EmptyString => EmptyString
  | String c r => (f c ++ concat_map f r)%string
  end.

(** The events a state has logged since an earlier one. *)
Definition events_since (st st' : State) : list event :=
  skipn (List.length (trace st)) (trace st').

(** The rhythm of the retry loop of step [idx], read off the log: the passes
    with the result each one held, and the pauses. *)
Inductive mark : Type :=
| MAttempt (result : pyval)
| MPause.

Definition mark_of (idx : nat) (e : event) : list mark :=
  match e with
  | EvAttempt i _ r => if (i =? idx)%nat then [MAttempt r] else []
  | EvSleep RetrySleep _ => [MPause]
  | _ => []
  end.

Definition pacing (idx : nat) (tr : list event) : list mark :=
  flat_map (mark_of idx) tr.

Fixpoint attempt_results (marks : list mark) : list pyval :=
  match marks with
  | [] => []
  | MAttempt r :: rest => r :: attempt_results rest
  | MPause :: rest => attempt_results rest
  end.



(** The kinds whose branch of the retry loop has no [break]. *)
Definition retried_kind (typ : pyval) : bool :=
  str_in typ ["fill"; "type"; "set_value"] || str_eq typ "click"
  || str_eq typ "press" || str_eq typ "wait" || str_eq typ "scroll".

(** The steps whose branch calls the page itself before its [break]. *)
Definition calls_page_directly (step : dict) (typ selector : pyval) : bool :=
  (str_in typ ["select"; "select_option"] && truthy selector && has_key step "value")
  || (str_eq typ "hover" && truthy selector).

(** The result the [except] clause of the retry loop builds. *)
Definition is_exception_result (r : pyval) : bool :=
  match r with
  | PDict [(k, PStr msg)] => (k =? "error") && startswith "exception:" msg
  | _ => false
  end.


(** A result with exactly one of [status] and [error] set. *)
Definition status_xor_error (r : pyval) : bool :=
  is_dict r && xorb (truthy (item r "status")) (truthy (item r "error")).


(** Event classes. *)
Definition is_planner_event (e : event) : bool :=
  match e with EvPlanner _ => true | _ => false end.

(** A plan being requested or carried out. *)
Definition plan_event (e : event) : bool :=
  match e with
  | EvPlanner (UiPlanPrompt _) => true
  | EvPlanner (FeedbackPrompt _ _ _) => true
  | EvExecuteAction _ => true
  | EvAttempt _ _ _ => true
  | _ => false
  end.

(** The manual-login banner being put on the page. *)
Definition is_login_banner (e : event) : bool :=
  match e with
  | EvDriver m (PStr tag :: _) =>
      (m =? "page.evaluate") && (tag =? "manual-login-banner: show")
  | _ => false
  end.

(** What the executor of actions may log. *)
Definition controller_event (e : event) : bool :=
  match e with
  | EvDriver _ _ => true
  | EvSleep WaitSleep _ => true
  | EvExecuteAction _ => true
  | _ => false
  end.

(** What the recovery path may log on top of that. *)
Definition recovery_event (e : event) : bool :=
  match e with
  | EvPlanner (FeedbackPrompt _ _ _) => true
  | _ => controller_event e
  end.

(** What a run may log before it holds an authenticated session. *)
Definition login_event (e : event) : bool :=
  match e with
  | EvDriver _ _ => true
  | EvFile _ _ => true
  | EvSleep SettleSleep _ => true
  | EvSleep PollSleep _ => true
  | EvPlanner BaseUrlPrompt => true
  | EvProbe _ => true
  | _ => false
  end.

(** A probe that found the session authenticated. *)
Definition probe_succeeded (e : event) : bool :=
  match e with EvProbe true => true | _ => false end.

(** What a run may log before the manual login begins. *)
Definition setup_event (e : event) : bool :=
  login_event e && negb (is_login_banner e).

Definition any_event (e : event) : bool := true.

(** In a log, every event of a plan comes after a successful probe. *)
Definition plan_after_login (tr : list event) : Prop :=
  forall pre e post,
    tr = pre ++ e :: post -> plan_event e = true -> In (EvProbe true) pre.

(** The builtin [str] on [None], booleans and strings; the scenarios below
    print nothing else. *)
Definition py_str_scalar (v : pyval) : string :=
  match v with
  | PNone => "None"
  | PBool true => "True"
  | PBool false => "False"
  | PStr s => s
  | _ => type_name v
  end.

(** A scripted environment: the external calls at the log positions of
    [failing] raise, every query finds its element, the page shows [dom],
    there are no cookies, and the planner always answers [reply]. *)
Definition scripted_env (failing : nat -> bool) (dom : string) (reply : pyval) : Env :=
  {| ext_raises := fun k => if failing k then Some (Exn "Error" "boom") else None;
     drv_found := fun _ => true;
     drv_text := fun _ => dom;
     drv_cookies := fun _ => [];
     planner := fun _ => reply;
     latency := fun _ => 0%N;
     loads := json_loads;
     py_str := py_str_scalar;
     outdir := "out" |}.

(** [st'] continues [st]: its log is that of [st] followed by events of class
    [p], and its clock has not gone back. *)
Definition advance (p : event -> bool) (st st' : State) : Prop :=
  (exists delta, trace st' = trace st ++ delta /\ forallb p delta = true)
  /\ (clock st <= clock st')%Z.

(** A computation that only ever continues the state it starts from. *)
Definition emits {A} (p : event -> bool) (m : M A) : Prop :=
  forall st, advance p st (snd (m st)).

(** The marks a retry loop with [n] passes left may leave, from the result it
    carries to the result it ends with: a pass that stops the loop, on a
    result satisfying [stop], or a pass on a result satisfying [again], a
    pause, and the marks of the remaining passes. *)
Inductive loop_marks (stop again : pyval -> Prop)
  : nat -> pyval -> list mark -> pyval -> Prop :=
| LM_done (r : pyval) : loop_marks stop again 0 r [] r
| LM_stop (n : nat) (r0 r : pyval) :
    stop r -> loop_marks stop again (S n) r0 [MAttempt r] r
| LM_retry (n : nat) (r0 r : pyval) (marks : list mark) (final : pyval) :
    again r ->
    loop_marks stop again n r marks final ->
    loop_marks stop again (S n) r0 (MAttempt r :: MPause :: marks) final.

(** What the retry loop of a step may log. *)
Definition loop_event (e : event) : bool :=
  match e with
  | EvAttempt _ _ _ => true
  | EvSleep RetrySleep _ => true
  | _ => controller_event e
  end.

(** What the work on one step may log. *)
Definition step_event (e : event) : bool :=
  match e with
  | EvPlanner (FeedbackPrompt _ _ _) => true
  | _ => loop_event e
  end.

(** When a pass of the retry loop of [execute_ui_plan] may be the last one,
    and when another pass follows it. *)
Definition stops (typ r : pyval) : Prop :=
  attempt_succeeded r = true \/ retried_kind typ = false.

Definition goes_on (step : dict) (typ selector r : pyval) : Prop :=
  attempt_succeeded r = false
  /\ (retried_kind typ = true
      \/ (calls_page_directly step typ selector = true
          /\ is_exception_result r = true)).

(** A computation that continues the state with events of class [p] and
    answers [true] only if a probe succeeded on the way. *)
Definition gated (p : event -> bool) (m : M bool) : Prop :=
  forall st,
  exists delta,
    trace (snd (m st)) = trace st ++ delta
    /\ forallb p delta = true
    /\ (clock st <= clock (snd (m st)))%Z
    /\ (fst (m st) = Ok true -> existsb probe_succeeded delta = true).

(** What the [try] block of [execute_action] may log: calls on the page and
    the sleep of a [wait] action. *)
Definition body_event (e : event) : bool :=
  match e with
  | EvDriver _ _ => true
  | EvSleep WaitSleep _ => true
  | _ => false
  end.

Definition is_execute_action (e : event) : bool :=
  match e with EvExecuteAction _ => true | _ => false end.


(** ** [GeminiClient.plan_action]: transport and unpacking of the response *)

(** How one [requests.post] with [raise_for_status] and [resp.json()] ends. *)
Inductive post_outcome : Type :=
| PostOk (data : pyval)
| PostRequestException (msg : string)   (* a [RequestException], with [str(e)] *)
| PostOtherException (e : exn).

Inductive http_event : Type :=
| HttpPost (attempt : nat)
| HttpSleep (seconds : Z).

(** How the retry loop over the transport ends: with [data] bound, with the
    early [return] of an error dict, or with an exception nobody catches. *)
Inductive transport_end : Type :=
| Fetched (data : pyval)
| Returned (result : pyval)
| Escaped (e : exn).

(** [for attempt in range(2)] over the transport. *)
Fixpoint transport (post : nat -> post_outcome) (attempts : list nat)
  : transport_end * list http_event :=
  match attempts with
  | [] => (Fetched PNone, [])
  | attempt :: rest =>
      match post attempt with
      | PostOk data => (Fetched data, [HttpPost attempt])
      | PostRequestException msg =>
          if (attempt =? 1)%nat then
            (Returned (PDict [("error", PStr ("HTTP error after retry: " ++ msg))]),
             [HttpPost attempt])
          else
            let '(r, log) := transport post rest in
            (r, HttpPost attempt :: HttpSleep 1 :: log)
      | PostOtherException e => (Escaped e, [HttpPost attempt])
      end
  end.

(** A natural number in decimal digits. *)
Fixpoint decimal_from (fuel n : nat) (acc : string) : string :=
  match fuel with
  | O => acc
  | S f =>
      let acc := String (ascii_of_nat (48 + n mod 10)) acc in
      if (n / 10 =? 0)%nat then acc else decimal_from f (n / 10) acc
  end.

Definition decimal (n : nat) : string := decimal_from (S n) n EmptyString.

Definition quoted_type (v : pyval) : string :=
  String squote (type_name v ++ String squote EmptyString).

(** [v[0]]. *)
Definition first_item (v : pyval) : res pyval :=
  match v with
  | PList (x :: _) => Ok x
  | PList [] => Raise (Exn "IndexError" "list index out of range")
  | PStr (String c _) => Ok (PStr (String c EmptyString))
  | PStr EmptyString => Raise (Exn "IndexError" "string index out of range")
  | PDict _ => Raise (Exn "KeyError" "0")
  | _ => Raise (Exn "TypeError" (quoted_type v ++ " object is not subscriptable"))
  end.

(** [v.get(k, dflt)] on whatever [v] is. *)
Definition get_of (v : pyval) (k : string) (dflt : pyval) : res pyval :=
  match v with
  | PDict d => Ok (dict_get d k dflt)
  | _ => Raise (AttributeError_get (type_name v))
  end.

(** [for p in v]. *)
Definition iterate (v : pyval) : res (list pyval) :=
  match v with
  | PList l => Ok l
  | PStr s => Ok (map (fun c => PStr (String c EmptyString)) (list_ascii_of_string s))
  | PDict d => Ok (map (fun kv => PStr (fst kv)) d)
  | _ => Raise (Exn "TypeError" (quoted_type v ++ " object is not iterable"))
  end.

(** The empty string joining [items], the first of which has index [i]. *)
Fixpoint join_items (i : nat) (items : list pyval) : res string :=
  match items with
  | [] => Ok EmptyString
  | PStr s :: rest =>
      match join_items (S i) rest with
      | Ok t => Ok (s ++ t)%string
      | Raise e => Raise e
      end
  | v :: _ =>
      Raise (Exn "TypeError"
                 ("sequence item " ++ decimal i ++ ": expected str instance, "
                  ++ type_name v ++ " found"))
  end.

Definition res_bind {A B} (r : res A) (f : A -> res B) : res B :=
  match r with
  | Ok a => f a
  | Raise e => Raise e
  end.

Section GeminiTransport.
(** [json.loads] and the builtin [str]. *)
Variable json_loads : string -> res pyval.
Variable to_str : pyval -> string.

(** What one part of the candidate contributes to the text. *)
Definition part_text (p : pyval) : pyval :=
  match p with
  | PDict d => dict_get d "text" (PStr EmptyString)
  | _ => PStr (to_str p)
  end.

(** The text of the first candidate, before it is stripped. *)
Definition candidate_text (data : dict) : res string :=
  res_bind (first_item (get data "candidates")) (fun cand =>
  res_bind (get_of cand "content" (PDict [])) (fun content =>
  res_bind (get_of content "parts" (PList [])) (fun parts =>
  res_bind (iterate parts) (fun items =>
  join_items 0 (map part_text items))))).

(** [plan_action] from the decoded body on. *)
Definition respond (data : pyval) : res pyval :=
  let no_candidates := PDict [("error", PStr "No candidates"); ("raw", data)] in
  if negb (truthy data) then Ok no_candidates
  else
    match data with
    | PDict d =>
        if negb (truthy (get d "candidates")) then Ok no_candidates
        else
          match candidate_text d with
          | Ok joined => Ok (plan_action_text json_loads data joined)
          | Raise e =>
              Ok (PDict [("error", PStr ("Parse error: " ++ exn_msg e)); ("raw", data)])
          end
    | _ => Raise (AttributeError_get (type_name data))
    end.

(** [GeminiClient.plan_action(prompt)]: what it returns or raises, and the
    posts and sleeps it makes. *)
Definition plan_action_http (post : nat -> post_outcome) : res pyval * list http_event :=
  match transport post (seq 0 2) with
  | (Fetched data, log) => (respond data, log)
  | (Returned result, log) => (Ok result, log)
  | (Escaped e, log) => (Raise e, log)
  end.
End GeminiTransport.

(** ** Configuration: [GeminiClient.__init__] and [load_config] *)

(** [os.getenv(name)] and [os.getenv(name, dflt)]. *)
Definition env_value (getenv : string -> option string) (name : string) : pyval :=
  match getenv name with Some s => PStr s | None => PNone end.

Definition env_value_or (getenv : string -> option string) (name : string)
           (dflt : pyval) : pyval :=
  match getenv name with Some s => PStr s | None => dflt end.

Definition default_model : pyval := PStr "gemini-2.5-flash".

Definition default_endpoint (to_str : pyval -> string) (model : pyval) : string :=
  "https://generativelanguage.googleapis.com/v1beta/models/" ++ to_str model
  ++ ":generateContent".

(** The fields [GeminiClient.__init__] sets. *)
Record client : Type := {
  key : pyval;
  model : pyval;
  endpoint : pyval
}.

Definition GeminiClient_init (to_str : pyval -> string)
           (getenv : string -> option string) (config : dict) : res client :=
  let key := py_or (env_value getenv "GEMINI_API_KEY") (get config "gemini_api_key") in
  let model := py_or (env_value getenv "GEMINI_MODEL")
                     (dict_get config "gemini_model" default_model) in
  let endpoint := py_or (env_value getenv "GEMINI_ENDPOINT")
                        (dict_get config "gemini_endpoint"
                                  (PStr (default_endpoint to_str model))) in
  if negb (truthy key) then
    Raise (Exn "ValueError" "GEMINI_API_KEY not set in environment or config")
  else Ok {| key := key; model := model; endpoint := endpoint |}.

(** [load_config] once the file has been read into the dict [cfg]. *)
Definition load_config_env (to_str : pyval -> string)
           (getenv : string -> option string) (cfg : dict) : dict :=
  let env_key := env_value getenv "GEMINI_API_KEY" in
  let cfg := if truthy env_key then dict_set "gemini_api_key" env_key cfg else cfg in
  let cfg := dict_set "gemini_model"
                      (env_value_or getenv "GEMINI_MODEL"
                                    (dict_get cfg "gemini_model" default_model))
                      cfg in
  dict_set "gemini_endpoint"
           (env_value_or getenv "GEMINI_ENDPOINT"
                         (PStr (default_endpoint to_str (get cfg "gemini_model"))))
           cfg.

(** ** Vocabulary of the further statements *)

(** A record of a step of the plan, as opposed to one of a corrective action. *)
Definition is_step_record (r : pyval) : bool :=
  match r with
  | PDict d => has_key d "step_index"
  | _ => false
  end.

(** A pass of some retry loop. *)
Definition is_attempt (e : event) : bool :=
  match e with EvAttempt _ _ _ => true | _ => false end.

(** The planner being asked for the base site. *)
Definition is_base_prompt (e : event) : bool :=
  match e with EvPlanner BaseUrlPrompt => true | _ => false end.

(** No part of the manual login. *)
Definition no_manual_login (e : event) : bool :=
  negb (is_login_banner e) && negb (is_base_prompt e).

(** A cookie name that counts as a session. *)
Definition cookie_hit (name : string) : bool :=
  existsb (fun k => contains k (lower name)) cookie_markers.

(** A page text that shows none of the phrases of a login page. *)
Definition dom_looks_logged_in (dom : string) : bool :=
  negb (existsb (fun x => contains x (lower dom)) login_phrases).

(** The report of a completed run. *)
Definition report (task : pyval) (start_url : option string) (url : string)
           (execution_results : pyval) : pyval :=
  PDict [("task", task); ("start_url", opt_str start_url);
         ("steps", PList [PDict [("step", PInt 0); ("action", PStr "task_page_ready");
                                 ("url", PStr url)];
                          PDict [("ui_plan_execution", execution_results)]])].

(** A computation that leaves the cookie file as it found it. *)
Definition keeps_cookie_file {A} (m : M A) : Prop :=
  forall st, cookie_file (snd (m st)) = cookie_file st.

(** Every character of [s] satisfies [p]. *)
Fixpoint all_chars (p : ascii -> bool) (s : string) : bool :=
  match s with
  | EmptyString => true
  | String c r => p c && all_chars p r
  end.

(** Neither a pass over a step nor an action handed to the executor. *)
Definition no_step_event (e : event) : bool :=
  negb (is_attempt e) && negb (is_execute_action e).

(** * Theorems *)

(** ** URL cleaning *)

Lemma string_app_assoc (a b c : string) :
  ((a ++ b) ++ c = a ++ (b ++ c))%string.
Proof. induction a as [|x a IH]; simpl; [reflexivity | now rewrite IH]. Qed.

Lemma replace_both_concat_map (u : string) :
  replace backslash EmptyString (replace " "%char "%20" u) = concat_map clean_char u.
Proof.
  induction u as [|c u IH]; simpl; [reflexivity|].
  unfold clean_char at 1.
  destruct (c =? " ")%char eqn:Hsp.
  - simpl. rewrite IH. reflexivity.
  - simpl. destruct (c =? backslash)%char; rewrite IH; reflexivity.
Qed.

Lemma lower_char_fixes (c x : ascii) :
  lower_char c = x -> clean_char x = String x EmptyString ->
  clean_char c = String c EmptyString.
Proof.
  intros Hl Hx. unfold clean_char.
  destruct (c =? " ")%char eqn:Hsp.
  - apply Ascii.eqb_eq in Hsp. subst c. cbv in Hl. subst x. cbv in Hx. discriminate.
  - destruct (c =? backslash)%char eqn:Hb; [|reflexivity].
    apply Ascii.eqb_eq in Hb. subst c. cbv in Hl. subst x. cbv in Hx. discriminate.
Qed.

Lemma prefix_cons (a b : ascii) (p s : string) :
  String.prefix (String a p) (String b s) = ((a =? b)%char && String.prefix p s).
Proof.
  cbn [String.prefix]. destruct (ascii_dec a b) as [->|Hne].
  - now rewrite Ascii.eqb_refl.
  - apply Ascii.eqb_neq in Hne. now rewrite Hne.
Qed.

Lemma accepted_keeps_prefix (u : string) :
  startswith "http" (lower u) = true ->
  startswith "http" (lower (concat_map clean_char u)) = true.
Proof.
  unfold startswith. intros H.
  destruct u as [|c1 [|c2 [|c3 [|c4 u]]]]; cbn [lower] in H;
    rewrite ?prefix_cons in H; cbn [String.prefix] in H;
    rewrite ?andb_false_r in H; try discriminate.
  repeat match type of H with
         | (_ && _ = true) => apply andb_prop in H; destruct H as [? H]
         end.
  repeat match goal with
         | E : (_ =? lower_char _)%char = true |- _ => apply Ascii.eqb_eq in E; symmetry in E
         end.
  cbn [concat_map].
  repeat match goal with
         | E : lower_char ?c = ?x |- _ =>
             rewrite (lower_char_fixes c x E eq_refl);
             cbn [String.append lower]; rewrite prefix_cons, E, Ascii.eqb_refl;
             cbn [andb]; clear E
         end.
  now destruct (lower (concat_map clean_char u)).
Qed.

(** What [_clean_url] does, for every input: the empty string unless the
    stripped form begins with the four letters [http] in some letter case; an
    accepted input comes back stripped, with every space replaced by [%20]
    and every backslash removed, nothing else changed, and so still begins
    with [http]. *)
Lemma clean_url_by_prefix :
  forall url : string,
    let u := strip_chars quote_chars (strip url) in
    _clean_url url
    = (if startswith "http" (lower u) then concat_map clean_char u else EmptyString)
    /\ (_clean_url url = EmptyString
        \/ startswith "http" (lower (_clean_url url)) = true).
Proof.
  intros url u.
  assert (Heq : _clean_url url
                = if startswith "http" (lower u) then concat_map clean_char u
                  else EmptyString).
  { unfold _clean_url. fold u.
    destruct (url =? EmptyString) eqn:He.
    - apply String.eqb_eq in He. subst url. reflexivity.
    - destruct (startswith "http" (lower u)); simpl; [|reflexivity].
      apply replace_both_concat_map. }
  split; [exact Heq|].
  rewrite Heq. destruct (startswith "http" (lower u)) eqn:Hp; [right|left; reflexivity].
  now apply accepted_keeps_prefix.
Qed.

(** C7 fails on a host name that merely begins with the letters [http]: it
    carries no scheme, and [_clean_url], whose test reads four letters where
    its docstring promises a valid navigable URL, hands it back unchanged
    instead of rejecting it; so the claim fails as it is worded. *)
Theorem C7_schemeless_host_is_accepted :
  let url := "httpbin.org"%string in
  has_http_family_scheme (strip_chars quote_chars (strip url)) = false
  /\ _clean_url url = url
  /\ ~ (forall given : string,
          has_http_family_scheme (strip_chars quote_chars (strip given)) = false ->
          _clean_url given = EmptyString).
Proof.
  cbv zeta. split; [reflexivity|]. split; [reflexivity|].
  intros H. specialize (H "httpbin.org" eq_refl). vm_compute in H. discriminate.
Qed.

(** ** Extraction of JSON from the planner's text *)

Lemma through_last_closing (c : ascii) (body post : string) :
  char_in c post = false ->
  through_last c (body ++ String c post)
  = Some (body ++ String c EmptyString)%string.
Proof.
  intros Hpost.
  assert (Hnone : through_last c post = None).
  { induction post as [|a post IH]; [reflexivity|].
    cbn [char_in] in Hpost. apply orb_false_elim in Hpost as [Ha Hrest].
    cbn [through_last]. rewrite (IH Hrest). now rewrite Ha. }
  induction body as [|a body IH]; cbn [String.append through_last].
  - now rewrite Hnone, Ascii.eqb_refl.
  - now rewrite IH.
Qed.

Lemma search_json_span_skips (pre rest : string) :
  char_in "{" pre = false -> char_in "[" pre = false ->
  search_json_span (pre ++ rest) = search_json_span rest.
Proof.
  induction pre as [|a pre IH]; intros Hb Hk; [reflexivity|].
  cbn [char_in] in Hb, Hk.
  apply orb_false_elim in Hb as [Hb Hb'], Hk as [Hk Hk'].
  cbn [String.append search_json_span].
  rewrite Hb, Hk. auto.
Qed.

(** The span the search returns for a structure embedded in quiet prose. *)
Lemma search_json_span_embedded (pre body post : string) (o c : ascii) :
  (o = "{"%char /\ c = "}"%char) \/ (o = "["%char /\ c = "]"%char) ->
  char_in "{" pre = false -> char_in "[" pre = false ->
  char_in c post = false ->
  search_json_span (pre ++ String o (body ++ String c EmptyString) ++ post)
  = Some (String o (body ++ String c EmptyString)).
Proof.
  intros Hoc Hb Hk Hpost.
  rewrite search_json_span_skips by assumption.
  cbn [String.append]. rewrite string_app_assoc. cbn [String.append].
  destruct Hoc as [[-> ->] | [-> ->]]; cbn [search_json_span];
    rewrite ?Ascii.eqb_refl; cbn [Ascii.eqb Bool.eqb];
    now rewrite through_last_closing.
Qed.

(** Where the extraction does recover the structure: a JSON object or array
    embedded in prose with no opening brace or bracket before it and no
    closing character of its own kind after it is recovered exactly, by a
    strict parse of the span from its opening to its closing character or,
    when that parse fails as a JSON error, by a parse of the repaired span;
    and a non-empty text in which neither the span nor its repair nor the
    whole text parses comes back as [raw_text].  The reader [loads] is any
    function: extraction itself cannot raise. *)
Lemma extraction_of_quiet_embedding :
  forall (loads : string -> res pyval) (pre body post : string) (o c : ascii)
         (v data : pyval) (joined : string),
    ((o = "{"%char /\ c = "}"%char) \/ (o = "["%char /\ c = "]"%char)) ->
    char_in "{" pre = false -> char_in "[" pre = false ->
    char_in c post = false ->
    let js := String o (body ++ String c EmptyString) in
    (loads js = Ok v
     \/ exists e, loads js = Raise e /\ is_JSONDecodeError e = true
                  /\ loads (repair js) = Ok v) ->
    _extract_json_from_text loads (pre ++ js ++ post)%string = v
    /\ (let text := strip joined in
        text <> EmptyString ->
        (forall span, search_json_span text = Some span ->
                      (exists e, loads span = Raise e)
                      /\ (exists e, loads (repair span) = Raise e)) ->
        (exists e, loads text = Raise e) ->
        plan_action_text loads data joined = PDict [("raw_text", PStr text)]).
Proof.
  intros loads pre body post o c v data joined Hoc Hb Hk Hpost js Hparse.
  split.
  - unfold _extract_json_from_text. subst js.
    rewrite (search_json_span_embedded pre body post o c Hoc Hb Hk Hpost).
    destruct Hparse as [-> | (e & -> & -> & ->)]; reflexivity.
  - intros text Hne Hspan [e He].
    unfold plan_action_text. fold text.
    apply String.eqb_neq in Hne. rewrite Hne.
    assert (Hnone : _extract_json_from_text loads text = PNone).
    { unfold _extract_json_from_text.
      destruct (search_json_span text) as [span|] eqn:Hs; [|reflexivity].
      destruct (Hspan span eq_refl) as [[e1 ->] [e2 ->]].
      now destruct (is_JSONDecodeError e1). }
    rewrite Hnone, He. reflexivity.
Qed.

(** An instance: an array in quiet prose, and a text without structure. *)
Example extraction_of_quiet_embedding_at_work :
  _extract_json_from_text json_loads "Plan: [1, 2] as asked."
  = PList [PInt 1; PInt 2]
  /\ plan_action_text json_loads PNone "  no structure here  "
     = PDict [("raw_text", PStr "no structure here")].
Proof.
  pose proof (extraction_of_quiet_embedding json_loads
                "Plan: " "1, 2" " as asked." "["%char "]"%char
                (PList [PInt 1; PInt 2]) PNone "  no structure here  "
                (or_intror (conj eq_refl eq_refl)) eq_refl eq_refl eq_refl
                (or_introl eq_refl)) as [Hx Hraw].
  split; [exact Hx|].
  apply Hraw.
  - vm_compute. discriminate.
  - intros span Hs. vm_compute in Hs. discriminate.
  - eexists. vm_compute. reflexivity.
Qed.

(** C3 fails on a text with a bracket in the prose after the array: the
    array [[1, 2]] is valid JSON, yet the span the pattern takes runs on to
    the last closing bracket of the text, neither that span nor its repair
    parses, nothing is extracted, and [plan_action] hands the text back
    unparsed, where the docstring of the function promises the first valid
    JSON object or array; so the claim fails as it is worded.  The parses
    are those of [json_loads], the JSON reader defined above. *)
Theorem C3_greedy_span_loses_embedded_array :
  let text := "Plan: [1, 2] is the plan [draft]"%string in
  json_loads "[1, 2]" = Ok (PList [PInt 1; PInt 2])
  /\ search_json_span text = Some "[1, 2] is the plan [draft]"%string
  /\ _extract_json_from_text json_loads text = PNone
  /\ plan_action_text json_loads PNone text = PDict [("raw_text", PStr text)]
  /\ ~ (forall pre js post v,
          json_loads js = Ok v -> is_list v || is_dict v = true ->
          _extract_json_from_text json_loads (pre ++ js ++ post)%string = v).
Proof.
  cbv zeta. repeat (split; [vm_compute; reflexivity|]).
  intros H.
  specialize (H "Plan: " "[1, 2]" " is the plan [draft]" (PList [PInt 1; PInt 2])
                eq_refl eq_refl).
  vm_compute in H. discriminate.
Qed.

(** ** Running the monad *)

Lemma skipn_app_exact {A} (l d : list A) : skipn (List.length l) (l ++ d) = d.
Proof. induction l; simpl; auto. Qed.

Lemma events_since_app (st st' : State) (delta : list event) :
  trace st' = trace st ++ delta -> events_since st st' = delta.
Proof. intros H. unfold events_since. rewrite H. apply skipn_app_exact. Qed.

Ltac munfold :=
  unfold execute_action, execute_action_body, capture, page_content, query_selector,
    driver_call, file_call, time_sleep, plan_action, external, emit, elapse,
    read, write, bind, ret, raise, try_catch in *.

(** Case analysis on whatever the environment or a test decides. *)
Ltac mcase :=
  match goal with
  | H : context [match ext_raises ?e ?k with _ => _ end] |- _ =>
      destruct (ext_raises e k) eqn:?
  | H : context [match sleep_ms ?v with _ => _ end] |- _ =>
      destruct (sleep_ms v) eqn:?
  | H : context [if ?b then _ else _] |- _ => destruct b eqn:?
  | H : (_, _) = (_, _) |- _ => inversion H; subst; clear H
  | |- context [match ext_raises ?e ?k with _ => _ end] =>
      destruct (ext_raises e k) eqn:?
  | |- context [match sleep_ms ?v with _ => _ end] =>
      destruct (sleep_ms v) eqn:?
  | |- context [if ?b then _ else _] => destruct b eqn:?
  end.

(** ** The plan must be a list *)

(** C8: a plan that is not a list is answered with the structured error at
    once; the state, hence the log of actions and the records, is untouched. *)
Theorem C8_plan_not_list_short_circuits :
  forall (env : Env) (ui_plan : pyval) (max_retries : nat) (st : State),
    is_list ui_plan = false ->
    execute_ui_plan env ui_plan max_retries st
    = (Ok (PDict [("error", PStr "ui_plan_not_list"); ("raw", ui_plan)]), st).
Proof.
  intros env ui_plan max_retries st H.
  destruct ui_plan; try discriminate; reflexivity.
Qed.

Lemma C8_witness :
  let env := scripted_env (fun _ => false) "<html></html>" PNone in
  let plan := PDict [("plan", PList [PDict [("action", PStr "click")]])] in
  execute_ui_plan env plan 2 (initial_state false)
  = (Ok (PDict [("error", PStr "ui_plan_not_list"); ("raw", plan)]), initial_state false).
Proof.
  intros env plan.
  exact (C8_plan_not_list_short_circuits env plan 2 (initial_state false) eq_refl).
Defined.

(** ** Capturing a label once *)

Lemma capture_seen (env : Env) (label : string) (st : State) :
  set_In label (captured_names st) ->
  capture env label st = (Ok (EmptyString, None), st).
Proof.
  intros Hin. unfold capture, bind, read.
  now rewrite (set_mem_correct2 string_dec label (captured_names st) Hin).
Qed.

Lemma capture_fresh (env : Env) (label : string) (st : State) :
  set_mem string_dec label (captured_names st) = false ->
  let st' := snd (capture env label st) in
  captured_names st' = set_add string_dec label (captured_names st)
  /\ trace st'
     = trace st
       ++ [EvDriver "page.content" [];
           EvDriver "page.screenshot"
                    [PStr (path_join (outdir env) (label ++ ".png")); PBool true]].
Proof.
  intros Hfresh. munfold. rewrite Hfresh. cbn.
  repeat mcase; cbn; rewrite <- ?app_assoc; auto.
Qed.

(** C9: the first capture of a label reads the DOM, attempts the screenshot
    and records the label; from then on, in any state that still holds the
    label, a capture returns the empty placeholder and leaves the state, log
    included, as it was. *)
Theorem C9_capture_once_per_label :
  forall (env : Env) (label : string) (st : State),
    let first := capture env label st in
    set_In label (captured_names (snd first))
    /\ (set_mem string_dec label (captured_names st) = false ->
        events_since st (snd first)
        = [EvDriver "page.content" [];
           EvDriver "page.screenshot"
                    [PStr (path_join (outdir env) (label ++ ".png")); PBool true]])
    /\ capture env label (snd first) = (Ok (EmptyString, None), snd first)
    /\ (forall later : State,
           set_In label (captured_names later) ->
           capture env label later = (Ok (EmptyString, None), later)).
Proof.
  intros env label st first. subst first.
  assert (Hin : set_In label (captured_names (snd (capture env label st)))).
  { destruct (set_mem string_dec label (captured_names st)) eqn:Hm.
    - rewrite capture_seen by now apply set_mem_correct1 in Hm.
      now apply set_mem_correct1 in Hm.
    - destruct (capture_fresh env label st Hm) as [-> _].
      apply set_add_intro2. reflexivity. }
  split; [exact Hin|]. split; [|split].
  - intros Hm. apply events_since_app.
    now destruct (capture_fresh env label st Hm) as [_ ->].
  - now apply capture_seen.
  - intros later Hl. now apply capture_seen.
Qed.

Lemma C9_witness :
  let env := scripted_env (fun _ => false) "<html></html>" PNone in
  let st1 := snd (capture env "task_page_loaded" (initial_state false)) in
  trace st1
  = [EvDriver "page.content" [];
     EvDriver "page.screenshot" [PStr "out/task_page_loaded.png"; PBool true]]
  /\ capture env "task_page_loaded" st1 = (Ok (EmptyString, None), st1).
Proof.
  intros env st1.
  destruct (C9_capture_once_per_label env "task_page_loaded" (initial_state false))
    as (_ & Hev & Hagain & _).
  split; [exact (Hev eq_refl) | exact Hagain].
Defined.

(** ** The executor of actions *)

Lemma execute_action_body_ok (env : Env) (d : dict) (st st' : State) (v : pyval) :
  execute_action_body env d st = (Ok v, st') -> status_xor_error v = true.
Proof.
  intros H. munfold. cbv zeta in H.
  repeat mcase; try discriminate; reflexivity.
Qed.

(** What [execute_action] returns on a dict: a dict again, never an exception. *)
Lemma execute_action_on_dict (env : Env) (d : dict) (st : State) :
  exists r st',
    execute_action env (PDict d) st = (Ok (PDict r), st')
    /\ status_xor_error (PDict r) = true.
Proof.
  unfold execute_action, bind, emit, write, try_catch, ret.
  destruct (truthy (PDict d)) eqn:Ht; cbn [negb].
  - destruct (execute_action_body env d _) as [[v|e] st1] eqn:Hb.
    + pose proof (execute_action_body_ok _ _ _ _ _ Hb) as Hx.
      destruct v; try discriminate. eauto.
    + eexists _, _. split; reflexivity.
  - eexists _, _. split; reflexivity.
Qed.

(** C5: on every action dict [execute_action] returns a dict with exactly one
    of [status] and [error] set, and it never raises; when the work on the
    page raises, the dict returned is the error result built from the text of
    the exception. *)
Theorem C5_execute_action_never_raises :
  forall (env : Env) (d : dict) (st : State),
    exists r st',
      execute_action env (PDict d) st = (Ok (PDict r), st')
      /\ status_xor_error (PDict r) = true
      /\ (forall e st1,
             d <> [] ->
             execute_action_body env d (snd (emit (EvExecuteAction (PDict d)) st))
             = (Raise e, st1) ->
             r = [("error", PStr ("execute_action_failed:" ++ exn_msg e))]
             /\ st' = st1).
Proof.
  intros env d st.
  destruct (execute_action_on_dict env d st) as (r & st' & Hrun & Hx).
  exists r, st'. split; [exact Hrun|]. split; [exact Hx|].
  intros e st1 Hne Hbody.
  unfold execute_action, bind, try_catch, ret in Hrun.
  destruct d as [|kv d]; [congruence|].
  cbn [truthy negb] in Hrun. cbn [emit write snd] in Hbody, Hrun.
  rewrite Hbody in Hrun. inversion Hrun. auto.
Qed.

Lemma C5_witness :
  let env := scripted_env (fun _ => true) "<html></html>" PNone in
  fst (execute_action env (PDict [("type", PStr "click"); ("selector", PStr "a[")])
                      (initial_state false))
  = Ok (PDict [("error", PStr "execute_action_failed:boom")]).
Proof.
  intros env.
  destruct (C5_execute_action_never_raises
              env [("type", PStr "click"); ("selector", PStr "a[")] (initial_state false))
    as (r & st' & Hrun & _ & Hraise).
  rewrite Hrun. cbn [fst].
  destruct (Hraise (Exn "Error" "boom")
                   (snd (execute_action_body env
                           [("type", PStr "click"); ("selector", PStr "a[")]
                           (snd (emit (EvExecuteAction
                                         (PDict [("type", PStr "click");
                                                 ("selector", PStr "a[")]))
                                      (initial_state false))))))
    as [-> _]; [discriminate | vm_compute; reflexivity | reflexivity].
Defined.

(** ** What a computation may add to the log *)

Lemma advance_refl (p : event -> bool) (st : State) : advance p st st.
Proof.
  split; [exists []; split; [now rewrite app_nil_r | reflexivity] | lia].
Qed.

Lemma advance_trans (p : event -> bool) (a b c : State) :
  advance p a b -> advance p b c -> advance p a c.
Proof.
  intros [(d1 & H1 & F1) C1] [(d2 & H2 & F2) C2]. split; [|lia].
  exists (d1 ++ d2). split.
  - now rewrite H2, H1, app_assoc.
  - now rewrite forallb_app, F1, F2.
Qed.

Lemma forallb_weaken {A} (p q : A -> bool) (l : list A) :
  (forall x, p x = true -> q x = true) -> forallb p l = true -> forallb q l = true.
Proof.
  intros Hpq. induction l as [|x l IH]; cbn; [auto|].
  intros H. apply andb_prop in H as [Hx Hl]. now rewrite (Hpq x Hx), IH.
Qed.

Lemma advance_weaken (p q : event -> bool) (a b : State) :
  (forall e, p e = true -> q e = true) -> advance p a b -> advance q a b.
Proof.
  intros Hpq [(d & H & F) C]. split; [|exact C].
  exists d. split; [exact H | now apply (forallb_weaken p q)].
Qed.

Section Emits.
Context {A B : Type} (p : event -> bool).

Lemma emits_ret (a : A) : emits p (ret a).
Proof. intros st. apply advance_refl. Qed.

Lemma emits_raise (e : exn) : emits p (@raise A e).
Proof. intros st. apply advance_refl. Qed.

Lemma emits_read (f : State -> A) : emits p (read f).
Proof. intros st. apply advance_refl. Qed.

Lemma emits_bind (m : M A) (f : A -> M B) :
  emits p m -> (forall a, emits p (f a)) -> emits p (bind m f).
Proof.
  intros Hm Hf st. unfold bind. specialize (Hm st).
  destruct (m st) as [[a|e] st1]; cbn [snd] in *; [|exact Hm].
  eapply advance_trans; [exact Hm | apply Hf].
Qed.

Lemma emits_try_catch (m : M A) (h : exn -> M A) :
  emits p m -> (forall e, emits p (h e)) -> emits p (try_catch m h).
Proof.
  intros Hm Hh st. unfold try_catch. specialize (Hm st).
  destruct (m st) as [[a|e] st1]; cbn [snd] in *; [exact Hm|].
  eapply advance_trans; [exact Hm | apply Hh].
Qed.

Lemma emits_weaken (q : event -> bool) (m : M A) :
  (forall e, q e = true -> p e = true) -> emits q m -> emits p m.
Proof. intros Hqp Hm st. eapply advance_weaken; [exact Hqp | apply Hm]. Qed.
End Emits.

Lemma emits_write_pure (p : event -> bool) (f : State -> State) :
  (forall st, trace (f st) = trace st /\ clock (f st) = clock st) ->
  emits p (write f).
Proof.
  intros Hf st. unfold advance. cbn. destruct (Hf st) as [Ht Hc]. split.
  - exists []. now rewrite Ht, app_nil_r.
  - lia.
Qed.

Lemma emits_emit (p : event -> bool) (e : event) : p e = true -> emits p (emit e).
Proof.
  intros He st. unfold advance. cbn. split; [|lia].
  exists [e]. cbn. now rewrite He.
Qed.

Lemma emits_elapse (p : event -> bool) (ms : Z) : (0 <= ms)%Z -> emits p (elapse ms).
Proof.
  intros Hms st. unfold advance. cbn. split; [|lia]. exists []. now rewrite app_nil_r.
Qed.

Lemma sleep_ms_nonneg (v : pyval) (ms : Z) : sleep_ms v = Ok ms -> (0 <= ms)%Z.
Proof.
  destruct v; unfold sleep_ms; try discriminate.
  - intros H. assert (E : ms = if b then 1000%Z else 0%Z) by congruence.
    rewrite E. destruct b; lia.
  - destruct (n <? 0)%Z eqn:Hn; [discriminate|]. intros H.
    assert (E : ms = (1000 * n)%Z) by congruence.
    apply Z.ltb_ge in Hn. lia.
  - destruct (m <? 0)%Z eqn:Hm; [discriminate|]. intros H.
    apply Z.ltb_ge in Hm.
    destruct (0 <=? e + 3)%Z eqn:He.
    + assert (E : ms = (m * 10 ^ (e + 3))%Z) by congruence. rewrite E.
      apply Z.leb_le in He. apply Z.mul_nonneg_nonneg; [lia|].
      apply Z.pow_nonneg. lia.
    + assert (E : ms = (m / 10 ^ (- (e + 3)))%Z) by congruence. rewrite E.
      apply Z.leb_gt in He. apply Z.div_pos; [lia|].
      apply Z.pow_pos_nonneg; lia.
Qed.

Section EmitsCalls.
Variable env : Env.
Variable p : event -> bool.

Lemma emits_external (e : event) : p e = true -> emits p (external env e).
Proof.
  intros He. unfold external.
  apply emits_bind; [apply emits_read | intros k].
  apply emits_bind; [now apply emits_emit | intros _].
  apply emits_bind; [apply emits_elapse; lia | intros _].
  destruct (ext_raises env k); [apply emits_raise | apply emits_ret].
Qed.

Lemma emits_time_sleep (site : sleep_site) (v : pyval) :
  p (EvSleep site v) = true -> emits p (time_sleep env site v).
Proof.
  intros He. unfold time_sleep.
  destruct (sleep_ms v) as [ms|e] eqn:Hms; [|apply emits_raise].
  apply sleep_ms_nonneg in Hms.
  apply emits_bind; [apply emits_read | intros k].
  apply emits_bind; [now apply emits_emit | intros _].
  apply emits_elapse. lia.
Qed.

Lemma emits_plan_action (q : prompt) :
  p (EvPlanner q) = true -> emits p (plan_action env q).
Proof.
  intros He. unfold plan_action.
  apply emits_bind; [apply emits_read | intros k].
  apply emits_bind; [now apply emits_emit | intros _].
  apply emits_bind; [apply emits_elapse; lia | intros _].
  apply emits_ret.
Qed.
End EmitsCalls.

Lemma emits_goto (env : Env) (p : event -> bool) (url : option string) :
  (forall u w, p (EvDriver "page.goto" [PStr u; PStr w]) = true) ->
  emits p (goto env url).
Proof.
  intros Hp. unfold goto. destruct url as [u|]; [|apply emits_ret].
  destruct (u =? EmptyString); [apply emits_ret|].
  destruct (negb _); [apply emits_ret|].
  unfold driver_call.
  repeat first [ apply emits_ret | apply emits_external; apply Hp
               | apply emits_bind; [|intros] | apply emits_try_catch; [|intros] ].
Qed.

(** Inclusion of one class of events in another. *)
Ltac class_incl :=
  let e := fresh "e" in
  intros e; destruct e; intros; try discriminate; try reflexivity;
  repeat match goal with
         | s : sleep_site |- _ => destruct s
         | q : prompt |- _ => destruct q
         end;
  try discriminate; reflexivity.

(** Proves [emits p m] by following the structure of [m]. *)
Ltac emits_go :=
  repeat first
    [ apply emits_ret | apply emits_raise | apply emits_read
    | apply emits_emit; reflexivity
    | apply emits_external; reflexivity
    | apply emits_time_sleep; reflexivity
    | apply emits_plan_action; reflexivity
    | apply emits_goto; intros; reflexivity
    | apply emits_write_pure; intros; split; reflexivity
    | solve [eauto with emits]
    | solve [eapply emits_weaken; [ | solve [eauto with emits] ]; class_incl]
    | match goal with
      | |- emits _ (if ?b then _ else _) => destruct b
      | |- emits _ (match ?x with _ => _ end) => destruct x
      end
    | apply emits_bind; [ | intros ]
    | apply emits_try_catch; [ | intros ] ].

Create HintDb emits.

Lemma emits_execute_action (env : Env) (action : pyval) :
  emits controller_event (execute_action env action).
Proof. unfold execute_action, execute_action_body. cbv zeta. emits_go. Qed.
#[export] Hint Resolve emits_execute_action : emits.

Lemma emits_attempt_once (env : Env) (step : dict) (typ selector value result : pyval) :
  emits controller_event (attempt_once env step typ selector value result).
Proof. unfold attempt_once, attempt_try. cbv zeta. emits_go. Qed.
#[export] Hint Resolve emits_attempt_once : emits.

Lemma emits_recover (env : Env) (step result : pyval) (results : list pyval) :
  emits recovery_event (recover env step result results).
Proof.
  unfold recover. cbv zeta. emits_go.
Qed.
#[export] Hint Resolve emits_recover : emits.

(** ** One pass of the retry loop *)

Lemma prefix_app (p s : string) : String.prefix p (p ++ s) = true.
Proof.
  induction p as [|a p IH]; cbn [String.append].
  - now destruct s.
  - now rewrite prefix_cons, Ascii.eqb_refl, IH.
Qed.

Lemma exception_result_is_exception (msg : string) :
  is_exception_result (PDict [("error", PStr ("exception:" ++ msg))]) = true.
Proof. unfold is_exception_result, startswith. now rewrite prefix_app. Qed.


(** How the [try] block of a pass ends, by the kind of the step. *)
Lemma attempt_try_cases (env : Env) (step : dict) (typ selector value result : pyval)
      (st : State) :
  match attempt_try env step typ selector value result st with
  | (Ok (Broke _), _) => retried_kind typ = false
  | (Ok (Fell _), _) => retried_kind typ = true
  | (Raise _, _) =>
      retried_kind typ = false /\ calls_page_directly step typ selector = true
  end.
Proof.
  unfold attempt_try, retried_kind, calls_page_directly. cbv zeta.
  repeat match goal with
         | |- context [if str_in typ ?l then _ else _] => destruct (str_in typ l) eqn:?
         | |- context [if str_eq typ ?s then _ else _] => destruct (str_eq typ s) eqn:?
         | |- context [if truthy (PDict (_ :: _)) then _ else _] => cbn [truthy]
         | |- context [if truthy (PDict []) then _ else _] => cbn [truthy]
         | |- context [if ?b then _ else _] => destruct b eqn:?
         end;
    unfold bind, ret;
    repeat match goal with
           | |- context [execute_action ?e (PDict ?d) ?s] =>
               destruct (execute_action_on_dict e d s) as (? & ? & -> & _)
           | |- context [driver_call ?e ?m ?a ?s] =>
               destruct (driver_call e m a s) as [[[]|?] ?]
           end;
    cbn [orb andb]; auto;
    repeat match goal with
           | H : _ && _ = true |- _ => apply andb_prop in H as [? ?]
           end;
    repeat match goal with
           | H : ?x = true |- context [?x] => rewrite H
           end;
    auto.
Qed.

(** A pass never raises; it ends in a [break] only for a kind the loop does
    not retry, and without one only for a kind it retries or on the exception
    of a direct call on the page. *)
Lemma attempt_once_outcome (env : Env) (step : dict) (typ selector value result : pyval)
      (st : State) :
  exists o st',
    attempt_once env step typ selector value result st = (Ok o, st')
    /\ match o with
       | Broke _ => retried_kind typ = false
       | Fell r =>
           retried_kind typ = true
           \/ (calls_page_directly step typ selector = true
               /\ is_exception_result r = true)
       end.
Proof.
  pose proof (attempt_try_cases env step typ selector value result st) as H.
  unfold attempt_once, try_catch, ret.
  destruct (attempt_try env step typ selector value result st) as [[[r|r]|e] st1].
  - eexists _, _. split; [reflexivity | exact H].
  - eexists _, _. split; [reflexivity | now left].
  - eexists _, _. split; [reflexivity|]. right.
    split; [apply H | apply exception_result_is_exception].
Qed.

(** ** The retry loop *)

Lemma pacing_app (idx : nat) (a b : list event) :
  pacing idx (a ++ b) = pacing idx a ++ pacing idx b.
Proof. apply flat_map_app. Qed.

Lemma pacing_quiet (idx : nat) (p : event -> bool) (d : list event) :
  (forall e, p e = true -> mark_of idx e = []) ->
  forallb p d = true -> pacing idx d = [].
Proof.
  intros Hp. unfold pacing. induction d as [|e d IH]; cbn [flat_map forallb]; [reflexivity|].
  intros H. apply andb_prop in H as [He Hd]. now rewrite (Hp e He), IH.
Qed.

Lemma controller_event_no_mark (idx : nat) (e : event) :
  controller_event e = true -> mark_of idx e = [].
Proof. destruct e; try discriminate; try reflexivity. now destruct site. Qed.

Lemma recovery_event_no_mark (idx : nat) (e : event) :
  recovery_event e = true -> mark_of idx e = [].
Proof.
  destruct e; try discriminate; try reflexivity. now destruct site.
Qed.

Lemma loop_of_controller (e : event) : controller_event e = true -> loop_event e = true.
Proof. destruct e; try discriminate; try reflexivity. now destruct site. Qed.

Lemma retry_loop_spec (env : Env) (idx : nat) (step : dict) (typ selector value : pyval) :
  forall (attempts : list nat) (result : pyval) (st : State),
  exists r st' delta,
    retry_loop env idx step typ selector value attempts result st = (Ok r, st')
    /\ trace st' = trace st ++ delta
    /\ (clock st <= clock st')%Z
    /\ forallb loop_event delta = true
    /\ loop_marks (stops typ) (goes_on step typ selector)
                  (List.length attempts) result (pacing idx delta) r.
Proof.
  induction attempts as [|attempt rest IH]; intros result st.
  - exists result, st, []. cbn. rewrite app_nil_r.
    repeat split; try reflexivity; try lia. constructor.
  - cbn [retry_loop List.length]. unfold bind at 1.
    destruct (attempt_once_outcome env step typ selector value result st)
      as (o & st1 & Hrun & Hout).
    destruct (emits_attempt_once env step typ selector value result st)
      as [(d1 & Ht1 & Hq1) Hc1].
    rewrite Hrun in *. cbn [snd] in Ht1, Hc1.
    assert (Hp1 : pacing idx d1 = [])
      by (eapply pacing_quiet; [apply controller_event_no_mark | exact Hq1]).
    assert (Hl1 : forallb loop_event d1 = true)
      by (eapply forallb_weaken; [apply loop_of_controller | exact Hq1]).
    destruct o as [r|r].
    + exists r, (set_trace (trace st1 ++ [EvAttempt idx attempt r]) st1),
        (d1 ++ [EvAttempt idx attempt r]).
      split; [reflexivity|]. cbn [trace set_trace clock].
      split; [now rewrite Ht1, app_assoc|]. split; [exact Hc1|].
      split; [now rewrite forallb_app, Hl1|].
      rewrite pacing_app, Hp1. cbn. rewrite Nat.eqb_refl. cbn.
      apply LM_stop. now right.
    + unfold bind at 1, emit at 1, write at 1.
      destruct (attempt_succeeded r) eqn:Hs.
      * exists r, (set_trace (trace st1 ++ [EvAttempt idx attempt r]) st1),
          (d1 ++ [EvAttempt idx attempt r]).
        split; [reflexivity|]. cbn [trace set_trace clock].
        split; [now rewrite Ht1, app_assoc|]. split; [exact Hc1|].
        split; [now rewrite forallb_app, Hl1|].
        rewrite pacing_app, Hp1. cbn. rewrite Nat.eqb_refl. cbn.
        apply LM_stop. now left.
      * unfold bind at 1.
        set (st2 := set_trace (trace st1 ++ [EvAttempt idx attempt r]) st1).
        destruct (emits_time_sleep env (fun e => match e with
                                                 | EvSleep RetrySleep _ => true
                                                 | _ => false
                                                 end)
                                   RetrySleep half_second eq_refl st2)
          as [(d2 & Ht2 & Hq2) Hc2].
        assert (Hsl : exists st3, time_sleep env RetrySleep half_second st2 = (Ok tt, st3)
                                  /\ d2 = [EvSleep RetrySleep half_second]).
        { revert Ht2. unfold time_sleep. cbn [sleep_ms half_second Z.ltb Z.compare].
          unfold bind, read, emit, write, elapse. cbn.
          intros Ht2. eexists. split; [reflexivity|].
          now apply app_inv_head in Ht2. }
        destruct Hsl as (st3 & Hsleep & ->).
        rewrite Hsleep in *. cbn [snd] in Ht2, Hc2.
        destruct (IH r st3) as (final & st' & d3 & Hloop & Ht3 & Hc3 & Hq3 & Hm3).
        exists final, st', (d1 ++ [EvAttempt idx attempt r]
                           ++ [EvSleep RetrySleep half_second] ++ d3).
        split; [exact Hloop|].
        split.
        { rewrite Ht3, Ht2. subst st2. cbn [trace set_trace]. rewrite Ht1.
          now rewrite <- !app_assoc. }
        split.
        { subst st2. cbn [clock set_trace] in Hc2. lia. }
        split.
        { rewrite !forallb_app, Hl1, Hq3. reflexivity. }
        rewrite !pacing_app, Hp1. cbn. rewrite Nat.eqb_refl. cbn.
        apply LM_retry; [|exact Hm3]. split; [exact Hs | exact Hout].
Qed.

(** ** Reading the marks of a retry loop *)

Section LoopMarks.
Variables stop again : pyval -> Prop.









End LoopMarks.

(** ** One step of the plan *)


Lemma execute_step_spec (env : Env) (max_retries idx : nat) (d : dict)
      (results : list pyval) (st : State) :
  let typ := py_or (get d "action") (get d "type") in
  let selector := py_or (py_or (get d "selector") (get d "sel")) (get d "query") in
  exists final st1 delta,
    trace st1 = trace st ++ delta
    /\ forallb loop_event delta = true
    /\ loop_marks (stops typ) (goes_on d typ selector)
                  (max_retries + 1) PNone (pacing idx delta) final
    /\ execute_step env max_retries idx (PDict d) results st
       = if needs_recovery final
         then recover env (PDict d) final
                      (results ++ [step_record idx (PDict d) final]) st1
         else (Ok (results ++ [step_record idx (PDict d) final]), st1).
Proof.
  intros typ selector.
  destruct (retry_loop_spec env idx d typ selector
              (py_or (py_or (get d "value") (get d "text")) (get d "fill"))
              (seq 0 (max_retries + 1)) PNone st)
    as (final & st1 & delta & Hloop & Ht & _ & Hq & Hm).
  rewrite length_seq in Hm.
  exists final, st1, delta. repeat split; try assumption.
  unfold execute_step. fold typ selector. unfold bind at 1. rewrite Hloop.
  destruct (needs_recovery final); reflexivity.
Qed.


(** ** Retries, pauses and the end of the loop *)





(** ** A click with nothing to click on *)

(** C6 fails on a click step that names neither a selector nor [by_text]: no
    branch builds an action, the executor of actions is never called, all
    three passes leave [result] at [None], and the record holds [None], which
    is no dict and sets neither [status] nor [error]. *)
Theorem C6_click_without_target_records_none :
  forall (env : Env) (st : State),
    let step := PDict [("action", PStr "click")] in
    let out := execute_ui_plan env (PList [step]) 2 st in
    fst out = Ok (PList [step_record 0 step PNone])
    /\ status_xor_error PNone = false
    /\ attempt_results (pacing 0 (events_since st (snd out))) = [PNone; PNone; PNone].
Proof.
  intros env st step out. subst out step.
  split; [reflexivity|]. split; [reflexivity|].
  erewrite events_since_app; [|cbn; rewrite <- !app_assoc; reflexivity].
  reflexivity.
Qed.

(** ** The kinds that leave the loop through [break] *)






(** ** Recovery *)

(** C2 fails where the planner answers the recovery prompt in the shape that
    prompt asks for, with the name of the action under [action]: the value
    handed to the executor of actions is that name, a string, on which
    [action.get] does not exist; the exception leaves [execute_ui_plan] and no
    record is returned at all. *)
Theorem C2_named_corrective_action_raises :
  let reply := PDict [("action", PStr "click"); ("selector", PStr "#ok")] in
  let env := scripted_env (fun _ => false) "<html></html>" reply in
  let out := execute_ui_plan env (PList [PDict [("action", PStr "hover")]]) 2
                             (initial_state false) in
  fst out = Raise (AttributeError_get "str")
  /\ trace (snd out)
     = [EvAttempt 0 0 (PDict [("error", PStr "hover_no_selector")]);
        EvDriver "page.content" [];
        EvPlanner (FeedbackPrompt (PDict [("action", PStr "hover")])
                                  (PDict [("error", PStr "hover_no_selector")])
                                  "<html></html>");
        EvExecuteAction (PStr "click")].
Proof. vm_compute. split; reflexivity. Qed.

(** ** The login gate of a run *)

Lemma run_outcome {A} (p : event -> bool) (m : M A) (st : State) :
  emits p m ->
  exists delta,
    trace (snd (m st)) = trace st ++ delta
    /\ forallb p delta = true
    /\ (clock st <= clock (snd (m st)))%Z.
Proof. intros H. destruct (H st) as [(d & Ht & Hq) Hc]. eauto. Qed.

Lemma try_catch_unit_total (m : M unit) (st : State) :
  exists st', try_catch m (fun _ => ret tt) st = (Ok tt, st').
Proof.
  unfold try_catch, ret. destruct (m st) as [[[]|e] st1]; eauto.
Qed.

Lemma goto_total (env : Env) (url : option string) (st : State) :
  exists st', goto env url st = (Ok tt, st').
Proof.
  unfold goto. destruct url as [u|]; [|unfold ret; eauto].
  destruct (u =? EmptyString); [unfold ret; eauto|].
  destruct (negb _); [unfold ret; eauto|].
  unfold try_catch at 1.
  destruct (driver_call env _ _ st) as [[[]|e] st1]; [eauto|].
  apply try_catch_unit_total.
Qed.

Lemma emits_is_logged_in (env : Env) : emits setup_event (is_logged_in env).
Proof. unfold is_logged_in, context_cookies, page_content. emits_go. Qed.
#[export] Hint Resolve emits_is_logged_in : emits.

(** A probe always returns its verdict, and logs it. *)
Lemma is_logged_in_spec (env : Env) (st : State) :
  exists b st' delta,
    is_logged_in env st = (Ok b, st')
    /\ trace st' = trace st ++ delta
    /\ forallb setup_event delta = true
    /\ (clock st <= clock st')%Z
    /\ (b = true -> existsb probe_succeeded delta = true).
Proof.
  destruct (run_outcome setup_event (is_logged_in env) st (emits_is_logged_in env))
    as (delta & Ht & Hq & Hc).
  assert (Hv : exists b d, fst (is_logged_in env st) = Ok b
                           /\ trace (snd (is_logged_in env st)) = trace st ++ d
                           /\ (b = true -> existsb probe_succeeded d = true)).
  { unfold is_logged_in, context_cookies, page_content, external, emit, elapse,
      read, write, bind, ret, raise, try_catch.
    repeat mcase; cbn [fst snd trace set_trace set_clock];
      eexists _, _; (split; [reflexivity|]);
      (split; [rewrite <- ?app_assoc; reflexivity|]);
      intros; try discriminate; reflexivity. }
  destruct Hv as (b & d & Hb & Hd & Hin).
  rewrite Ht in Hd. apply app_inv_head in Hd. subst d.
  destruct (is_logged_in env st) as [r st'] eqn:Hrun. cbn [fst snd] in *. subst r.
  exists b, st', delta. repeat split; assumption.
Qed.

Lemma sleep_three (env : Env) (st : State) :
  exists st',
    time_sleep env PollSleep (PInt 3) st = (Ok tt, st')
    /\ trace st' = trace st ++ [EvSleep PollSleep (PInt 3)]
    /\ (clock st + 3000 <= clock st')%Z.
Proof.
  unfold time_sleep. change (sleep_ms (PInt 3)) with (@Ok Z 3000%Z).
  unfold bind, read, emit, write, elapse.
  eexists. split; [reflexivity|]. cbn [trace clock set_trace set_clock].
  split; [reflexivity | lia].
Qed.

Lemma emits_poll_login (env : Env) (fuel : nat) (start_time : Z) :
  emits login_event (poll_login env fuel start_time).
Proof.
  induction fuel as [|fuel IH]; cbn [poll_login];
    unfold time_time, remove_manual_login_prompt, save_storage_state, driver_call, file_call;
    emits_go.
Qed.

(** The polling loop: with fuel for the time that is left it returns, with
    [true] only after a probe that succeeded, and with [false] only when the
    time is up. *)
Lemma poll_login_spec (env : Env) (start_time : Z) :
  forall (fuel : nat) (st : State),
    (MANUAL_LOGIN_TIMEOUT * 1000 - (clock st - start_time) <= 3000 * Z.of_nat fuel)%Z ->
    exists b st' delta,
      poll_login env fuel start_time st = (Ok b, st')
      /\ trace st' = trace st ++ delta
      /\ forallb login_event delta = true
      /\ (b = true -> existsb probe_succeeded delta = true)
      /\ (b = false -> (MANUAL_LOGIN_TIMEOUT * 1000 <= clock st' - start_time)%Z).
Proof.
  unfold MANUAL_LOGIN_TIMEOUT.
  induction fuel as [|fuel IH]; intros st Hrem.
  - exists false, st, []. cbn [poll_login]. unfold bind, time_time, read, ret.
    assert (Hc : (clock st - start_time <? 120 * 1000)%Z = false)
      by (apply Z.ltb_ge; lia).
    unfold MANUAL_LOGIN_TIMEOUT. rewrite Hc, app_nil_r.
    repeat split; try reflexivity; try discriminate. intros _. lia.
  - destruct (run_outcome login_event (poll_login env (S fuel) start_time) st
                          (emits_poll_login env (S fuel) start_time))
      as (delta & Ht & Hq & _).
    cbn [poll_login] in *. unfold bind at 1 in Ht. unfold bind at 1.
    unfold time_time, read in *. unfold MANUAL_LOGIN_TIMEOUT in *.
    destruct (clock st - start_time <? 120 * 1000)%Z eqn:Hc.
    + unfold bind at 1 in Ht. unfold bind at 1.
      destruct (is_logged_in_spec env st) as (b & st1 & d1 & Hrun & Ht1 & _ & Hc1 & Hp1).
      rewrite Hrun in *.
      destruct b.
      * unfold remove_manual_login_prompt in *.
        unfold bind at 1 in Ht. unfold bind at 1.
        destruct (try_catch_unit_total
                    (driver_call env "page.evaluate" [PStr "manual-login-banner: remove"]) st1)
          as (st2 & Hrm).
        rewrite Hrm in *.
        unfold bind at 1 in Ht. unfold bind at 1.
        destruct (try_catch_unit_total (save_storage_state env) st2) as (st3 & Hsv).
        rewrite Hsv in *. unfold ret in *. cbn [snd] in Ht.
        exists true, st3, delta. repeat split; try assumption; [|discriminate].
        intros _.
        destruct (run_outcome login_event _ st1
                    (emits_try_catch login_event
                       (driver_call env "page.evaluate" [PStr "manual-login-banner: remove"])
                       (fun _ => ret tt)
                       ltac:(unfold driver_call; emits_go) ltac:(intros; emits_go)))
          as (d2 & Ht2 & _ & _).
        unfold ret in Ht2. rewrite Hrm in Ht2. cbn [snd] in Ht2.
        destruct (run_outcome login_event _ st2
                    (emits_try_catch login_event (save_storage_state env)
                       (fun _ => ret tt)
                       ltac:(unfold save_storage_state, driver_call, file_call; emits_go)
                       ltac:(intros; emits_go)))
          as (d3 & Ht3 & _ & _).
        unfold ret in Ht3. rewrite Hsv in Ht3. cbn [snd] in Ht3.
        rewrite Ht3, Ht2, Ht1, <- !app_assoc in Ht. apply app_inv_head in Ht. subst delta.
        rewrite existsb_app, (Hp1 eq_refl). reflexivity.
      * unfold bind at 1 in Ht. unfold bind at 1.
        destruct (sleep_three env st1) as (st2 & Hsl & Ht2 & Hc2).
        rewrite Hsl in *.
        destruct (IH st2) as (b & st' & d3 & Hloop & Ht3 & Hq3 & Hp3 & Hd3); [lia|].
        rewrite Hloop in *. cbn [snd] in Ht.
        exists b, st', delta. repeat split; try assumption.
        intros Hb. specialize (Hp3 Hb).
        rewrite Ht3, Ht2, Ht1, <- !app_assoc in Ht. apply app_inv_head in Ht. subst delta.
        rewrite !existsb_app, Hp3, !orb_true_r. reflexivity.
    + unfold ret in *. cbn [snd] in Ht.
      exists false, st, delta. repeat split; try assumption; [discriminate|].
      intros _. apply Z.ltb_ge in Hc. lia.
Qed.

Section Gated.
Variable p : event -> bool.

Lemma gated_ret_false : gated p (ret false).
Proof.
  intros st. exists []. cbn. rewrite app_nil_r.
  repeat split; try reflexivity; try lia. discriminate.
Qed.

Lemma gated_raise (e : exn) : gated p (raise e).
Proof.
  intros st. exists []. cbn. rewrite app_nil_r.
  repeat split; try reflexivity; try lia. discriminate.
Qed.

Lemma gated_bind {A} (m : M A) (f : A -> M bool) :
  emits p m -> (forall a, gated p (f a)) -> gated p (bind m f).
Proof.
  intros Hm Hf st. unfold bind.
  destruct (Hm st) as [(d1 & Ht1 & Hq1) Hc1].
  destruct (m st) as [[a|e] st1]; cbn [fst snd] in *.
  - destruct (Hf a st1) as (d2 & Ht2 & Hq2 & Hc2 & Hg).
    exists (d1 ++ d2). rewrite Ht2, Ht1, app_assoc, forallb_app, Hq1, Hq2.
    repeat split; try reflexivity; try lia.
    intros H. rewrite existsb_app, (Hg H). apply orb_true_r.
  - exists d1. repeat split; try assumption. discriminate.
Qed.

Lemma gated_probe (env : Env) (k : M bool) :
  (forall e, setup_event e = true -> p e = true) ->
  gated p k ->
  gated p (ok <- is_logged_in env ;; if ok then ret true else k).
Proof.
  intros Hp Hk st. unfold bind.
  destruct (is_logged_in_spec env st) as (b & st1 & d1 & Hrun & Ht1 & Hq1 & Hc1 & Hp1).
  rewrite Hrun. apply (forallb_weaken _ p _ Hp) in Hq1.
  destruct b.
  - exists d1. cbn. repeat split; try assumption. intros _. now apply Hp1.
  - destruct (Hk st1) as (d2 & Ht2 & Hq2 & Hc2 & Hg).
    exists (d1 ++ d2). rewrite Ht2, Ht1, app_assoc, forallb_app, Hq1, Hq2.
    repeat split; try reflexivity; try lia.
    intros H. rewrite existsb_app, (Hg H). apply orb_true_r.
Qed.
End Gated.

Ltac gated_prefix :=
  repeat match goal with
         | |- gated _ (bind (is_logged_in _) _) => fail 1
         | |- gated _ (bind _ _) =>
             apply gated_bind;
             [unfold driver_call, file_call, preload_cookies; emits_go | intros]
         end.

Lemma gated_cookie_login (env : Env) (start_url : option string) :
  gated setup_event (cookie_login env start_url).
Proof.
  unfold cookie_login. cbv zeta. gated_prefix.
  match goal with |- gated _ (if ?b then _ else _) => destruct b end;
    [|apply gated_ret_false].
  gated_prefix.
  apply gated_probe; [auto|].
  gated_prefix. apply gated_ret_false.
Qed.

Lemma emits_ask_base_url (env : Env) (task : pyval) :
  emits setup_event (ask_base_url env task).
Proof. unfold ask_base_url. cbv zeta. emits_go. Qed.

Lemma emits_await_manual_login (env : Env) (base_url : string) :
  emits login_event (await_manual_login env base_url).
Proof.
  unfold await_manual_login, show_manual_login_prompt, remove_manual_login_prompt,
    driver_call, time_time.
  cbv zeta. pose proof (emits_poll_login env) as Hpoll. emits_go.
Qed.

(** Waiting for the manual login always returns: [true] only after a probe
    that succeeded, [false] only when 120 seconds have gone by. *)
Lemma await_manual_login_spec (env : Env) (base_url : string) (st : State) :
  exists b st' delta,
    await_manual_login env base_url st = (Ok b, st')
    /\ trace st' = trace st ++ delta
    /\ forallb login_event delta = true
    /\ (b = true -> existsb probe_succeeded delta = true)
    /\ (b = false -> (clock st + MANUAL_LOGIN_TIMEOUT * 1000 <= clock st')%Z).
Proof.
  destruct (run_outcome login_event _ st (emits_await_manual_login env base_url))
    as (delta & Ht & Hq & _).
  unfold await_manual_login in *. cbv zeta in *.
  set (login_url := (rstrip_chars "/" base_url ++ "/login")%string) in *.
  destruct (goto_total env (Some login_url) st) as (st1 & Hgo).
  destruct (run_outcome login_event _ st
              (emits_goto env login_event (Some login_url) ltac:(reflexivity)))
    as (d1 & Ht1 & _ & Hc1).
  rewrite Hgo in Ht1, Hc1. cbn [snd] in Ht1, Hc1.
  unfold bind at 1 in Ht. unfold bind at 1. rewrite Hgo in *.
  destruct (try_catch_unit_total
              (driver_call env "page.evaluate"
                 [PStr "manual-login-banner: show"; PInt MANUAL_LOGIN_TIMEOUT]) st1)
    as (st2 & Hshow).
  assert (Hem2 : emits login_event (show_manual_login_prompt env MANUAL_LOGIN_TIMEOUT))
    by (unfold show_manual_login_prompt, driver_call; emits_go).
  destruct (run_outcome login_event _ st1 Hem2) as (d2 & Ht2 & _ & Hc2).
  unfold show_manual_login_prompt in *.
  rewrite Hshow in Ht2, Hc2. cbn [snd] in Ht2, Hc2.
  unfold bind at 1 in Ht. unfold bind at 1. rewrite Hshow in *.
  unfold bind at 1 in Ht. unfold bind at 1. unfold time_time at 1 in Ht.
  unfold time_time at 1. unfold read in *.
  destruct (poll_login_spec env (clock st2) 40 st2)
    as (b & st3 & d3 & Hpoll & Ht3 & _ & Hp3 & Hd3);
    [unfold MANUAL_LOGIN_TIMEOUT; lia|].
  unfold bind at 1 in Ht. unfold bind at 1. rewrite Hpoll in *.
  destruct b.
  - unfold ret in *. cbn [snd] in Ht.
    exists true, st3, delta. repeat split; try assumption; [|discriminate].
    intros _. rewrite Ht3, Ht2, Ht1, <- !app_assoc in Ht.
    apply app_inv_head in Ht. subst delta.
    rewrite !existsb_app, (Hp3 eq_refl), !orb_true_r. reflexivity.
  - unfold remove_manual_login_prompt in *.
    destruct (try_catch_unit_total
                (driver_call env "page.evaluate" [PStr "manual-login-banner: remove"]) st3)
      as (st4 & Hrm).
    assert (Hem4 : emits login_event (remove_manual_login_prompt env))
      by (unfold remove_manual_login_prompt, driver_call; emits_go).
    destruct (run_outcome login_event _ st3 Hem4) as (d4 & _ & _ & Hc4).
    unfold remove_manual_login_prompt in Hc4. rewrite Hrm in Hc4. cbn [snd] in Hc4.
    unfold bind at 1 in Ht. unfold bind at 1. rewrite Hrm in *.
    unfold ret in *. cbn [snd] in Ht.
    exists false, st4, delta. repeat split; try assumption; [discriminate|].
    intros _. specialize (Hd3 eq_refl). lia.
Qed.

Lemma emits_retry_loop (env : Env) (idx : nat) (step : dict) (typ selector value : pyval)
      (attempts : list nat) (result : pyval) :
  emits loop_event (retry_loop env idx step typ selector value attempts result).
Proof.
  intros st.
  destruct (retry_loop_spec env idx step typ selector value attempts result st)
    as (r & st' & delta & Hrun & Ht & Hc & Hq & _).
  rewrite Hrun. cbn [snd]. split; eauto.
Qed.
#[export] Hint Resolve emits_retry_loop : emits.

Lemma emits_execute_step (env : Env) (max_retries idx : nat) (step : pyval)
      (results : list pyval) :
  emits step_event (execute_step env max_retries idx step results).
Proof. unfold execute_step. cbv zeta. emits_go. Qed.
#[export] Hint Resolve emits_execute_step : emits.

Lemma emits_run_steps (env : Env) (max_retries : nat) (steps : list pyval) :
  forall (idx : nat) (results : list pyval),
    emits step_event (run_steps env max_retries idx steps results).
Proof.
  induction steps as [|step rest IH]; intros idx results; cbn [run_steps]; emits_go.
Qed.
#[export] Hint Resolve emits_run_steps : emits.

Lemma emits_execute_ui_plan (env : Env) (ui_plan : pyval) (max_retries : nat) :
  emits step_event (execute_ui_plan env ui_plan max_retries).
Proof. unfold execute_ui_plan. emits_go. Qed.
#[export] Hint Resolve emits_execute_ui_plan : emits.

Lemma emits_capture (env : Env) (label : string) : emits any_event (capture env label).
Proof. unfold capture, page_content, driver_call. cbv zeta. emits_go. Qed.
#[export] Hint Resolve emits_capture : emits.

Lemma emits_perform_task (env : Env) (start_url : option string) (task : pyval) :
  emits any_event (perform_task env start_url task).
Proof.
  unfold perform_task, _capture_unique_state, clean_url_of, page_url, page_content,
    file_call, driver_call.
  cbv zeta. emits_go.
Qed.

(** ** Plans come after the login *)

Lemma split_after_prefix {A} (tr delta pre post : list A) (e : A) :
  tr ++ delta = pre ++ e :: post ->
  In e tr \/ exists pre', pre = tr ++ pre'.
Proof.
  revert pre. induction tr as [|x tr IH]; intros pre Heq.
  - right. now exists pre.
  - destruct pre as [|y pre]; cbn in Heq; inversion Heq; subst.
    + left. now left.
    + destruct (IH pre H1) as [Hin|[pre' ->]].
      * left. now right.
      * right. now exists pre'.
Qed.

Lemma no_plan_event_in (tr : list event) (e : event) :
  forallb (fun e => negb (plan_event e)) tr = true -> In e tr -> plan_event e = false.
Proof.
  intros H Hin. rewrite forallb_forall in H. specialize (H e Hin).
  now apply negb_true_iff in H.
Qed.

Lemma plan_after_login_quiet (tr : list event) :
  forallb (fun e => negb (plan_event e)) tr = true -> plan_after_login tr.
Proof.
  intros H pre e post Heq Hplan.
  rewrite (no_plan_event_in tr e H) in Hplan; [discriminate|].
  rewrite Heq. apply in_or_app. right. now left.
Qed.

Lemma plan_after_login_extend (tr delta : list event) :
  forallb (fun e => negb (plan_event e)) tr = true ->
  existsb probe_succeeded tr = true ->
  plan_after_login (tr ++ delta).
Proof.
  intros Hq Hp pre e post Heq Hplan.
  destruct (split_after_prefix tr delta pre post e Heq) as [Hin|[pre' ->]].
  - rewrite (no_plan_event_in tr e Hq Hin) in Hplan. discriminate.
  - apply existsb_exists in Hp as (x & Hx & Hpx).
    destruct x; try discriminate. destruct logged_in; [|discriminate].
    apply in_or_app. now left.
Qed.

Lemma login_events_hold_no_plan (tr : list event) :
  forallb login_event tr = true -> forallb (fun e => negb (plan_event e)) tr = true.
Proof. apply forallb_weaken. class_incl. Qed.

Lemma setup_events_are_login_events (tr : list event) :
  forallb setup_event tr = true -> forallb login_event tr = true.
Proof.
  apply forallb_weaken. intros e H. unfold setup_event in H.
  now apply andb_prop in H as [H _].
Qed.

Lemma setup_events_hold_no_banner (tr : list event) :
  forallb setup_event tr = true -> existsb is_login_banner tr = false.
Proof.
  induction tr as [|e tr IH]; cbn [forallb existsb]; [reflexivity|].
  intros H. apply andb_prop in H as [He Htr]. rewrite (IH Htr).
  unfold setup_event in He. apply andb_prop in He as [_ He].
  apply negb_true_iff in He. now rewrite He.
Qed.

(** The three phases of a run, one outcome at a time. *)
Lemma run_phases (env : Env) (start_url : option string) (task : pyval) (st : State) :
  run env start_url task st
  = match cookie_login env start_url st with
    | (Ok true, st1) => perform_task env start_url task st1
    | (Ok false, st1) =>
        match ask_base_url env task st1 with
        | (Ok base_url, st2) =>
            match await_manual_login env base_url st2 with
            | (Ok true, st3) => perform_task env start_url task st3
            | (Ok false, st3) => (Ok (PDict [("error", PStr "login_timeout")]), st3)
            | (Raise e, st3) => (Raise e, st3)
            end
        | (Raise e, st2) => (Raise e, st2)
        end
    | (Raise e, st1) => (Raise e, st1)
    end.
Proof.
  unfold run, manual_login, bind, ret.
  destruct (cookie_login env start_url st) as [[[|]|e1] st1]; try reflexivity.
  destruct (ask_base_url env task st1) as [[base_url|e2] st2]; try reflexivity.
  destruct (await_manual_login env base_url st2) as [[[|]|e3] st3]; reflexivity.
Qed.

(** C4: in a run of a fresh agent every event of a plan (the request for the
    plan, a pass over a step, an action handed to the executor, a recovery
    prompt) comes after a probe that found the session authenticated; and a
    run that put up the manual-login banner and saw no probe succeed polls
    until the 120 seconds are over, returns exactly the [login_timeout]
    error, and has logged no event of a plan. *)
Theorem C4_no_plan_without_login :
  forall (env : Env) (start_url : option string) (task : pyval)
         (cookie_file_exists : bool),
    let out := run env start_url task (initial_state cookie_file_exists) in
    plan_after_login (trace (snd out))
    /\ (existsb probe_succeeded (trace (snd out)) = false ->
        existsb is_login_banner (trace (snd out)) = true ->
        fst out = Ok (PDict [("error", PStr "login_timeout")])
        /\ forallb (fun e => negb (plan_event e)) (trace (snd out)) = true
        /\ (MANUAL_LOGIN_TIMEOUT * 1000 <= clock (snd out))%Z).
Proof.
  intros env start_url task cf out. subst out. rewrite run_phases.
  set (st0 := initial_state cf).
  destruct (gated_cookie_login env start_url st0) as (d1 & Ht1 & Hq1 & Hc1 & Hg1).
  change (trace st0) with (@nil event) in Ht1. cbn [app] in Ht1.
  change (clock st0) with 0%Z in Hc1.
  pose proof (setup_events_are_login_events d1 Hq1) as Hl1.
  destruct (cookie_login env start_url st0) as [[b1|e1] st1]; cbn [fst snd] in *.
  2:{ rewrite Ht1. split.
      - now apply plan_after_login_quiet, login_events_hold_no_plan.
      - intros _ Hb. rewrite (setup_events_hold_no_banner d1 Hq1) in Hb. discriminate. }
  destruct b1.
  - destruct (run_outcome any_event _ st1 (emits_perform_task env start_url task))
      as (d3 & Ht3 & _ & _).
    rewrite Ht3, Ht1. split.
    + apply plan_after_login_extend; [now apply login_events_hold_no_plan | now apply Hg1].
    + intros Hp. rewrite existsb_app, (Hg1 eq_refl) in Hp. discriminate.
  - destruct (run_outcome setup_event _ st1 (emits_ask_base_url env task))
      as (d2 & Ht2 & Hq2 & Hc2).
    pose proof (setup_events_are_login_events d2 Hq2) as Hl2.
    destruct (ask_base_url env task st1) as [[base_url|e2] st2]; cbn [fst snd] in *.
    2:{ rewrite Ht2, Ht1. split.
        - apply plan_after_login_quiet, login_events_hold_no_plan.
          now rewrite forallb_app, Hl1, Hl2.
        - intros _ Hb.
          rewrite existsb_app, (setup_events_hold_no_banner d1 Hq1),
            (setup_events_hold_no_banner d2 Hq2) in Hb. discriminate. }
    destruct (await_manual_login_spec env base_url st2)
      as (b & st3 & d3 & Hrun & Ht3 & Hq3 & Hp3 & Hd3).
    rewrite Hrun.
    assert (Hquiet : forallb (fun e => negb (plan_event e)) (d1 ++ d2 ++ d3) = true).
    { apply login_events_hold_no_plan. now rewrite !forallb_app, Hl1, Hl2, Hq3. }
    destruct b.
    + destruct (run_outcome any_event _ st3 (emits_perform_task env start_url task))
        as (d4 & Ht4 & _ & _).
      rewrite Ht4, Ht3, Ht2, Ht1, <- !app_assoc.
      rewrite (app_assoc d2 d3 d4), (app_assoc d1 (d2 ++ d3) d4). split.
      * apply plan_after_login_extend; [exact Hquiet|].
        rewrite !existsb_app, (Hp3 eq_refl), !orb_true_r. reflexivity.
      * intros Hp. rewrite !existsb_app, (Hp3 eq_refl), !orb_true_r in Hp. discriminate.
    + cbn [fst snd]. rewrite Ht3, Ht2, Ht1, <- !app_assoc. split.
      * now apply plan_after_login_quiet.
      * intros _ _. split; [reflexivity|]. split; [exact Hquiet|].
        specialize (Hd3 eq_refl). lia.
Qed.

Lemma C4_witness :
  let env := scripted_env (fun _ => false) "<html>Please sign in</html>"
                          (PDict [("raw_text", PStr "https://linear.app")]) in
  let out := run env (Some "https://www.google.com") (PStr "create a project")
                 (initial_state false) in
  fst out = Ok (PDict [("error", PStr "login_timeout")])
  /\ forallb (fun e => negb (plan_event e)) (trace (snd out)) = true
  /\ (MANUAL_LOGIN_TIMEOUT * 1000 <= clock (snd out))%Z.
Proof.
  intros env out.
  apply (proj2 (C4_no_plan_without_login env (Some "https://www.google.com")
                  (PStr "create a project") false)).
  - vm_compute. reflexivity.
  - vm_compute. reflexivity.
Defined.

(** ** Records and recovery *)

Lemma emits_execute_action_body (env : Env) (d : dict) :
  emits body_event (execute_action_body env d).
Proof. unfold execute_action_body. cbv zeta. emits_go. Qed.

(** The log of one call of the executor: its entry mark, then calls on the
    page only. *)
Lemma execute_action_trace (env : Env) (d : dict) (st : State) :
  exists r st' delta,
    execute_action env (PDict d) st = (Ok (PDict r), st')
    /\ trace st' = trace st ++ EvExecuteAction (PDict d) :: delta
    /\ forallb body_event delta = true.
Proof.
  destruct (execute_action_on_dict env d st) as (r & st' & Hrun & _).
  exists r, st'. rewrite Hrun.
  unfold execute_action, bind, emit, write, try_catch, ret in Hrun.
  destruct (negb (truthy (PDict d))).
  - exists []. inversion Hrun. cbn. auto.
  - set (st1 := set_trace (trace st ++ [EvExecuteAction (PDict d)]) st) in *.
    destruct (run_outcome body_event _ st1 (emits_execute_action_body env d))
      as (delta & Ht & Hq & _).
    exists delta. split; [reflexivity|].
    destruct (execute_action_body env d st1) as [[v|e] st2]; cbn [snd] in Ht;
      inversion Hrun; subst; rewrite Ht; subst st1; cbn [trace set_trace];
      rewrite <- app_assoc; auto.
Qed.

(** A recovery adds no record, or exactly one. *)
Lemma recover_appends_at_most_one (env : Env) (step result : pyval)
      (results l : list pyval) (st st' : State) :
  recover env step result results st = (Ok l, st') ->
  l = results
  \/ exists a r, l = results ++ [PDict [("repl_step", a); ("repl_result", r)]].
Proof.
  unfold recover, plan_action, try_catch, bind, read, emit, elapse, write, ret.
  cbv beta zeta.
  destruct (page_content env st) as [[dom|e] st1];
    (match goal with
     | |- context [if truthy ?x then _ else _] => destruct (truthy x)
     end;
     [ match goal with
       | |- context [execute_action ?e ?a ?s] =>
           destruct (execute_action e a s) as [[r|x] st2]
       end;
       intros H; inversion H; eauto
     | intros H; inversion H; auto ]).
Qed.

(** Every step that is a dict leaves exactly one record of its own, followed
    by at most one record of a corrective action. *)
Lemma execute_step_records_once (env : Env) (max_retries idx : nat) (d : dict)
      (results l : list pyval) (st st' : State) :
  execute_step env max_retries idx (PDict d) results st = (Ok l, st') ->
  exists final,
    l = results ++ [step_record idx (PDict d) final]
    \/ exists a r,
         l = results ++ [step_record idx (PDict d) final;
                         PDict [("repl_step", a); ("repl_result", r)]].
Proof.
  intros Hrun.
  destruct (execute_step_spec env max_retries idx d results st)
    as (final & st1 & delta & _ & _ & _ & Hstep).
  rewrite Hrun in Hstep. exists final.
  destruct (needs_recovery final).
  - symmetry in Hstep.
    apply recover_appends_at_most_one in Hstep as [->|(a & r & ->)]; [now left|].
    right. exists a, r. now rewrite <- app_assoc.
  - inversion Hstep. now left.
Qed.

Lemma py_or_truthy (a b : pyval) : truthy a = true -> py_or a b = a.
Proof. intros H. unfold py_or. now rewrite H. Qed.

(** A click whose selector matches nothing: the [no_element] status ends the
    loop at the first pass, no recovery is asked for, one record is kept. *)
Lemma no_element_skips_recovery (env : Env) (sel : pyval) (st : State) :
  truthy sel = true ->
  ext_raises env (S (List.length (trace st))) = None ->
  drv_found env (S (List.length (trace st))) = false ->
  let step := PDict [("action", PStr "click"); ("selector", sel)] in
  let out := execute_ui_plan env (PList [step]) 2 st in
  fst out
  = Ok (PList [step_record 0 step
                 (PDict [("status", PStr "no_element"); ("selector", sel)])])
  /\ existsb is_planner_event (events_since st (snd out)) = false.
Proof.
  intros Hsel Hok Hmiss step out. subst out step.
  unfold execute_ui_plan, run_steps, execute_step.
  change (get [("action", PStr "click"); ("selector", sel)] "action") with (PStr "click").
  change (get [("action", PStr "click"); ("selector", sel)] "selector") with sel.
  rewrite (py_or_truthy (PStr "click")) by reflexivity.
  rewrite (py_or_truthy sel) by assumption.
  rewrite (py_or_truthy sel) by assumption.
  cbn [retry_loop seq Nat.add]. unfold attempt_once, attempt_try.
  change (str_in (PStr "click") ["fill"; "type"; "set_value"]) with false.
  change (str_eq (PStr "click") "click") with true.
  cbv iota beta zeta. rewrite Hsel.
  change (truthy (PDict [("type", PStr "click"); ("selector", sel)])) with true.
  cbv iota.
  unfold execute_action, execute_action_body.
  change (truthy (PDict [("type", PStr "click"); ("selector", sel)])) with true.
  change (get [("type", PStr "click"); ("selector", sel)] "type") with (PStr "click").
  change (get [("type", PStr "click"); ("selector", sel)] "selector") with sel.
  change (get [("type", PStr "click"); ("selector", sel)] "text") with PNone.
  change (dict_get [("type", PStr "click"); ("selector", sel)] "by_text" (PBool false))
    with (PBool false).
  rewrite (py_or_truthy (PStr "click")) by reflexivity.
  change (str_in (PStr "click") ["fill"; "type"; "set_value"]) with false.
  change (str_eq (PStr "click") "click") with true.
  cbv iota beta zeta. cbn [truthy andb negb]. rewrite Hsel.
  unfold query_selector, external, bind, try_catch, emit, write, read, elapse, ret.
  cbn [trace set_trace set_clock clock].
  rewrite length_app. cbn [List.length]. rewrite Nat.add_1_r.
  rewrite Hok. unfold write. cbv beta iota. rewrite Hmiss. cbv beta iota.
  change (attempt_succeeded (PDict [("status", PStr "no_element"); ("selector", sel)]))
    with true.
  change (needs_recovery (PDict [("status", PStr "no_element"); ("selector", sel)]))
    with false.
  cbv beta iota. cbn [fst snd trace set_trace set_clock app].
  split; [reflexivity|].
  erewrite events_since_app; [|rewrite <- !app_assoc; reflexivity].
  reflexivity.
Qed.

(** A corrective action that is itself a dict is handed to the executor
    once, outside any retry loop, and leaves one record. *)
Lemma recover_with_dict_action (env : Env) (step result : pyval)
      (results : list pyval) (st : State) (reply a : dict) :
  a <> [] ->
  (forall k, planner env k = PDict reply) ->
  get reply "action" = PDict a ->
  exists r st',
    recover env step result results st
    = (Ok (results ++ [PDict [("repl_step", PDict a); ("repl_result", PDict r)]]), st')
    /\ List.length (filter is_execute_action (events_since st st')) = 1
    /\ (forall idx, pacing idx (events_since st st') = []).
Proof.
  intros Ha Hplanner Haction.
  destruct (run_outcome recovery_event _ st (emits_recover env step result results))
    as (delta & Ht & Hq & _).
  unfold recover in *. unfold bind at 1 in Ht. unfold bind at 1.
  assert (Hdom : exists dom st1 d1,
             try_catch (page_content env) (fun _ => ret EmptyString) st = (Ok dom, st1)
             /\ trace st1 = trace st ++ d1
             /\ filter is_execute_action d1 = []).
  { unfold try_catch, page_content, external, bind, read, emit, write, elapse, ret, raise.
    destruct (ext_raises env _); eexists _, _, [_];
      (split; [reflexivity|]); cbn; auto. }
  destruct Hdom as (dom & st1 & d1 & Hdom & Ht1 & Hf1).
  rewrite Hdom in *.
  unfold bind at 1 in Ht. unfold bind at 1.
  unfold plan_action, bind, read, emit, elapse, write, ret in *.
  cbv beta iota zeta in *.
  rewrite Hplanner in *. cbn [item] in *. rewrite Haction in *.
  destruct a as [|kv a]; [congruence|]. cbn [truthy] in *.
  match goal with
  | |- context [execute_action env (PDict ?d) ?s] =>
      destruct (execute_action_trace env d s) as (r & st3 & d3 & Hrun & Ht3 & Hq3)
  end.
  rewrite Hrun in *. cbn [snd] in Ht.
  exists r, st3. split; [reflexivity|].
  cbn [trace set_trace set_clock] in Ht3. rewrite Ht1, <- !app_assoc in Ht3.
  rewrite (events_since_app st st3 _ Ht3).
  split.
  - rewrite !filter_app, Hf1. cbn.
    assert (Hnone : filter is_execute_action d3 = []).
    { clear - Hq3. induction d3 as [|e d3 IH]; [reflexivity|].
      cbn in Hq3. apply andb_prop in Hq3 as [He Hd]. cbn.
      destruct e; try discriminate He; cbn; auto. }
    now rewrite Hnone.
  - intros idx. rewrite Ht3 in Ht. apply app_inv_head in Ht. subst delta.
    eapply pacing_quiet; [apply recovery_event_no_mark | exact Hq].
Qed.

(** * Further properties of the code *)

(** ** Navigation *)

Lemma bind_ok_inv {A B} (m : M A) (f : A -> M B) (st st' : State) (b : B) :
  bind m f st = (Ok b, st') ->
  exists a st1, m st = (Ok a, st1) /\ f a st1 = (Ok b, st').
Proof.
  unfold bind. destruct (m st) as [[a|e] st1]; [eauto | discriminate].
Qed.

(** X1: [goto] never raises.  It leaves the page alone when the address,
    stripped of whitespace and quotes, does not begin with [http]; otherwise
    it navigates once, and a second time, waiting for [load] only, exactly
    when the first navigation raised. *)
Theorem X1_goto_navigates_at_most_twice (env : Env) (url : option string) (st : State) :
  let out := goto env url st in
  let target := match url with
                | Some given => strip_chars quote_chars (strip given)
                | None => EmptyString
                end in
  fst out = Ok tt
  /\ events_since st (snd out)
     = if startswith "http" target
       then match ext_raises env (List.length (trace st)) with
            | None => [EvDriver "page.goto" [PStr target; PStr "networkidle"]]
            | Some _ => [EvDriver "page.goto" [PStr target; PStr "networkidle"];
                         EvDriver "page.goto" [PStr target; PStr "load"]]
            end
       else [].
Proof.
  cbv zeta. unfold goto.
  assert (Hnil : events_since st st = []).
  { apply events_since_app. now rewrite app_nil_r. }
  destruct url as [given|]; [|now split].
  destruct (given =? EmptyString) eqn:Hempty.
  - apply String.eqb_eq in Hempty. subst given. now split.
  - destruct (startswith "http" (strip_chars quote_chars (strip given))) eqn:Hhttp;
      cbn [negb]; [|now split].
    unfold driver_call, external, try_catch, bind, read, emit, elapse, write, ret, raise.
    cbn [trace set_trace set_clock clock].
    destruct (ext_raises env (List.length (trace st))) as [e|] eqn:Hfirst.
    + cbn [trace set_trace set_clock clock]. rewrite length_app. cbn [List.length].
      destruct (ext_raises env (List.length (trace st) + 1)); cbn [fst snd];
        (split; [reflexivity|]);
        apply events_since_app; cbn [trace set_trace set_clock];
        now rewrite <- app_assoc.
    + cbn [fst snd]. split; [reflexivity|].
      now apply events_since_app.
Qed.

(** ** Captures *)

(** X2: the first capture of a label never raises: a DOM that cannot be read
    is replaced by the placeholder text, a screenshot that cannot be taken by
    [None], each independently of the other. *)
Theorem X2_capture_is_best_effort (env : Env) (label : string) (st : State) :
  set_mem string_dec label (captured_names st) = false ->
  let k := List.length (trace st) in
  fst (capture env label st)
  = Ok (match ext_raises env k with
        | None => drv_text env k
        | Some _ => "<no DOM captured>"
        end,
        match ext_raises env (S k) with
        | None => Some (path_join (outdir env) (label ++ ".png"))
        | Some _ => None
        end).
Proof.
  intros Hfresh k. subst k. munfold. rewrite Hfresh.
  cbn [trace set_trace set_clock set_captured_names clock captured_names].
  destruct (ext_raises env (List.length (trace st)));
    cbn [trace set_trace set_clock set_captured_names clock captured_names];
    rewrite length_app; cbn [List.length]; rewrite Nat.add_1_r;
    destruct (ext_raises env (S (List.length (trace st)))); reflexivity.
Qed.

Lemma X2_witness :
  let env := scripted_env (fun k => (k =? 0)%nat) "<html></html>" PNone in
  fst (capture env "home" (initial_state false))
  = Ok ("<no DOM captured>", Some "out/home.png").
Proof.
  exact (X2_capture_is_best_effort
           (scripted_env (fun k => (k =? 0)%nat) "<html></html>" PNone)
           "home" (initial_state false) eq_refl).
Defined.

(** X3: when the page still shows the DOM of the last snapshot,
    [_capture_unique_state] reads the page and nothing more: it returns that
    DOM without a screenshot, and the label is not used up. *)
Theorem X3_unchanged_dom_is_not_captured (env : Env) (label : string) (st : State) :
  let k := List.length (trace st) in
  ext_raises env k = None ->
  last_dom_snapshot st = Some (drv_text env k) ->
  let out := _capture_unique_state env label st in
  fst out = Ok (drv_text env k, None)
  /\ events_since st (snd out) = [EvDriver "page.content" []]
  /\ captured_names (snd out) = captured_names st
  /\ last_dom_snapshot (snd out) = last_dom_snapshot st.
Proof.
  intros k Hok Hlast out. subst out k.
  unfold _capture_unique_state, page_content, external, try_catch, bind, read, emit,
    elapse, write, ret, raise.
  cbn [trace set_trace set_clock clock last_dom_snapshot].
  rewrite Hok. cbv beta iota. cbn [last_dom_snapshot set_clock set_trace].
  rewrite Hlast, String.eqb_refl. cbn [fst snd].
  split; [reflexivity|]. split; [now apply events_since_app|].
  now split.
Qed.

Lemma X3_witness :
  let env := scripted_env (fun _ => false) "<html></html>" PNone in
  let st := set_last_dom_snapshot (Some "<html></html>") (initial_state false) in
  let out := _capture_unique_state env "task_page_loaded" st in
  fst out = Ok ("<html></html>", None)
  /\ events_since st (snd out) = [EvDriver "page.content" []]
  /\ captured_names (snd out) = captured_names st
  /\ last_dom_snapshot (snd out) = last_dom_snapshot st.
Proof.
  exact (X3_unchanged_dom_is_not_captured
           (scripted_env (fun _ => false) "<html></html>" PNone) "task_page_loaded"
           (set_last_dom_snapshot (Some "<html></html>") (initial_state false))
           eq_refl eq_refl).
Defined.

(** X4: when the page cannot be read, [_capture_unique_state] returns the
    empty DOM and no screenshot, and remembers nothing: neither the snapshot
    nor the set of used labels changes. *)
Theorem X4_unreadable_page_leaves_no_snapshot (env : Env) (label : string) (st : State)
        (e : exn) :
  ext_raises env (List.length (trace st)) = Some e ->
  let out := _capture_unique_state env label st in
  fst out = Ok (EmptyString, None)
  /\ events_since st (snd out) = [EvDriver "page.content" []]
  /\ captured_names (snd out) = captured_names st
  /\ last_dom_snapshot (snd out) = last_dom_snapshot st.
Proof.
  intros Hraise out. subst out.
  unfold _capture_unique_state, page_content, external, try_catch, bind, read, emit,
    elapse, write, ret, raise.
  cbn [trace set_trace set_clock clock last_dom_snapshot].
  rewrite Hraise. cbn [fst snd].
  split; [reflexivity|]. split; [now apply events_since_app|].
  now split.
Qed.

Lemma X4_witness :
  let env := scripted_env (fun _ => true) "<html></html>" PNone in
  let st := initial_state false in
  let out := _capture_unique_state env "task_page_loaded" st in
  fst out = Ok (EmptyString, None)
  /\ events_since st (snd out) = [EvDriver "page.content" []]
  /\ captured_names (snd out) = captured_names st
  /\ last_dom_snapshot (snd out) = last_dom_snapshot st.
Proof.
  exact (X4_unreadable_page_leaves_no_snapshot
           (scripted_env (fun _ => true) "<html></html>" PNone) "task_page_loaded"
           (initial_state false) (Exn "Error" "boom") eq_refl).
Defined.

(** ** The login probe *)

(** X5: the verdict of [is_logged_in] is the disjunction of two tests, each
    counting as failed when its call raises: some cookie name contains one of
    the five markers, or the page text contains none of the four login
    phrases.  The page is read only when the cookies did not decide. *)
Theorem X5_is_logged_in_verdict (env : Env) (st : State) :
  let k := List.length (trace st) in
  let by_cookie := match ext_raises env k with
                   | None => existsb cookie_hit (drv_cookies env k)
                   | Some _ => false
                   end in
  let by_dom := match ext_raises env (S k) with
                | None => dom_looks_logged_in (drv_text env (S k))
                | Some _ => false
                end in
  let out := is_logged_in env st in
  fst out = Ok (by_cookie || by_dom)
  /\ events_since st (snd out)
     = if by_cookie then [EvDriver "context.cookies" []; EvProbe true]
       else [EvDriver "context.cookies" []; EvDriver "page.content" []; EvProbe by_dom].
Proof.
  cbv zeta.
  unfold is_logged_in, context_cookies, page_content, external, try_catch, bind, read,
    emit, elapse, write, ret, raise.
  cbn [trace set_trace set_clock clock].
  fold cookie_hit.
  destruct (ext_raises env (List.length (trace st))) as [e|].
  - cbn [trace set_trace set_clock clock]. rewrite length_app. cbn [List.length].
    rewrite Nat.add_1_r.
    destruct (ext_raises env (S (List.length (trace st)))) as [e'|].
    + cbn [fst snd orb]. split; [reflexivity|].
      apply events_since_app. cbn [trace set_trace set_clock].
      now rewrite <- !app_assoc.
    + unfold dom_looks_logged_in.
      destruct (negb (existsb _ login_phrases)); cbn [fst snd orb];
        (split; [reflexivity|]);
        apply events_since_app; cbn [trace set_trace set_clock];
        now rewrite <- !app_assoc.
  - destruct (existsb cookie_hit (drv_cookies env (List.length (trace st)))).
    + cbn [fst snd orb]. split; [reflexivity|].
      apply events_since_app. cbn [trace set_trace set_clock].
      now rewrite <- !app_assoc.
    + cbn [trace set_trace set_clock clock]. rewrite length_app. cbn [List.length].
      rewrite Nat.add_1_r.
      destruct (ext_raises env (S (List.length (trace st)))) as [e'|].
      * cbn [fst snd orb]. split; [reflexivity|].
        apply events_since_app. cbn [trace set_trace set_clock].
        now rewrite <- !app_assoc.
      * unfold dom_looks_logged_in.
        destruct (negb (existsb _ login_phrases)); cbn [fst snd orb];
          (split; [reflexivity|]);
          apply events_since_app; cbn [trace set_trace set_clock];
          now rewrite <- !app_assoc.
Qed.

(** ** The executor of actions on unusual input *)

(** X6: handed anything but a non-empty dict, [execute_action] touches
    neither page nor clock: a falsy value ([None], an empty dict, an empty
    string, zero) is answered with the [no_action_provided] error, and a
    truthy value that is no dict makes it raise, since [action.get] is read
    before the [try] block. *)
Theorem X6_execute_action_without_action_dict (env : Env) (action : pyval) (st : State) :
  truthy action = false \/ is_dict action = false ->
  let out := execute_action env action st in
  fst out = (if truthy action then Raise (AttributeError_get (type_name action))
             else Ok (PDict [("error", PStr "no_action_provided")]))
  /\ events_since st (snd out) = [EvExecuteAction action]
  /\ clock (snd out) = clock st.
Proof.
  intros Hshape out. subst out.
  unfold execute_action, bind, emit, write, ret, raise.
  destruct (truthy action) eqn:Ht; cbn [negb].
  - destruct Hshape as [Hf|Hd]; [discriminate|].
    destruct action; try discriminate Hd; cbn [fst snd];
      (split; [reflexivity|]); (split; [now apply events_since_app | reflexivity]).
  - cbn [fst snd]. split; [reflexivity|].
    split; [now apply events_since_app | reflexivity].
Qed.

Lemma X6_witness :
  let out := execute_action (scripted_env (fun _ => false) EmptyString PNone)
                            (PStr "click") (initial_state false) in
  fst out = Raise (AttributeError_get "str")
  /\ events_since (initial_state false) (snd out) = [EvExecuteAction (PStr "click")]
  /\ clock (snd out) = 0%Z.
Proof.
  exact (X6_execute_action_without_action_dict
           (scripted_env (fun _ => false) EmptyString PNone) (PStr "click")
           (initial_state false) (or_intror eq_refl)).
Defined.



Lemma dict_lookup_set_other (k k' : string) (v : pyval) (d : dict) :
  k <> k' -> dict_lookup k (dict_set k' v d) = dict_lookup k d.
Proof.
  intros Hne. induction d as [|[k0 v0] d IH]; cbn [dict_set dict_lookup].
  - destruct (k' =? k) eqn:E; [|reflexivity].
    apply String.eqb_eq in E. congruence.
  - destruct (k0 =? k') eqn:E0; cbn [dict_lookup].
    + apply String.eqb_eq in E0. subst k0.
      destruct (k' =? k) eqn:E; [|reflexivity].
      apply String.eqb_eq in E. congruence.
    + destruct (k0 =? k); [reflexivity | exact IH].
Qed.

Lemma dict_lookup_set_same (k : string) (v : pyval) (d : dict) :
  dict_lookup k (dict_set k v d) = Some v.
Proof.
  induction d as [|[k0 v0] d IH]; cbn [dict_set dict_lookup].
  - now rewrite String.eqb_refl.
  - destruct (k0 =? k) eqn:E0; cbn [dict_lookup]; rewrite E0; [reflexivity | exact IH].
Qed.

Lemma dict_get_set_other (k k' : string) (v dflt : pyval) (d : dict) :
  k <> k' -> dict_get (dict_set k' v d) k dflt = dict_get d k dflt.
Proof. intros Hne. unfold dict_get. now rewrite dict_lookup_set_other. Qed.

Lemma dict_get_set_same (k : string) (v dflt : pyval) (d : dict) :
  dict_get (dict_set k v d) k dflt = v.
Proof. unfold dict_get. now rewrite dict_lookup_set_same. Qed.

(** X8: the [direction] of a [scroll] action is never read: whatever is
    stored under that key, the page is scrolled down by [distance]. *)
Theorem X8_scroll_ignores_direction (env : Env) (d : dict) (v : pyval) (st : State) :
  str_eq (py_or (get d "type") (get d "action")) "scroll" = true ->
  execute_action_body env (dict_set "direction" v d) st
  = execute_action_body env d st
  /\ events_since st (snd (execute_action_body env d st))
     = [EvDriver "page.evaluate"
                 [PStr ("window.scrollBy(0, "
                        ++ py_str env (dict_get d "distance" (PInt 500)) ++ ");")]].
Proof.
  intros Htyp.
  assert (Hscroll : py_or (get d "type") (get d "action") = PStr "scroll").
  { destruct (py_or (get d "type") (get d "action")) as [| | | |typ| |];
      try discriminate Htyp.
    cbn [str_eq] in Htyp. apply String.eqb_eq in Htyp. now subst typ. }
  unfold execute_action_body, get in *.
  rewrite !dict_get_set_other by discriminate.
  rewrite Hscroll.
  change (str_in (PStr "scroll") ["fill"; "type"; "set_value"]) with false.
  change (str_eq (PStr "scroll") "click") with false.
  change (str_eq (PStr "scroll") "press") with false.
  change (str_eq (PStr "scroll") "scroll") with true.
  cbv iota beta zeta.
  split; [reflexivity|].
  unfold driver_call, external, bind, read, emit, elapse, write, ret, raise.
  cbn [trace set_trace set_clock clock].
  destruct (ext_raises env (List.length (trace st))); cbn [snd];
    now apply events_since_app.
Qed.

Lemma X8_witness :
  let env := scripted_env (fun _ => false) EmptyString PNone in
  let d := [("type", PStr "scroll"); ("direction", PStr "down")] in
  execute_action_body env (dict_set "direction" (PStr "up") d) (initial_state false)
  = execute_action_body env d (initial_state false)
  /\ events_since (initial_state false)
                  (snd (execute_action_body env d (initial_state false)))
     = [EvDriver "page.evaluate"
                 [PStr ("window.scrollBy(0, "
                        ++ py_str env (dict_get d "distance" (PInt 500)) ++ ");")]].
Proof.
  exact (X8_scroll_ignores_direction
           (scripted_env (fun _ => false) EmptyString PNone)
           [("type", PStr "scroll"); ("direction", PStr "down")] (PStr "up")
           (initial_state false) eq_refl).
Defined.

(** ** The plan as a whole *)

Lemma execute_step_non_dict (env : Env) (n idx : nat) (s : pyval)
      (results : list pyval) (st : State) :
  is_dict s = false ->
  execute_step env n idx s results st = (Raise (AttributeError_get (type_name s)), st).
Proof. destruct s; try discriminate; reflexivity. Qed.

(** X9: a plan with a step that is no dict never yields a record list:
    [step.get] fails outside any [try], so [execute_ui_plan] raises, and the
    records of the steps before it are lost with it. *)
Theorem X9_non_dict_step_aborts_plan (env : Env) (steps : list pyval) (n : nat)
        (st : State) (s : pyval) :
  In s steps -> is_dict s = false ->
  exists e, fst (execute_ui_plan env (PList steps) n st) = Raise e.
Proof.
  intros Hin Hs.
  assert (Hrun : forall idx results st0,
             exists e, fst (run_steps env n idx steps results st0) = Raise e).
  { induction steps as [|a rest IH]; intros idx results st0; [contradiction|].
    cbn [run_steps]. unfold bind.
    destruct (execute_step env n idx a results st0) as [[r|e] st1] eqn:Hstep;
      [|now exists e].
    destruct Hin as [->|Hin]; [|now apply IH].
    rewrite execute_step_non_dict in Hstep by assumption. discriminate. }
  unfold execute_ui_plan, bind.
  destruct (Hrun 0 [] st) as [e He].
  destruct (run_steps env n 0 steps [] st) as [[r|e'] st1]; cbn [fst] in *;
    [discriminate | now exists e'].
Qed.

Lemma X9_witness :
  exists e,
    fst (execute_ui_plan (scripted_env (fun _ => false) EmptyString PNone)
                         (PList [PDict [("action", PStr "wait")]; PStr "click #ok"])
                         2 (initial_state false))
    = Raise e.
Proof.
  exact (X9_non_dict_step_aborts_plan
           (scripted_env (fun _ => false) EmptyString PNone)
           [PDict [("action", PStr "wait")]; PStr "click #ok"] 2 (initial_state false)
           (PStr "click #ok") (or_intror (or_introl eq_refl)) eq_refl).
Defined.

Lemma run_steps_records (env : Env) (n : nat) (steps : list pyval) :
  forall (idx : nat) (results0 results : list pyval) (st st' : State),
    run_steps env n idx steps results0 st = (Ok results, st') ->
    exists added,
      results = results0 ++ added
      /\ map (fun r => (item r "step_index", item r "step"))
             (filter is_step_record added)
         = combine (map (fun i => PInt (Z.of_nat i)) (seq idx (List.length steps))) steps
      /\ List.length steps <= List.length added <= 2 * List.length steps.
Proof.
  induction steps as [|a rest IH]; intros idx results0 results st st' Hrun.
  - cbn [run_steps] in Hrun. unfold ret in Hrun. inversion Hrun.
    exists []. rewrite app_nil_r. cbn. repeat split; lia.
  - cbn [run_steps] in Hrun.
    apply bind_ok_inv in Hrun as (r1 & st1 & Hstep & Hrest).
    destruct (is_dict a) eqn:Hdict;
      [|rewrite execute_step_non_dict in Hstep by assumption; discriminate].
    destruct a as [| | | | | |d]; try discriminate Hdict.
    apply execute_step_records_once in Hstep as [final Hr1].
    apply IH in Hrest as (added & -> & Hkeys & Hlen).
    destruct Hr1 as [->|(x & r & ->)].
    + exists (step_record idx (PDict d) final :: added).
      rewrite <- app_assoc. split; [reflexivity|].
      cbn [List.length seq map combine].
      cbn [filter].
      change (is_step_record (step_record idx (PDict d) final)) with true.
      cbv iota. cbn [map].
      change (item (step_record idx (PDict d) final) "step_index")
        with (PInt (Z.of_nat idx)).
      change (item (step_record idx (PDict d) final) "step") with (PDict d).
      rewrite Hkeys. split; [reflexivity | lia].
    + exists (step_record idx (PDict d) final
              :: PDict [("repl_step", x); ("repl_result", r)] :: added).
      rewrite <- app_assoc. split; [reflexivity|].
      cbn [List.length seq map combine].
      cbn [filter].
      change (is_step_record (step_record idx (PDict d) final)) with true.
      change (is_step_record (PDict [("repl_step", x); ("repl_result", r)])) with false.
      cbv iota. cbn [map].
      change (item (step_record idx (PDict d) final) "step_index")
        with (PInt (Z.of_nat idx)).
      change (item (step_record idx (PDict d) final) "step") with (PDict d).
      rewrite Hkeys. split; [reflexivity | lia].
Qed.

(** X10: when [execute_ui_plan] returns its list, the records of the steps
    appear in it in the order of the plan, one for each step, numbered from
    zero and holding the step itself; the only other entries are records of
    corrective actions, at most one for each step, so the list is never
    longer than twice the plan. *)
Theorem X10_step_records_follow_the_plan (env : Env) (steps results : list pyval)
        (n : nat) (st st' : State) :
  execute_ui_plan env (PList steps) n st = (Ok (PList results), st') ->
  map (fun r => (item r "step_index", item r "step")) (filter is_step_record results)
  = combine (map (fun i => PInt (Z.of_nat i)) (seq 0 (List.length steps))) steps
  /\ List.length steps <= List.length results <= 2 * List.length steps.
Proof.
  unfold execute_ui_plan. intros Hrun.
  apply bind_ok_inv in Hrun as (r & st1 & Hsteps & Hret).
  unfold ret in Hret. inversion Hret. subst r st1.
  apply run_steps_records in Hsteps as (added & Hres & Hkeys & Hlen).
  cbn [app] in Hres. subst added. now split.
Qed.

Lemma X10_witness :
  let env := scripted_env (fun _ => false) EmptyString PNone in
  let steps := [PDict [("action", PStr "press")]; PDict [("action", PStr "hover")]] in
  let results :=
    [step_record 0 (PDict [("action", PStr "press")])
                 (PDict [("status", PStr "pressed"); ("key", PStr "Enter")]);
     step_record 1 (PDict [("action", PStr "hover")])
                 (PDict [("error", PStr "hover_no_selector")])] in
  map (fun r => (item r "step_index", item r "step")) (filter is_step_record results)
  = combine (map (fun i => PInt (Z.of_nat i)) (seq 0 (List.length steps))) steps
  /\ List.length steps <= List.length results <= 2 * List.length steps.
Proof.
  exact (X10_step_records_follow_the_plan
           (scripted_env (fun _ => false) EmptyString PNone)
           [PDict [("action", PStr "press")]; PDict [("action", PStr "hover")]]
           _ 2 (initial_state false) _ eq_refl).
Defined.

Lemma quiet_holds_no_planner (p : event -> bool) (delta : list event) :
  (forall e, p e = true -> is_planner_event e = false) ->
  forallb p delta = true -> filter is_planner_event delta = [].
Proof.
  intros Hp. induction delta as [|e delta IH]; [reflexivity|].
  cbn [forallb filter]. intros H. apply andb_prop in H as [He Hd].
  now rewrite (Hp e He), IH.
Qed.

Lemma loop_event_no_planner (e : event) :
  loop_event e = true -> is_planner_event e = false.
Proof. destruct e; try reflexivity; discriminate. Qed.

Lemma controller_event_no_planner (e : event) :
  controller_event e = true -> is_planner_event e = false.
Proof. destruct e; try reflexivity; discriminate. Qed.

(** A recovery asks the planner exactly once. *)
Lemma recover_asks_once (env : Env) (step result : pyval) (results : list pyval)
      (st : State) :
  exists delta,
    trace (snd (recover env step result results st)) = trace st ++ delta
    /\ List.length (filter is_planner_event delta) = 1.
Proof.
  unfold recover. unfold bind at 1.
  assert (Hdom : exists dom st1,
             try_catch (page_content env) (fun _ => ret EmptyString) st = (Ok dom, st1)
             /\ trace st1 = trace st ++ [EvDriver "page.content" []]).
  { unfold try_catch, page_content, external, bind, read, emit, write, elapse, ret, raise.
    destruct (ext_raises env _); eexists _, _; split; reflexivity. }
  destruct Hdom as (dom & st1 & -> & Ht1).
  unfold bind at 1. unfold plan_action at 1.
  unfold bind, read, emit, elapse, write, ret. cbv beta iota zeta.
  match goal with
  | |- context [if truthy ?x then _ else _] => destruct (truthy x)
  end.
  - match goal with
    | |- context [execute_action env ?a ?s] =>
        destruct (run_outcome controller_event _ s (emits_execute_action env a))
          as (d3 & Ht3 & Hq3 & _);
        destruct (execute_action env a s) as [[r|x] st3]
    end;
      cbn [snd] in *; cbn [trace set_trace set_clock] in Ht3;
      exists ([EvDriver "page.content" []]
              ++ [EvPlanner (FeedbackPrompt step result dom)] ++ d3);
      (split; [rewrite Ht3, Ht1, <- !app_assoc; reflexivity|]);
      rewrite !filter_app,
        (quiet_holds_no_planner controller_event d3 controller_event_no_planner Hq3);
      reflexivity.
  - cbn [snd trace set_trace set_clock].
    exists ([EvDriver "page.content" []] ++ [EvPlanner (FeedbackPrompt step result dom)]).
    split; [rewrite Ht1, <- !app_assoc; reflexivity | reflexivity].
Qed.

Lemma execute_step_asks_at_most_once (env : Env) (n idx : nat) (step : pyval)
      (results : list pyval) (st : State) :
  exists delta,
    trace (snd (execute_step env n idx step results st)) = trace st ++ delta
    /\ List.length (filter is_planner_event delta) <= 1.
Proof.
  destruct (is_dict step) eqn:Hdict.
  - destruct step as [| | | | | |d]; try discriminate Hdict.
    destruct (execute_step_spec env n idx d results st)
      as (final & st1 & delta & Ht & Hq & _ & Hrun).
    rewrite Hrun.
    pose proof (quiet_holds_no_planner loop_event delta loop_event_no_planner Hq) as Hnone.
    destruct (needs_recovery final).
    + destruct (recover_asks_once env (PDict d) final
                  (results ++ [step_record idx (PDict d) final]) st1)
        as (d2 & Ht2 & Hone).
      exists (delta ++ d2). split; [now rewrite Ht2, Ht, app_assoc|].
      rewrite filter_app, Hnone. cbn [app]. lia.
    + exists delta. cbn [snd]. split; [exact Ht|]. rewrite Hnone. cbn. lia.
  - rewrite execute_step_non_dict by assumption. exists []. cbn [snd].
    split; [now rewrite app_nil_r | cbn; lia].
Qed.

(** X11: while a plan is carried out the planner is asked at most once for
    each step: the retry loop never asks it, and the one recovery prompt of a
    step is not repeated, whatever the corrective action did. *)
Theorem X11_at_most_one_recovery_prompt_per_step (env : Env) (steps : list pyval)
        (n : nat) (st : State) :
  List.length (filter is_planner_event
                      (events_since st (snd (execute_ui_plan env (PList steps) n st))))
  <= List.length steps.
Proof.
  assert (Hrun : forall idx results st0,
             exists delta,
               trace (snd (run_steps env n idx steps results st0)) = trace st0 ++ delta
               /\ List.length (filter is_planner_event delta) <= List.length steps).
  { induction steps as [|a rest IH]; intros idx results st0.
    - exists []. cbn. split; [now rewrite app_nil_r | lia].
    - cbn [run_steps]. unfold bind.
      destruct (execute_step_asks_at_most_once env n idx a results st0)
        as (d1 & Ht1 & Hone).
      destruct (execute_step env n idx a results st0) as [[r|e] st1]; cbn [snd] in *.
      + destruct (IH (S idx) r st1) as (d2 & Ht2 & Hrest).
        exists (d1 ++ d2). split; [now rewrite Ht2, Ht1, app_assoc|].
        rewrite filter_app, length_app. cbn [List.length]. lia.
      + exists d1. split; [exact Ht1|]. cbn [List.length]. lia. }
  destruct (Hrun 0 [] st) as (delta & Ht & Hlen).
  unfold execute_ui_plan, bind, ret.
  destruct (run_steps env n 0 steps [] st) as [[r|e] st1]; cbn [snd] in *;
    now rewrite (events_since_app st st1 delta Ht).
Qed.

(** ** The span the extraction parses *)

Lemma through_last_sound (c : ascii) (s p : string) :
  through_last c s = Some p ->
  exists body post,
    s = (p ++ post)%string
    /\ p = (body ++ String c EmptyString)%string
    /\ char_in c post = false.
Proof.
  revert p. induction s as [|a r IH]; intros p; cbn [through_last]; [discriminate|].
  destruct (through_last c r) as [q|] eqn:Hr.
  - intros H. inversion H. subst p.
    destruct (IH q eq_refl) as (body & post & -> & -> & Hpost).
    exists (String a body), post. now split.
  - destruct (a =? c)%char eqn:Hac; [|discriminate].
    intros H. inversion H. subst p. apply Ascii.eqb_eq in Hac. subst a.
    exists EmptyString, r. split; [reflexivity|]. split; [reflexivity|].
    clear IH H. induction r as [|b r IHr]; [reflexivity|].
    cbn [through_last] in Hr. cbn [char_in].
    destruct (through_last c r); [discriminate|].
    destruct (b =? c)%char eqn:Hbc; [discriminate|].
    cbn [orb]. now apply IHr.
Qed.

(** X12: whatever span the search hands to the parser is a piece of the
    text that opens with a brace or a bracket and ends with the closing
    character of the same kind, and it is greedy: no closing character of
    that kind occurs in the text after it. *)
Theorem X12_search_json_span_is_greedy (text span : string) :
  search_json_span text = Some span ->
  exists pre body post o c,
    text = (pre ++ span ++ post)%string
    /\ span = String o (body ++ String c EmptyString)
    /\ ((o = "{"%char /\ c = "}"%char) \/ (o = "["%char /\ c = "]"%char))
    /\ char_in c post = false.
Proof.
  induction text as [|a r IH]; cbn [search_json_span]; [discriminate|].
  assert (Hskip : search_json_span r = Some span ->
                  exists pre body post o c,
                    String a r = (pre ++ span ++ post)%string
                    /\ span = String o (body ++ String c EmptyString)
                    /\ ((o = "{"%char /\ c = "}"%char) \/ (o = "["%char /\ c = "]"%char))
                    /\ char_in c post = false).
  { intros H. destruct (IH H) as (pre & body & post & o & c & -> & Hs & Hoc & Hp).
    exists (String a pre), body, post, o, c. now repeat split. }
  destruct (a =? "{")%char eqn:Hbrace.
  - apply Ascii.eqb_eq in Hbrace. subst a.
    destruct (through_last "}" r) as [p|] eqn:Hp; [|exact Hskip].
    intros H. inversion H. subst span.
    destruct (through_last_sound _ _ _ Hp) as (body & post & -> & -> & Hpost).
    exists EmptyString, body, post, "{"%char, "}"%char. repeat split; auto.
  - destruct (a =? "[")%char eqn:Hbracket; [|exact Hskip].
    apply Ascii.eqb_eq in Hbracket. subst a.
    destruct (through_last "]" r) as [p|] eqn:Hp; [|exact Hskip].
    intros H. inversion H. subst span.
    destruct (through_last_sound _ _ _ Hp) as (body & post & -> & -> & Hpost).
    exists EmptyString, body, post, "["%char, "]"%char. repeat split; auto.
Qed.

Lemma X12_witness :
  exists pre body post o c,
    "Plan: [1, 2] is the plan [draft]"%string = (pre ++ "[1, 2] is the plan [draft]" ++ post)%string
    /\ "[1, 2] is the plan [draft]"%string = String o (body ++ String c EmptyString)
    /\ ((o = "{"%char /\ c = "}"%char) \/ (o = "["%char /\ c = "]"%char))
    /\ char_in c post = false.
Proof.
  exact (X12_search_json_span_is_greedy "Plan: [1, 2] is the plan [draft]"
           "[1, 2] is the plan [draft]" eq_refl).
Defined.

(** ** What a run returns *)

Lemma execute_ui_plan_value (env : Env) (plan r : pyval) (n : nat) (st st' : State) :
  execute_ui_plan env plan n st = (Ok r, st') ->
  (exists records, r = PList records)
  \/ (is_list plan = false
      /\ r = PDict [("error", PStr "ui_plan_not_list"); ("raw", plan)]).
Proof.
  unfold execute_ui_plan.
  destruct plan as [| | | | |steps|];
    try (unfold ret; intros H; inversion H; right; now split).
  intros H. apply bind_ok_inv in H as (records & st1 & _ & H).
  unfold ret in H. inversion H. left. now exists records.
Qed.

Lemma perform_task_value (env : Env) (start_url : option string) (task v : pyval)
      (st st' : State) :
  perform_task env start_url task st = (Ok v, st') ->
  (exists raw, v = PDict [("error", PStr "ui_plan_not_parseable"); ("raw", PStr raw)])
  \/ (exists url plan execution st1 st2,
        v = report task start_url url execution
        /\ execute_ui_plan env plan 2 st1 = (Ok execution, st2)).
Proof.
  unfold perform_task. cbv zeta. intros H.
  apply bind_ok_inv in H as (resp & s1 & _ & H).
  apply bind_ok_inv in H as (cleaned & s2 & _ & H).
  apply bind_ok_inv in H as (url & s3 & _ & H).
  apply bind_ok_inv in H as (? & s4 & _ & H).
  apply bind_ok_inv in H as (? & s5 & _ & H).
  apply bind_ok_inv in H as (? & s6 & _ & H).
  apply bind_ok_inv in H as (? & s7 & _ & H).
  apply bind_ok_inv in H as (? & s8 & _ & H).
  apply bind_ok_inv in H as (dom & s9 & _ & H).
  apply bind_ok_inv in H as (ui_plan_resp & s10 & _ & H).
  assert (Hfinish : forall plan,
             (execution_results <- execute_ui_plan env plan 2 ;;
              driver_call env "browser.close" [] ;;
              ret (PDict [("task", task); ("start_url", opt_str start_url);
                          ("steps",
                           PList [PDict [("step", PInt 0);
                                         ("action", PStr "task_page_ready");
                                         ("url", PStr url)];
                                  PDict [("ui_plan_execution", execution_results)]])]))
               s10 = (Ok v, st') ->
             exists url plan execution st1 st2,
               v = report task start_url url execution
               /\ execute_ui_plan env plan 2 st1 = (Ok execution, st2)).
  { intros plan Hf.
    apply bind_ok_inv in Hf as (execution & s11 & Hexec & Hf).
    apply bind_ok_inv in Hf as (? & s12 & _ & Hf).
    unfold ret in Hf. inversion Hf.
    exists url, plan, execution, s10, s11. now split. }
  destruct ui_plan_resp as [| | | |text| |d]; try (right; now apply (Hfinish _ H)).
  destruct (loads env text) as [plan|e]; [right; now apply (Hfinish _ H)|].
  unfold ret in H. inversion H. left. now exists text.
Qed.

(** X13: a run that returns hands back one of three things: the
    [login_timeout] error, the [ui_plan_not_parseable] error around the
    planner's text, or a report with the task, the start URL and exactly two
    entries under [steps]: the task-page entry and the outcome of the plan,
    which is a list of records or the [ui_plan_not_list] error. *)
Theorem X13_run_returns_error_or_report (env : Env) (start_url : option string)
        (task v : pyval) (st st' : State) :
  run env start_url task st = (Ok v, st') ->
  v = PDict [("error", PStr "login_timeout")]
  \/ (exists raw, v = PDict [("error", PStr "ui_plan_not_parseable"); ("raw", PStr raw)])
  \/ (exists url execution,
        v = report task start_url url execution
        /\ ((exists records, execution = PList records)
            \/ exists plan,
                 is_list plan = false
                 /\ execution = PDict [("error", PStr "ui_plan_not_list");
                                       ("raw", plan)])).
Proof.
  rewrite run_phases. intros H.
  assert (Htask : forall s, perform_task env start_url task s = (Ok v, st') ->
                  (exists raw, v = PDict [("error", PStr "ui_plan_not_parseable");
                                          ("raw", PStr raw)])
                  \/ (exists url execution,
                        v = report task start_url url execution
                        /\ ((exists records, execution = PList records)
                            \/ exists plan,
                                 is_list plan = false
                                 /\ execution = PDict [("error", PStr "ui_plan_not_list");
                                                       ("raw", plan)]))).
  { intros s Hs.
    apply perform_task_value in Hs
      as [Hraw | (url & plan & execution & s1 & s2 & -> & Hexec)]; [now left|].
    right. exists url, execution. split; [reflexivity|].
    apply execute_ui_plan_value in Hexec as [Hl | [Hn ->]]; [now left|].
    right. now exists plan. }
  destruct (cookie_login env start_url st) as [[[|]|e1] s1]; try discriminate.
  - right. now apply (Htask s1).
  - destruct (ask_base_url env task s1) as [[base_url|e2] s2]; try discriminate.
    destruct (await_manual_login env base_url s2) as [[[|]|e3] s3]; try discriminate.
    + right. now apply (Htask s3).
    + inversion H. now left.
Qed.

Lemma X13_witness :
  let step := PDict [("action", PStr "press"); ("key", PStr "Tab")] in
  let v := report (PStr "open the site") None "https://example.com"
                  (PList [step_record 0 step
                            (PDict [("status", PStr "pressed"); ("key", PStr "Tab")])]) in
  v = PDict [("error", PStr "login_timeout")]
  \/ (exists raw, v = PDict [("error", PStr "ui_plan_not_parseable"); ("raw", PStr raw)])
  \/ (exists url execution,
        v = report (PStr "open the site") None url execution
        /\ ((exists records, execution = PList records)
            \/ exists plan,
                 is_list plan = false
                 /\ execution = PDict [("error", PStr "ui_plan_not_list");
                                       ("raw", plan)])).
Proof.
  set (env := scripted_env (fun _ => false) "<html></html>"
                (PDict [("url", PStr "https://example.com");
                        ("plan", PList [PDict [("action", PStr "press");
                                               ("key", PStr "Tab")]])])).
  refine (X13_run_returns_error_or_report env None (PStr "open the site")
            (report (PStr "open the site") None "https://example.com"
                    (PList [step_record 0 (PDict [("action", PStr "press");
                                                  ("key", PStr "Tab")])
                              (PDict [("status", PStr "pressed");
                                      ("key", PStr "Tab")])]))
            (initial_state false)
            (snd (run env None (PStr "open the site") (initial_state false))) _).
  vm_compute. reflexivity.
Defined.

(** ** Cleaned addresses *)

Lemma char_in_app (c : ascii) (a b : string) :
  char_in c (a ++ b) = char_in c a || char_in c b.
Proof.
  induction a as [|x a IH]; cbn [String.append char_in]; [reflexivity|].
  now rewrite IH, orb_assoc.
Qed.

(** X14: what [_clean_url] returns holds neither a space nor a backslash,
    whatever it was given. *)
Theorem X14_clean_url_leaves_no_space_or_backslash (url : string) :
  char_in " " (_clean_url url) = false /\ char_in backslash (_clean_url url) = false.
Proof.
  unfold _clean_url.
  destruct (url =? EmptyString); [now split|].
  destruct (negb _); [now split|].
  rewrite replace_both_concat_map.
  generalize (strip_chars quote_chars (strip url)). intros u.
  induction u as [|c u [IHs IHb]]; [now split|].
  cbn [concat_map]. rewrite !char_in_app, IHs, IHb, !orb_false_r.
  unfold clean_char.
  destruct (c =? " ")%char eqn:Hsp; [now split|].
  destruct (c =? backslash)%char eqn:Hb; [now split|].
  cbn [char_in]. rewrite Hsp, Hb. now split.
Qed.

Lemma clean_url_empty_or_http (url : string) :
  _clean_url url = EmptyString \/ startswith "http" (lower (_clean_url url)) = true.
Proof.
  unfold _clean_url.
  destruct (url =? EmptyString); [now left|].
  destruct (startswith "http" (lower (strip_chars quote_chars (strip url)))) eqn:Hhttp;
    cbn [negb]; [|now left].
  right. rewrite replace_both_concat_map. now apply accepted_keeps_prefix.
Qed.

(** X15: the base site the manual login is sent to always begins with the
    letters [http], in some letter case: a reply of the planner that yields
    nothing of that form is replaced by the default site. *)
Theorem X15_base_url_begins_with_http (env : Env) (task : pyval) (st st' : State)
        (base_url : string) :
  ask_base_url env task st = (Ok base_url, st') ->
  startswith "http" (lower base_url) = true.
Proof.
  unfold ask_base_url. intros H.
  apply bind_ok_inv in H as (resp & s1 & _ & H).
  apply bind_ok_inv in H as (found & s2 & _ & H).
  cbv zeta in H. unfold ret in H. inversion H as [[Hurl Hst]].
  destruct (_clean_url found =? EmptyString) eqn:Hempty; [reflexivity|].
  destruct (clean_url_empty_or_http found) as [Hnone | Hhttp]; [|exact Hhttp].
  rewrite Hnone in Hempty. discriminate.
Qed.

Lemma X15_witness :
  startswith "http" (lower "https://www.google.com") = true.
Proof.
  set (env := scripted_env (fun _ => false) EmptyString (PStr "no idea")).
  refine (X15_base_url_begins_with_http env PNone (initial_state false)
            (snd (ask_base_url env PNone (initial_state false)))
            "https://www.google.com" _).
  vm_compute. reflexivity.
Defined.

(** ** Addresses the cleaning accepts and the navigation refuses *)

Lemma head_letter_is_kept (c : ascii) :
  (lower_char c = "h" \/ lower_char c = "t" \/ lower_char c = "p")%char ->
  is_space c = false /\ char_in c quote_chars = false.
Proof.
  destruct c as [[] [] [] [] [] [] [] []]; vm_compute;
    intros [H|[H|H]]; try discriminate H; split; reflexivity.
Qed.

Lemma strip_keeps_head (p : ascii -> bool) (c1 c2 c3 c4 : ascii) (r : string) :
  p c1 = false -> p c2 = false -> p c3 = false -> p c4 = false ->
  strip_by p (String c1 (String c2 (String c3 (String c4 r))))
  = String c1 (String c2 (String c3 (String c4 (rstrip_by p r)))).
Proof.
  intros H1 H2 H3 H4. unfold strip_by. cbn [lstrip_by]. rewrite H1.
  cbn [rstrip_by]. now rewrite H1, H2, H3, H4, !andb_false_r.
Qed.

Lemma prefix_http_of_head (c1 c2 c3 c4 : ascii) (r r' : string) :
  startswith "http" (String c1 (String c2 (String c3 (String c4 r))))
  = startswith "http" (String c1 (String c2 (String c3 (String c4 r')))).
Proof.
  unfold startswith. rewrite !prefix_cons. now destruct r, r'.
Qed.

(** X17: the cleaning of addresses tests the lower-cased text for [http],
    the navigation tests the text as it is: an address the cleaning accepts
    that does not begin with [http] in lower case is refused by [goto], which
    then leaves the page where it was, without raising. *)
Theorem X17_goto_refuses_what_clean_url_accepts (env : Env) (url : string) (st : State) :
  _clean_url url <> EmptyString ->
  startswith "http" (_clean_url url) = false ->
  goto env (Some (_clean_url url)) st = (Ok tt, st).
Proof.
  intros Hkept Hcase.
  destruct (clean_url_empty_or_http url) as [Hnone | Hhttp]; [contradiction|].
  destruct (_clean_url url) as [|c1 [|c2 [|c3 [|c4 r]]]] eqn:Hc;
    unfold startswith in Hhttp; cbn [lower] in Hhttp;
    rewrite ?prefix_cons in Hhttp; cbn [String.prefix] in Hhttp;
    rewrite ?andb_false_r in Hhttp; try discriminate.
  repeat match type of Hhttp with
         | (_ && _ = true) => apply andb_prop in Hhttp; destruct Hhttp as [? Hhttp]
         end.
  repeat match goal with
         | E : (_ =? lower_char _)%char = true |- _ =>
             apply Ascii.eqb_eq in E; symmetry in E
         end.
  destruct (head_letter_is_kept c1) as [Hs1 Hq1]; [auto|].
  destruct (head_letter_is_kept c2) as [Hs2 Hq2]; [auto|].
  destruct (head_letter_is_kept c3) as [Hs3 Hq3]; [auto|].
  destruct (head_letter_is_kept c4) as [Hs4 Hq4]; [auto|].
  unfold goto. cbn [String.eqb].
  unfold strip, strip_chars.
  rewrite (strip_keeps_head is_space) by assumption.
  rewrite (strip_keeps_head (fun c => char_in c quote_chars)) by assumption.
  rewrite (prefix_http_of_head c1 c2 c3 c4 _ r), Hcase. reflexivity.
Qed.

Lemma X17_witness :
  goto (scripted_env (fun _ => false) EmptyString PNone)
       (Some (_clean_url "HTTPS://Example.com")) (initial_state false)
  = (Ok tt, initial_state false).
Proof.
  exact (X17_goto_refuses_what_clean_url_accepts
           (scripted_env (fun _ => false) EmptyString PNone) "HTTPS://Example.com"
           (initial_state false) ltac:(discriminate) eq_refl).
Defined.

(** ** The planner's transport *)

(** X18: [plan_action] posts the prompt once, and once more, after a pause
    of one second, exactly when the first post failed with a
    [RequestException]; a second such failure is answered with the
    [HTTP error after retry] dict carrying the text of the second exception,
    and any other exception of a post leaves the call at once. *)
Theorem X18_planner_posts_at_most_twice
        (json_loads : string -> res pyval) (to_str : pyval -> string)
        (post : nat -> post_outcome) :
  plan_action_http json_loads to_str post
  = match post 0 with
    | PostOk data => (respond json_loads to_str data, [HttpPost 0])
    | PostOtherException e => (Raise e, [HttpPost 0])
    | PostRequestException _ =>
        let log := [HttpPost 0; HttpSleep 1; HttpPost 1] in
        match post 1 with
        | PostOk data => (respond json_loads to_str data, log)
        | PostOtherException e => (Raise e, log)
        | PostRequestException msg =>
            (Ok (PDict [("error", PStr ("HTTP error after retry: " ++ msg))]), log)
        end
    end.
Proof.
  unfold plan_action_http. cbn [seq transport Nat.eqb].
  destruct (post 0); [reflexivity| |reflexivity].
  destruct (post 1); reflexivity.
Qed.

Lemma respond_raises_only_on_other_values
      (json_loads : string -> res pyval) (to_str : pyval -> string)
      (data : pyval) (e : exn) :
  respond json_loads to_str data = Raise e ->
  truthy data = true /\ is_dict data = false
  /\ e = AttributeError_get (type_name data).
Proof.
  unfold respond. destruct (truthy data) eqn:Ht; cbn [negb]; [|discriminate].
  destruct data as [| | | | | |d]; try (intros H; inversion H; now repeat split).
  destruct (negb _); [discriminate|].
  destruct (candidate_text to_str d); discriminate.
Qed.

(** X19: [plan_action] raises in two cases only: a post fails with an
    exception that is no [RequestException], or the decoded body is a truthy
    value that is no dict, on which [data.get] does not exist.  Whatever a
    body that is a dict holds, the call returns. *)
Theorem X19_planner_raises_only_outside_its_handlers
        (json_loads : string -> res pyval) (to_str : pyval -> string)
        (post : nat -> post_outcome) (e : exn) :
  fst (plan_action_http json_loads to_str post) = Raise e ->
  (exists attempt, attempt < 2 /\ post attempt = PostOtherException e)
  \/ (exists attempt data,
        attempt < 2 /\ post attempt = PostOk data
        /\ truthy data = true /\ is_dict data = false
        /\ e = AttributeError_get (type_name data)).
Proof.
  unfold plan_action_http. cbn [seq transport Nat.eqb].
  destruct (post 0) as [data|msg|x] eqn:H0; cbn [fst].
  - intros H. apply respond_raises_only_on_other_values in H as (Ht & Hd & ->).
    right. exists 0, data. repeat split; auto.
  - destruct (post 1) as [data|msg'|x] eqn:H1; cbn [fst].
    + intros H. apply respond_raises_only_on_other_values in H as (Ht & Hd & ->).
      right. exists 1, data. repeat split; auto.
    + discriminate.
    + intros H. inversion H. subst x. left. exists 1. auto.
  - intros H. inversion H. subst x. left. exists 0. auto.
Qed.

Lemma X19_witness :
  (exists attempt,
      attempt < 2
      /\ (fun _ : nat => PostOk (PList [PInt 1])) attempt
         = PostOtherException (AttributeError_get "list"))
  \/ (exists attempt data,
        attempt < 2 /\ (fun _ : nat => PostOk (PList [PInt 1])) attempt = PostOk data
        /\ truthy data = true /\ is_dict data = false
        /\ AttributeError_get "list" = AttributeError_get (type_name data)).
Proof.
  exact (X19_planner_raises_only_outside_its_handlers
           json_loads py_str_scalar (fun _ => PostOk (PList [PInt 1]))
           (AttributeError_get "list") eq_refl).
Defined.




(** ** Configuration *)

Lemma loaded_config_lookup (to_str : pyval -> string)
      (getenv : string -> option string) (cfg : dict) :
  let loaded := load_config_env to_str getenv cfg in
  let m := env_value_or getenv "GEMINI_MODEL"
                        (dict_get cfg "gemini_model" default_model) in
  get loaded "gemini_api_key"
  = (if truthy (env_value getenv "GEMINI_API_KEY")
     then env_value getenv "GEMINI_API_KEY" else get cfg "gemini_api_key")
  /\ (forall dflt, dict_get loaded "gemini_model" dflt = m)
  /\ (forall dflt,
         dict_get loaded "gemini_endpoint" dflt
         = env_value_or getenv "GEMINI_ENDPOINT" (PStr (default_endpoint to_str m))).
Proof.
  cbv zeta. unfold load_config_env, get.
  destruct (truthy (env_value getenv "GEMINI_API_KEY")) eqn:Hkey.
  - repeat split; intros;
      repeat (rewrite dict_get_set_same || rewrite dict_get_set_other by discriminate);
      reflexivity.
  - repeat split; intros;
      repeat (rewrite dict_get_set_same || rewrite dict_get_set_other by discriminate);
      reflexivity.
Qed.

(** X21: the client built from a loaded configuration takes its model from
    [GEMINI_MODEL] whenever that variable is set, an empty value included,
    and from the file, or the default, only when it is unset; its endpoint is
    [GEMINI_ENDPOINT] when set and otherwise the address derived from that
    model; the key is the variable when it is set and not empty, else the
    file's, and the construction fails exactly when neither gives one. *)
Theorem X21_client_of_loaded_configuration (to_str : pyval -> string)
        (getenv : string -> option string) (cfg : dict) :
  let k := py_or (env_value getenv "GEMINI_API_KEY") (get cfg "gemini_api_key") in
  let m := env_value_or getenv "GEMINI_MODEL"
                        (dict_get cfg "gemini_model" default_model) in
  let e := env_value_or getenv "GEMINI_ENDPOINT" (PStr (default_endpoint to_str m)) in
  GeminiClient_init to_str getenv (load_config_env to_str getenv cfg)
  = if truthy k then Ok {| key := k; model := m; endpoint := e |}
    else Raise (Exn "ValueError" "GEMINI_API_KEY not set in environment or config").
Proof.
  cbv zeta.
  destruct (loaded_config_lookup to_str getenv cfg) as (Hkey & Hmodel & Hendpoint).
  unfold GeminiClient_init. rewrite Hkey, Hmodel, Hendpoint.
  assert (Hk : py_or (env_value getenv "GEMINI_API_KEY")
                     (if truthy (env_value getenv "GEMINI_API_KEY")
                      then env_value getenv "GEMINI_API_KEY"
                      else get cfg "gemini_api_key")
               = py_or (env_value getenv "GEMINI_API_KEY") (get cfg "gemini_api_key")).
  { unfold py_or. now destruct (truthy (env_value getenv "GEMINI_API_KEY")). }
  assert (Hm : py_or (env_value getenv "GEMINI_MODEL")
                     (env_value_or getenv "GEMINI_MODEL"
                                   (dict_get cfg "gemini_model" default_model))
               = env_value_or getenv "GEMINI_MODEL"
                              (dict_get cfg "gemini_model" default_model)).
  { unfold py_or, env_value, env_value_or.
    destruct (getenv "GEMINI_MODEL") as [s|]; [|reflexivity].
    now destruct (truthy (PStr s)). }
  rewrite Hk, Hm.
  assert (He : forall x,
             py_or (env_value getenv "GEMINI_ENDPOINT")
                   (env_value_or getenv "GEMINI_ENDPOINT" x)
             = env_value_or getenv "GEMINI_ENDPOINT" x).
  { intros x. unfold py_or, env_value, env_value_or.
    destruct (getenv "GEMINI_ENDPOINT") as [s|]; [|reflexivity].
    now destruct (truthy (PStr s)). }
  rewrite He.
  now destruct (truthy (py_or (env_value getenv "GEMINI_API_KEY")
                              (get cfg "gemini_api_key"))).
Qed.

(** X22: the [gemini_endpoint] of the configuration file is never used:
    [load_config] overwrites it before the client reads it, so two files that
    differ in that entry only give the same client. *)
Theorem X22_config_file_endpoint_is_never_used (to_str : pyval -> string)
        (getenv : string -> option string) (cfg : dict) (v : pyval) :
  GeminiClient_init to_str getenv
                    (load_config_env to_str getenv (dict_set "gemini_endpoint" v cfg))
  = GeminiClient_init to_str getenv (load_config_env to_str getenv cfg).
Proof.
  destruct (loaded_config_lookup to_str getenv cfg) as (Hkey & Hmodel & Hendpoint).
  destruct (loaded_config_lookup to_str getenv (dict_set "gemini_endpoint" v cfg))
    as (Hkey' & Hmodel' & Hendpoint').
  unfold get in *. rewrite !dict_get_set_other in * by discriminate.
  unfold GeminiClient_init, get.
  now rewrite Hkey, Hkey', Hmodel, Hmodel', Hendpoint, Hendpoint'.
Qed.

(** ** The login banner *)

Lemma emits_trace {A} (p : event -> bool) (m : M A) (st st' : State) (r : res A) :
  emits p m -> m st = (r, st') -> exists delta, trace st' = trace st ++ delta.
Proof.
  intros Hm Hrun. destruct (run_outcome p m st Hm) as (delta & Ht & _).
  rewrite Hrun in Ht. now exists delta.
Qed.

Lemma page_evaluate_trace (env : Env) (args : list pyval) (st st' : State) (r : res unit) :
  try_catch (driver_call env "page.evaluate" args) (fun _ => ret tt) st = (r, st') ->
  trace st' = trace st ++ [EvDriver "page.evaluate" args].
Proof.
  unfold try_catch, driver_call, external, bind, read, emit, elapse, write, ret, raise.
  destruct (ext_raises env _); intros H; inversion H; reflexivity.
Qed.

Lemma poll_login_takes_banner_down (env : Env) (start_time : Z) :
  forall (fuel : nat) (st st' : State) (b : bool),
    poll_login env fuel start_time st = (Ok b, st') ->
    exists delta,
      trace st' = trace st ++ delta
      /\ (b = true ->
          In (EvDriver "page.evaluate" [PStr "manual-login-banner: remove"]) delta).
Proof.
  induction fuel as [|fuel IH]; intros st st' b H; cbn [poll_login] in H;
    apply bind_ok_inv in H as (now & s0 & Hnow & H);
    unfold time_time, read in Hnow; inversion Hnow; subst now s0; clear Hnow;
    destruct (clock st - start_time <? MANUAL_LOGIN_TIMEOUT * 1000)%Z;
    try discriminate H;
    try (unfold ret in H; inversion H; exists []; rewrite app_nil_r;
         split; [reflexivity | discriminate]).
  apply bind_ok_inv in H as (detected & s1 & Hprobe & H).
  destruct (emits_trace _ _ _ _ _ (emits_is_logged_in env) Hprobe) as (d1 & Ht1).
  destruct detected.
  - apply bind_ok_inv in H as (? & s2 & Hrm & H).
    apply page_evaluate_trace in Hrm.
    apply bind_ok_inv in H as (? & s3 & Hsave & H).
    assert (Hem : emits any_event
                        (try_catch (save_storage_state env) (fun _ => ret tt)))
      by (unfold save_storage_state, driver_call, file_call; emits_go).
    destruct (emits_trace _ _ _ _ _ Hem Hsave) as (d3 & Ht3).
    unfold ret in H. inversion H. subst b st'.
    exists (d1 ++ [EvDriver "page.evaluate" [PStr "manual-login-banner: remove"]] ++ d3).
    split; [now rewrite Ht3, Hrm, Ht1, <- !app_assoc|].
    intros _. apply in_or_app. right. now left.
  - apply bind_ok_inv in H as (? & s2 & Hsleep & H).
    destruct (sleep_three env s1) as (s2' & Hs & Ht2 & _).
    rewrite Hs in Hsleep. inversion Hsleep. subst s2'.
    apply IH in H as (d3 & Ht3 & Hin).
    exists (d1 ++ [EvSleep PollSleep (PInt 3)] ++ d3).
    split; [now rewrite Ht3, Ht2, Ht1, <- !app_assoc|].
    intros Hb. apply in_or_app. right. right. now apply Hin.
Qed.

(** X23: waiting for the manual login always returns, and never with the
    banner still on the page: whether the login was detected or the time ran
    out, the call that puts the banner up is followed by the call that takes
    it down. *)
Theorem X23_login_banner_is_taken_down (env : Env) (base_url : string) (st : State) :
  exists (b : bool) (st' : State) (before between after : list event),
    await_manual_login env base_url st = (Ok b, st')
    /\ events_since st st'
       = before
         ++ [EvDriver "page.evaluate"
                      [PStr "manual-login-banner: show"; PInt MANUAL_LOGIN_TIMEOUT]]
         ++ between
         ++ [EvDriver "page.evaluate" [PStr "manual-login-banner: remove"]]
         ++ after.
Proof.
  destruct (await_manual_login_spec env base_url st) as (b & st' & delta & Hrun & _).
  exists b, st'. pose proof Hrun as H.
  unfold await_manual_login in H. cbv zeta in H.
  apply bind_ok_inv in H as (? & s1 & Hgo & H).
  destruct (emits_trace _ _ _ _ _
              (emits_goto env any_event _ ltac:(reflexivity)) Hgo) as (d1 & Ht1).
  apply bind_ok_inv in H as (? & s2 & Hshow & H).
  unfold show_manual_login_prompt in Hshow. apply page_evaluate_trace in Hshow.
  apply bind_ok_inv in H as (start_time & s2' & Hnow & H).
  unfold time_time, read in Hnow. inversion Hnow. subst start_time s2'. clear Hnow.
  apply bind_ok_inv in H as (detected & s3 & Hpoll & H).
  apply poll_login_takes_banner_down in Hpoll as (d3 & Ht3 & Hin).
  destruct detected.
  - unfold ret in H. inversion H. subst b st'.
    destruct (in_split _ _ (Hin eq_refl)) as (mid & rest & ->).
    exists d1, mid, rest. split; [exact Hrun|].
    apply events_since_app. rewrite Ht3, Hshow, Ht1, <- !app_assoc. reflexivity.
  - apply bind_ok_inv in H as (? & s4 & Hrm & H).
    unfold remove_manual_login_prompt in Hrm. apply page_evaluate_trace in Hrm.
    unfold ret in H. inversion H. subst b st'.
    exists d1, d3, []. split; [exact Hrun|].
    apply events_since_app. rewrite Hrm, Ht3, Hshow, Ht1, <- !app_assoc. reflexivity.
Qed.

(** ** Stored cookies make the manual login unnecessary *)

Lemma quiet_driver (m : string) (args : list pyval) :
  (m =? "page.evaluate") = false -> no_manual_login (EvDriver m args) = true.
Proof.
  intros H. unfold no_manual_login. cbn [is_base_prompt negb andb].
  destruct args as [|[] args]; cbn [is_login_banner]; rewrite ?H; reflexivity.
Qed.

Ltac quiet_side := first [ reflexivity | apply quiet_driver; reflexivity ].

(** Proves [emits no_manual_login m] by following the structure of [m]. *)
Ltac quiet_go :=
  repeat first
    [ apply emits_ret | apply emits_raise | apply emits_read
    | apply emits_emit; quiet_side
    | apply emits_external; quiet_side
    | apply emits_time_sleep; reflexivity
    | apply emits_plan_action; reflexivity
    | apply emits_goto; intros; reflexivity
    | apply emits_write_pure; intros; split; reflexivity
    | solve [eauto with quiet]
    | match goal with
      | |- emits _ (if ?b then _ else _) => destruct b
      | |- emits _ (match ?x with _ => _ end) => destruct x
      end
    | apply emits_bind; [ | intros ]
    | apply emits_try_catch; [ | intros ] ].

Create HintDb quiet.

Lemma quiet_execute_action (env : Env) (action : pyval) :
  emits no_manual_login (execute_action env action).
Proof. unfold execute_action, execute_action_body. cbv zeta. quiet_go. Qed.
#[export] Hint Resolve quiet_execute_action : quiet.

Lemma quiet_attempt_once (env : Env) (step : dict) (typ selector value result : pyval) :
  emits no_manual_login (attempt_once env step typ selector value result).
Proof. unfold attempt_once, attempt_try. cbv zeta. quiet_go. Qed.
#[export] Hint Resolve quiet_attempt_once : quiet.

Lemma quiet_retry_loop (env : Env) (idx : nat) (step : dict) (typ selector value : pyval)
      (attempts : list nat) :
  forall result,
    emits no_manual_login (retry_loop env idx step typ selector value attempts result).
Proof.
  induction attempts as [|attempt rest IH]; intros result; cbn [retry_loop]; quiet_go.
Qed.
#[export] Hint Resolve quiet_retry_loop : quiet.

Lemma quiet_recover (env : Env) (step result : pyval) (results : list pyval) :
  emits no_manual_login (recover env step result results).
Proof. unfold recover, page_content. cbv zeta. quiet_go. Qed.
#[export] Hint Resolve quiet_recover : quiet.

Lemma quiet_execute_step (env : Env) (max_retries idx : nat) (step : pyval)
      (results : list pyval) :
  emits no_manual_login (execute_step env max_retries idx step results).
Proof. unfold execute_step. cbv zeta. quiet_go. Qed.
#[export] Hint Resolve quiet_execute_step : quiet.

Lemma quiet_run_steps (env : Env) (max_retries : nat) (steps : list pyval) :
  forall (idx : nat) (results : list pyval),
    emits no_manual_login (run_steps env max_retries idx steps results).
Proof.
  induction steps as [|step rest IH]; intros idx results; cbn [run_steps]; quiet_go.
Qed.
#[export] Hint Resolve quiet_run_steps : quiet.

Lemma quiet_execute_ui_plan (env : Env) (ui_plan : pyval) (max_retries : nat) :
  emits no_manual_login (execute_ui_plan env ui_plan max_retries).
Proof. unfold execute_ui_plan. quiet_go. Qed.
#[export] Hint Resolve quiet_execute_ui_plan : quiet.

Lemma quiet_capture (env : Env) (label : string) :
  emits no_manual_login (capture env label).
Proof. unfold capture, page_content, driver_call. cbv zeta. quiet_go. Qed.
#[export] Hint Resolve quiet_capture : quiet.

Lemma quiet_perform_task (env : Env) (start_url : option string) (task : pyval) :
  emits no_manual_login (perform_task env start_url task).
Proof.
  unfold perform_task, _capture_unique_state, clean_url_of, page_url, page_content,
    file_call, driver_call.
  cbv zeta. quiet_go.
Qed.

Lemma quiet_cookie_login (env : Env) (start_url : option string) :
  emits no_manual_login (cookie_login env start_url).
Proof.
  unfold cookie_login, preload_cookies, is_logged_in, context_cookies, page_content,
    file_call, driver_call.
  cbv zeta. quiet_go.
Qed.

(** X24: when the stored cookies are found to log the session in, the run
    goes straight on to the task: the planner is not asked for the base site
    and the manual-login banner is never put on the page, whatever the plan
    and its execution do afterwards. *)
Theorem X24_valid_cookies_skip_manual_login (env : Env) (start_url : option string)
        (task : pyval) (st st1 : State) :
  cookie_login env start_url st = (Ok true, st1) ->
  forallb no_manual_login (events_since st (snd (run env start_url task st))) = true.
Proof.
  intros Hcookie. rewrite run_phases, Hcookie.
  destruct (run_outcome _ _ st (quiet_cookie_login env start_url)) as (d1 & Ht1 & Hq1 & _).
  rewrite Hcookie in Ht1. cbn [snd] in Ht1.
  destruct (run_outcome _ _ st1 (quiet_perform_task env start_url task))
    as (d2 & Ht2 & Hq2 & _).
  rewrite (events_since_app st _ (d1 ++ d2)) by (now rewrite Ht2, Ht1, app_assoc).
  now rewrite forallb_app, Hq1, Hq2.
Qed.

Lemma X24_witness :
  let env := scripted_env (fun _ => false) "<html></html>" (PStr "https://example.com") in
  forallb no_manual_login
          (events_since (initial_state true)
                        (snd (run env None (PStr "open the site") (initial_state true))))
  = true.
Proof.
  set (env := scripted_env (fun _ => false) "<html></html>" (PStr "https://example.com")).
  refine (X24_valid_cookies_skip_manual_login env None (PStr "open the site")
            (initial_state true) (snd (cookie_login env None (initial_state true))) _).
  vm_compute. reflexivity.
Defined.

(** ** The cookie file after the replay of stored cookies *)

Section KeepsCookieFile.
Context {A B : Type}.

Lemma keeps_ret (a : A) : keeps_cookie_file (ret a).
Proof. intros st. reflexivity. Qed.

Lemma keeps_raise (e : exn) : keeps_cookie_file (@raise A e).
Proof. intros st. reflexivity. Qed.

Lemma keeps_read (f : State -> A) : keeps_cookie_file (read f).
Proof. intros st. reflexivity. Qed.

Lemma keeps_bind (m : M A) (f : A -> M B) :
  keeps_cookie_file m -> (forall a, keeps_cookie_file (f a)) ->
  keeps_cookie_file (bind m f).
Proof.
  intros Hm Hf st. unfold bind. specialize (Hm st).
  destruct (m st) as [[a|e] st1]; cbn [snd] in *; [|exact Hm].
  now rewrite Hf.
Qed.

Lemma keeps_try_catch (m : M A) (h : exn -> M A) :
  keeps_cookie_file m -> (forall e, keeps_cookie_file (h e)) ->
  keeps_cookie_file (try_catch m h).
Proof.
  intros Hm Hh st. unfold try_catch. specialize (Hm st).
  destruct (m st) as [[a|e] st1]; cbn [snd] in *; [exact Hm|].
  now rewrite Hh.
Qed.
End KeepsCookieFile.

Lemma keeps_write (f : State -> State) :
  (forall st, cookie_file (f st) = cookie_file st) -> keeps_cookie_file (write f).
Proof. intros Hf st. apply Hf. Qed.

(** Proves [keeps_cookie_file m] by following the structure of [m]. *)
Ltac keeps_go :=
  unfold goto, preload_cookies, is_logged_in, context_cookies, page_content,
    time_sleep, file_call, driver_call, external, emit, elapse;
  repeat first
    [ apply keeps_ret | apply keeps_raise | apply keeps_read
    | apply keeps_write; intros; reflexivity
    | match goal with
      | |- keeps_cookie_file (if ?b then _ else _) => destruct b
      | |- keeps_cookie_file (match ?x with _ => _ end) => destruct x
      end
    | apply keeps_bind; [ | intros ]
    | apply keeps_try_catch; [ | intros ] ].

(** One step of a run that returned, with what it did to the cookie file. *)
Ltac keeps_step H :=
  let a := fresh "a" in
  let s := fresh "s" in
  let Hm := fresh "Hm" in
  let K := fresh "K" in
  apply bind_ok_inv in H as (a & s & Hm & H);
  match type of Hm with
  | ?m ?st0 = _ =>
      assert (K : keeps_cookie_file m) by keeps_go;
      specialize (K st0); rewrite Hm in K; cbn [snd] in K
  end.

(** X25: when the replay of stored cookies returns, its answer tells whether
    a cookie file is left: a file whose cookies did not log the session in
    has been removed, so that the next run does not try it again, and a file
    that did is kept. *)
Theorem X25_cookie_file_left_iff_cookies_worked (env : Env) (start_url : option string)
        (st st1 : State) (logged_in : bool) :
  cookie_login env start_url st = (Ok logged_in, st1) ->
  cookie_file st1 = logged_in.
Proof.
  unfold cookie_login. cbv zeta. intros H.
  do 7 keeps_step H.
  apply bind_ok_inv in H as (exists_ & s7 & Hread & H).
  unfold read in Hread. inversion Hread. subst exists_ s7. clear Hread.
  destruct (cookie_file s5) eqn:Hfile.
  - do 4 keeps_step H.
    destruct a9.
    + unfold ret in H. inversion H. subst. congruence.
    + apply bind_ok_inv in H as (? & s10 & _ & H).
      apply bind_ok_inv in H as (? & s11 & Hw & H).
      unfold write in Hw. inversion Hw. subst s11.
      unfold ret in H. inversion H. reflexivity.
  - unfold ret in H. inversion H. subst. assumption.
Qed.

Lemma X25_witness :
  let env := scripted_env (fun _ => false) "<h1>Sign in</h1>" PNone in
  cookie_file (snd (cookie_login env None (initial_state true))) = false.
Proof.
  set (env := scripted_env (fun _ => false) "<h1>Sign in</h1>" PNone).
  refine (X25_cookie_file_left_iff_cookies_worked env None (initial_state true)
            (snd (cookie_login env None (initial_state true))) false _).
  vm_compute. reflexivity.
Defined.

(** ** The repair of bare keys *)

Lemma string_app_nil_r (s : string) : (s ++ EmptyString)%string = s.
Proof. induction s as [|c s IH]; cbn; [reflexivity | now rewrite IH]. Qed.

Lemma quote_keys_from_word (w : string) :
  forall (acc s : string),
    all_chars is_word w = true ->
    quote_keys_from acc (w ++ s) = quote_keys_from (acc ++ w) s.
Proof.
  induction w as [|c w IH]; intros acc s Hw; cbn [String.append].
  - now rewrite string_app_nil_r.
  - cbn [all_chars] in Hw. apply andb_prop in Hw as [Hc Hw].
    cbn [quote_keys_from]. rewrite Hc, IH by assumption.
    now rewrite string_app_assoc.
Qed.

Lemma quote_keys_from_split (c : ascii) (s : string) :
  is_word c = false ->
  forall (pre acc : string),
    quote_keys_from acc (pre ++ String c s)
    = (quote_keys_from acc (pre ++ String c EmptyString)
       ++ quote_keys_from EmptyString s)%string.
Proof.
  intros Hc. induction pre as [|a pre IH]; intros acc; cbn [String.append].
  - cbn [quote_keys_from]. rewrite Hc.
    destruct ((c =? ":")%char && negb (acc =? EmptyString));
      rewrite string_app_assoc; reflexivity.
  - cbn [quote_keys_from]. destruct (is_word a); [apply IH|].
    destruct ((a =? ":")%char && negb (acc =? EmptyString));
      rewrite IH, string_app_assoc; reflexivity.
Qed.

(** X26: the repair wraps in double quotes every run of word characters
    that a colon follows, wherever it stands: it does not tell a bare key
    from the inside of a string, so the scheme of an address in a value is
    quoted like a key. *)
Theorem X26_key_quoting_is_blind_to_context (pre w post : string) (c : ascii) :
  is_word c = false ->
  w <> EmptyString ->
  all_chars is_word w = true ->
  quote_bare_keys (pre ++ String c (w ++ String ":" post))
  = (quote_bare_keys (pre ++ String c EmptyString)
     ++ String dquote w ++ String dquote (String ":" (quote_bare_keys post)))%string.
Proof.
  intros Hc Hne Hw. unfold quote_bare_keys.
  rewrite (quote_keys_from_split c _ Hc). f_equal.
  rewrite quote_keys_from_word by assumption.
  cbn [String.append quote_keys_from].
  change (is_word ":") with false. cbv iota.
  rewrite Ascii.eqb_refl.
  destruct (w =? EmptyString) eqn:Hempty; [|reflexivity].
  apply String.eqb_eq in Hempty. contradiction.
Qed.

Lemma X26_witness :
  quote_bare_keys "see https://linear.app"
  = (quote_bare_keys "see "
     ++ String dquote "https" ++ String dquote (String ":" (quote_bare_keys "//linear.app")))%string.
Proof.
  exact (X26_key_quoting_is_blind_to_context "see" "https" "//linear.app" " "
           eq_refl ltac:(discriminate) eq_refl).
Defined.

(** ** A reply without a plan *)

Lemma plan_action_run (env : Env) (p : prompt) (st st' : State) (r : pyval) :
  plan_action env p st = (Ok r, st') ->
  r = planner env (List.length (trace st))
  /\ trace st' = trace st ++ [EvPlanner p].
Proof.
  unfold plan_action, bind, read, emit, elapse, write, ret. intros H.
  inversion H. now split.
Qed.

(** One step of a run that returned, with the events it logged. *)
Ltac advance_step H Hadv :=
  let a := fresh "a" in
  let s := fresh "s" in
  let Hm := fresh "Hm" in
  let K := fresh "K" in
  let Hnew := fresh "Hadv" in
  apply bind_ok_inv in H as (a & s & Hm & H);
  match type of Hm with
  | ?m ?st0 = _ =>
      assert (K : emits no_step_event m)
        by (unfold _capture_unique_state, capture, clean_url_of, page_url,
              page_content, file_call, driver_call;
            cbv zeta; emits_go);
      specialize (K st0); rewrite Hm in K; cbn [snd] in K;
      pose proof (advance_trans _ _ _ _ Hadv K) as Hnew;
      clear Hadv K; rename Hnew into Hadv
  end.

(** X16: a reply to the plan request that is a dict whose [plan] and [steps]
    are missing or falsy, an empty list for one, is itself taken for the
    plan: no step is tried and no action reaches the executor, and the report
    holds the [ui_plan_not_list] error around the whole reply.  What the
    planner answers to the other prompts of the run plays no part. *)
Theorem X16_reply_without_plan_is_taken_for_the_plan
        (env : Env) (start_url : option string) (task v : pyval) (reply : dict)
        (st st' : State) :
  perform_task env start_url task st = (Ok v, st') ->
  (forall k dom,
      nth_error (events_since st st') k = Some (EvPlanner (UiPlanPrompt dom)) ->
      planner env (List.length (trace st) + k) = PDict reply) ->
  truthy (get reply "plan") = false ->
  truthy (get reply "steps") = false ->
  (exists url,
      v = report task start_url url
                 (PDict [("error", PStr "ui_plan_not_list"); ("raw", PDict reply)]))
  /\ forallb no_step_event (events_since st st') = true.
Proof.
  intros H Hreply Hplan Hsteps.
  pose proof (advance_refl no_step_event st) as Hadv.
  unfold perform_task in H. cbv zeta in H.
  do 9 advance_step H Hadv.
  apply bind_ok_inv in H as (ui_plan_resp & s10 & Hresp & H).
  match type of Hresp with
  | plan_action _ (UiPlanPrompt ?dom) ?s9 = _ =>
      pose proof (emits_plan_action env no_step_event (UiPlanPrompt dom) eq_refl s9)
        as Hask;
      rewrite Hresp in Hask; cbn [snd] in Hask;
      apply plan_action_run in Hresp as [Hvalue Ht10];
      assert (Hdict : planner env (List.length (trace s9)) = PDict reply)
  end.
  { destruct Hadv as [(d9 & Ht9 & _) _].
    assert (Hrest : exists d, trace st' = trace s10 ++ d).
    { match type of H with
      | ?m s10 = _ =>
          assert (K : emits any_event m)
            by (unfold driver_call; destruct ui_plan_resp; emits_go);
          exact (emits_trace any_event m s10 st' _ K H)
      end. }
    destruct Hrest as (d & Ht').
    rewrite Ht9, length_app. eapply Hreply.
    erewrite events_since_app
      by (rewrite Ht', Ht10, Ht9, <- !app_assoc; reflexivity).
    rewrite nth_error_app2 by lia. rewrite Nat.sub_diag. reflexivity. }
  rewrite Hdict in Hvalue. rewrite Hvalue in H. clear Hvalue Hdict.
  cbv iota beta in H. unfold py_or in H. rewrite Hplan, Hsteps in H.
  apply bind_ok_inv in H as (execution & s11 & Hexec & H).
  cbn [execute_ui_plan] in Hexec. unfold ret in Hexec. inversion Hexec.
  subst execution s11. clear Hexec.
  pose proof (advance_trans _ _ _ _ Hadv Hask) as Hadv'. clear Hadv Hask.
  advance_step H Hadv'.
  unfold ret in H. inversion H. subst v st'.
  split; [now eexists|].
  destruct Hadv' as [(delta & Ht & Hq) _].
  now rewrite (events_since_app _ _ delta Ht).
Qed.

Lemma X16_witness :
  let reply := [("plan", PList [])] in
  let env := {| ext_raises := fun _ => None;
                drv_found := fun _ => true;
                drv_text := fun _ => "<html></html>"%string;
                drv_cookies := fun _ => [];
                planner := fun k => if (k =? 0)%nat then PStr "https://example.com"
                                    else PDict reply;
                latency := fun _ => 0%N;
                loads := json_loads;
                py_str := py_str_scalar;
                outdir := "out" |} in
  let st := initial_state false in
  let st' := snd (perform_task env None (PStr "open the site") st) in
  (exists url,
      report (PStr "open the site") None "https://example.com"
             (PDict [("error", PStr "ui_plan_not_list"); ("raw", PDict reply)])
      = report (PStr "open the site") None url
               (PDict [("error", PStr "ui_plan_not_list"); ("raw", PDict reply)]))
  /\ forallb no_step_event (events_since st st') = true.
Proof.
  intros reply env st st'.
  refine (X16_reply_without_plan_is_taken_for_the_plan env None (PStr "open the site")
            (report (PStr "open the site") None "https://example.com"
                    (PDict [("error", PStr "ui_plan_not_list"); ("raw", PDict reply)]))
            reply st st' _ _ eq_refl eq_refl).
  - vm_compute. reflexivity.
  - intros [|k] dom Hk; [vm_compute in Hk; discriminate | reflexivity].
Defined.
